(** * Arcas OnlineEDA MCP server: a shallow embedding of the tool layer

    The development follows the TypeScript sources:
    - [src/types/index.ts]              the result and session records,
    - [src/utils/browser.ts]            [BrowserManager],
    - [src/tools/base.ts]               [AbstractTool.validateAndExecute],
    - [src/tools/navigate.ts], [project.ts], [upload-file.ts],
      [run-verification.ts], [natural-language.ts]   the five tools,
    - [src/index.ts]                    the registry of tools.

    Asynchronous methods are embedded as trees of requests ([prog]): a
    node is either a synchronous access to what the process owns (the
    session record, [process.env], the logger) or an awaited call on the
    puppeteer page, whose promise the environment resolves or rejects.
    The same tree is run by one caller alone ([run]) and interleaved
    with other callers at its awaited calls ([resume]).

    Conventions of the embedding:
    - strings are byte strings; [toLowerCase] and white space are those
      of ASCII;
    - the numbers of the schemas are integers; the quotient of two word
      counts is an exact rational (the comparisons of the source, on
      doubles, give the same answers on such quotients);
    - the logger does not throw;
    - zod's [parse] and Node's [path.resolve] are parameters
      ([Externals]); puppeteer and [fs.access] are the environment. *)

From Stdlib Require Import String Ascii List ZArith QArith Bool Lia Arith.
From Stdlib Require Import DecimalString Lqa.
From Stdlib Require Import Permutation.
Import ListNotations.

Local Open Scope list_scope.
Local Open Scope string_scope.

Set Implicit Arguments.

(* ===================================================================== *)
(** ** JavaScript strings *)
(* ===================================================================== *)

Module Js.

(** [String.prototype.toLowerCase], on the ASCII letters. *)
Definition lower_ascii (c : ascii) : ascii :=
  let n := nat_of_ascii c in
  if (65 <=? n)%nat && (n <=? 90)%nat then ascii_of_nat (n + 32) else c.

Fixpoint toLowerCase (s : string) : string :=
  match s with
  | EmptyString => EmptyString
  | String c r => String (lower_ascii c) (toLowerCase r)
  end.

(** [s.includes(sub)]: [sub] occurs in [s] as a contiguous substring. *)
Fixpoint includes (s sub : string) : bool :=
  if String.prefix sub s then true
  else match s with
       | EmptyString => false
       | String _ r => includes r sub
       end.

(** [s.split(sep)] for a one-character separator: cut at every
    occurrence; the result is never empty, and consecutive separators
    give empty words. *)
Fixpoint split (sep : ascii) (s : string) : list string :=
  match s with
  | EmptyString => [EmptyString]
  | String c r =>
      if Ascii.eqb c sep then EmptyString :: split sep r
      else match split sep r with
           | w :: ws => String c w :: ws
           | [] => [String c EmptyString]
           end
  end.

(** [arr.pop()] read as "the last element", [undefined] on []. *)
Definition pop (l : list string) : option string :=
  last (map Some l) None.

(** [arr.includes(x)] on an array of strings. *)
Definition arr_includes (l : list string) (x : string) : bool :=
  existsb (String.eqb x) l.

(** [arr.join(sep)]. *)
Fixpoint join (sep : string) (l : list string) : string :=
  match l with
  | [] => EmptyString
  | [x] => x
  | x :: r => x ++ sep ++ join sep r
  end.

(** White space as [trim] and [parseInt] see it (ASCII part). *)
Definition is_space (c : ascii) : bool :=
  let n := nat_of_ascii c in
  (n =? 32)%nat || ((9 <=? n)%nat && (n <=? 13)%nat).

Fixpoint trimStart (s : string) : string :=
  match s with
  | String c r => if is_space c then trimStart r else s
  | EmptyString => EmptyString
  end.

Fixpoint rev_string (s acc : string) : string :=
  match s with
  | EmptyString => acc
  | String c r => rev_string r (String c acc)
  end.

Definition trimEnd (s : string) : string :=
  rev_string (trimStart (rev_string s EmptyString)) EmptyString.

Definition trim (s : string) : string := trimEnd (trimStart s).

(** Truthiness of a string value: the empty string is falsy. *)
Definition truthy (s : string) : bool :=
  match s with EmptyString => false | _ => true end.

(** [a || b] where [a] is an optional string ([undefined] when absent). *)
Definition or_else (a b : option string) : option string :=
  match a with
  | Some s => if truthy s then Some s else b
  | None => b
  end.

(** [a || d] with a string literal on the right. *)
Definition or_default (a : option string) (d : string) : string :=
  match a with
  | Some s => if truthy s then s else d
  | None => d
  end.

(** [n.toString()] for an integer-valued number. *)
Definition Z_toString (z : Z) : string :=
  NilZero.string_of_int (Z.to_int z).

(** The numbers that [parseInt] can return. *)
Inductive number : Type :=
| NaN
| Num (z : Z).

Definition digit_val (radix : Z) (c : ascii) : option Z :=
  let n := Z.of_nat (nat_of_ascii c) in
  let v :=
    if (48 <=? n)%Z && (n <=? 57)%Z then Some (n - 48)%Z
    else if (97 <=? n)%Z && (n <=? 122)%Z then Some (n - 87)%Z
    else if (65 <=? n)%Z && (n <=? 90)%Z then Some (n - 55)%Z
    else None in
  match v with
  | Some d => if (d <? radix)%Z then Some d else None
  | None => None
  end.

(** The longest prefix of digits of [s] in [radix], accumulated from
    the left; [None] when [s] does not start with a digit. *)
Fixpoint digits (radix : Z) (s : string) (acc : option Z) : option Z :=
  match s with
  | EmptyString => acc
  | String c r =>
      match digit_val radix c with
      | Some d =>
          digits radix r
            (Some (match acc with Some a => a * radix + d | None => d end)%Z)
      | None => acc
      end
  end.

(** [parseInt(s)] without a radix: leading white space is skipped, one
    sign is read, a [0x]/[0X] prefix selects base 16, and the longest
    prefix of digits is converted; there being none gives [NaN]. *)
Definition parseInt (s : string) : number :=
  let s1 := trimStart s in
  let '(sign, s2) :=
    match s1 with
    | String "-"%char r => ((-1)%Z, r)
    | String "+"%char r => (1%Z, r)
    | _ => (1%Z, s1)
    end in
  let '(radix, s3) :=
    match s2 with
    | String "0"%char (String "x"%char r) => (16%Z, r)
    | String "0"%char (String "X"%char r) => (16%Z, r)
    | _ => (10%Z, s2)
    end in
  match digits radix s3 None with
  | Some v => Num (sign * v)
  | None => NaN
  end.

End Js.

(* ===================================================================== *)
(** ** Values of type [any], results and thrown values
       ([src/types/index.ts]) *)
(* ===================================================================== *)

(** Plain data as it is returned to the caller.  Objects keep their keys
    in insertion order. *)
#[warnings="-register-all"]
Inductive json : Type :=
| JUndefined
| JNull
| JBool (b : bool)
| JNum (n : Js.number)
| JStr (s : string)
| JArr (l : list json)
| JObj (fields : list (string * json)).

Definition JInt (z : Z) : json := JNum (Js.Num z).

(** [o.k] on a value of type [any] that is an object. *)
Fixpoint assoc (k : string) (fields : list (string * json)) : option json :=
  match fields with
  | [] => None
  | (k', v) :: r => if String.eqb k k' then Some v else assoc k r
  end.

Definition get (k : string) (v : json) : option json :=
  match v with
  | JObj fields => assoc k fields
  | _ => None
  end.

(** [interface ToolResult]. *)
Record ToolResult : Type := mkResult {
  success : bool;
  data : option json;
  error : option string;
  metadata : option json;
}.

(** The two object literals the tools return. *)
Definition succeed (d : json) : ToolResult :=
  {| success := true; data := Some d; error := None; metadata := None |}.

Definition fail (msg : string) : ToolResult :=
  {| success := false; data := None; error := Some msg; metadata := None |}.

(** One entry of [ZodError.errors], and the error object itself, which
    is an [Error] and so has a [message] of its own. *)
Record ZodIssue : Type := { message : string }.

Record ZodErrorObj : Type := {
  errors : list ZodIssue;
  zod_message : string;
}.

(** What a [throw] or a rejected promise carries. *)
Inductive thrown : Type :=
| ZodError (z : ZodErrorObj)    (* instanceof z.ZodError (and Error) *)
| JsError (msg : string)        (* any other instanceof Error *)
| NonError.                     (* a thrown value that is not an Error *)

(** [error instanceof Error ? error.message : dflt]. *)
Definition message_or (e : thrown) (dflt : string) : string :=
  match e with
  | ZodError z => zod_message z
  | JsError m => m
  | NonError => dflt
  end.

(** A settled promise. *)
Inductive outcome (A : Type) : Type :=
| Resolved (a : A)
| Rejected (e : thrown).
Arguments Rejected {A} e.

(** [interface SessionState]; the browser and the page are opaque
    handles, of which the process owns at most one each. *)
Inductive Browser : Type := TheBrowser.
Inductive Page : Type := ThePage.

Record SessionState : Type := mkSession {
  browser : option Browser;
  page : option Page;
  isLoggedIn : bool;
  currentProject : option string;
}.

(** An [ElementHandle] returned by [page.$]. *)
Definition ElementHandle : Type := nat.

(* ===================================================================== *)
(** ** The DOM seen by [page.evaluate] callbacks *)
(* ===================================================================== *)

Module Dom.

#[warnings="-register-all"]
Inductive node : Type :=
| Text (s : string)
| Element (id : string) (classes : list string)
          (attrs : list (string * string)) (children : list node).

(** The document is the forest below its root. *)
Definition document : Type := list node.

(** A selector as the sources write them: a comma-separated group of
    class selectors, kept as the list of its members (each with its
    leading dot). *)
Definition selector : Type := list string.

Definition has_class (classes : list string) (sel : string) : bool :=
  existsb (fun c => String.eqb sel ("." ++ c)) classes.

Definition matches (sel : selector) (n : node) : bool :=
  match n with
  | Text _ => false
  | Element _ classes _ _ => existsb (has_class classes) sel
  end.

(** All elements of a forest, in document order. *)
Fixpoint elements (n : node) : list node :=
  match n with
  | Text _ => []
  | Element _ _ _ children =>
      n :: (fix go (l : list node) : list node :=
              match l with
              | [] => []
              | c :: r => (elements c ++ go r)%list
              end) children
  end.

Definition elements_of (d : list node) : list node :=
  flat_map elements d.

Definition children_of (n : node) : list node :=
  match n with
  | Text _ => []
  | Element _ _ _ children => children
  end.

(** [document.querySelectorAll(sel)] and [document.querySelector(sel)]. *)
Definition querySelectorAll (d : document) (sel : selector) : list node :=
  filter (matches sel) (elements_of d).

Definition querySelector (d : document) (sel : selector) : option node :=
  hd_error (querySelectorAll d sel).

(** [el.querySelector(sel)]: the descendants of [el] only. *)
Definition el_querySelector (el : node) (sel : selector) : option node :=
  querySelector (children_of el) sel.

(** [node.textContent]: the text of all descendants, concatenated. *)
Fixpoint textContent (n : node) : string :=
  match n with
  | Text s => s
  | Element _ _ _ children =>
      (fix go (l : list node) : string :=
         match l with
         | [] => EmptyString
         | c :: r => textContent c ++ go r
         end) children
  end.

(** [el.getAttribute(name)] and [el.id]. *)
Definition getAttribute (n : node) (name : string) : option string :=
  match n with
  | Text _ => None
  | Element _ _ attrs _ =>
      option_map snd
        (find (fun kv => String.eqb name (fst kv)) attrs)
  end.

Definition id_of (n : node) : string :=
  match n with
  | Text _ => EmptyString
  | Element id _ _ _ => id
  end.

End Dom.

(* ===================================================================== *)
(** ** Requests and asynchronous programs *)
(* ===================================================================== *)

(** Awaited calls: the puppeteer [Page] methods the tools use (always
    with [waitUntil: 'networkidle2'] where that option exists) and
    [fs.access].  Timeouts are in milliseconds. *)
Inductive call : Type :=
| Goto (url : string) (timeout : option Z)
| Select (sel value : string)
| TypeText (sel text : string)
| Click (sel : string)
| WaitForSelector (sel : string) (timeout : option Z)
| WaitForNavigation
| WaitForTimeout (ms : Z)
| Query (sel : string)                          (* page.$(sel) *)
| Evaluate                                      (* page.evaluate(callback) *)
| UploadFile (h : ElementHandle) (path : string)
| FsAccess (path : string).

(** What the promise of a call resolves to.  [Evaluate] gives the
    document on which the callback runs in the browser. *)
Definition reply (c : call) : Type :=
  match c with
  | Query _ => option ElementHandle
  | Evaluate => Dom.document
  | _ => unit
  end.

Inductive level : Type := info | warn | error_level.

(** Synchronous accesses to what the process owns: the [state] of the
    [BrowserManager], [process.env], the logger and [page.url()]. *)
Inductive sync : Type :=
| GetState
| SetLoggedIn (b : bool)
| GetEnv (name : string)
| Log (l : level) (msg : string)
| PageUrl.

Definition sync_reply (c : sync) : Type :=
  match c with
  | GetState => SessionState
  | SetLoggedIn _ => unit
  | GetEnv _ => option string
  | Log _ _ => unit
  | PageUrl => string
  end.

(** An [async] function body. *)
Inductive prog (A : Type) : Type :=
| Ret (a : A)
| Throw (e : thrown)
| Sync (c : sync) (k : sync_reply c -> prog A)
| Await (c : call) (k : outcome (reply c) -> prog A).
Arguments Throw {A} e.

Fixpoint bind {A B} (p : prog A) (f : A -> prog B) : prog B :=
  match p with
  | Ret a => f a
  | Throw e => Throw e
  | Sync c k => Sync c (fun r => bind (k r) f)
  | Await c k => Await c (fun o => bind (k o) f)
  end.

(** [try { p } catch (e) { h e }]. *)
Fixpoint try_catch {A} (p : prog A) (h : thrown -> prog A) : prog A :=
  match p with
  | Ret a => Ret a
  | Throw e => h e
  | Sync c k => Sync c (fun r => try_catch (k r) h)
  | Await c k => Await c (fun o => try_catch (k o) h)
  end.

Declare Scope prog_scope.
Delimit Scope prog_scope with prog.
Bind Scope prog_scope with prog.

Notation "x <- c1 ;; c2" := (bind c1 (fun x => c2))
  (at level 100, c1 at next level, right associativity) : prog_scope.
Notation "c1 ;; c2" := (bind c1 (fun _ => c2))
  (at level 100, right associativity) : prog_scope.

Definition settle {A} (o : outcome A) : prog A :=
  match o with
  | Resolved a => Ret a
  | Rejected e => Throw e
  end.

(** [await c]. *)
Definition await (c : call) : prog (reply c) := Await c settle.

Definition perform (c : sync) : prog (sync_reply c) := Sync c (@Ret _).

(** [await Promise.all([c1, c2])]: both calls are made, in this order,
    and the result is rejected as soon as one of the two is.  When both
    are rejected the reason kept here is the one of [c1]. *)
Definition promise_all2 (c1 c2 : call) : prog (reply c1 * reply c2) :=
  Await c1 (fun o1 =>
  Await c2 (fun o2 =>
    match o1, o2 with
    | Resolved a, Resolved b => Ret (a, b)
    | Rejected e, _ => Throw e
    | _, Rejected e => Throw e
    end)).

(* ===================================================================== *)
(** ** Running a program *)
(* ===================================================================== *)

Section Run.

(** The remote side: a state [W] that answers every call. *)
Variable W : Type.

Record Environment : Type := {
  respond : forall c : call, W -> outcome (reply c) * W;
  url_of : W -> string;
}.

Record State : Type := mkState {
  session : SessionState;
  environ : string -> option string;
  logged : list (level * string);
  world : W;
  issued : list (call * bool);
    (* the calls made so far, oldest first, each with whether its
       promise was resolved *)
}.

Variable env : Environment.

Definition sync_step (c : sync) (s : State) : sync_reply c * State :=
  match c return sync_reply c * State with
  | GetState => (session s, s)
  | SetLoggedIn b =>
      (tt, mkState
             (mkSession (browser (session s)) (page (session s)) b
                        (currentProject (session s)))
             (environ s) (logged s) (world s) (issued s))
  | GetEnv name => (environ s name, s)
  | Log l msg =>
      (tt, mkState (session s) (environ s) (logged s ++ [(l, msg)])%list
                   (world s) (issued s))
  | PageUrl => (url_of env (world s), s)
  end.

Definition resolved {A} (o : outcome A) : bool :=
  match o with Resolved _ => true | Rejected _ => false end.

Definition call_step (c : call) (s : State) : outcome (reply c) * State :=
  let '(o, w) := respond env c (world s) in
  (o, mkState (session s) (environ s) (logged s) w
              (issued s ++ [(c, resolved o)])%list).

(** One caller alone: every awaited call is answered at once. *)
Fixpoint run {A} (p : prog A) (s : State) : outcome A * State :=
  match p with
  | Ret a => (Resolved a, s)
  | Throw e => (Rejected e, s)
  | Sync c k => let '(r, s') := sync_step c s in run (k r) s'
  | Await c k => let '(o, s') := call_step c s in run (k o) s'
  end.

(** A recorded result that the environment can give. *)
Definition answered (cb : call * bool) : Prop :=
  exists w, resolved (fst (respond env (fst cb) w)) = snd cb.

End Run.

Arguments mkState {W}.
Arguments respond {W}.
Arguments url_of {W}.

(** [always Q p]: however the state is and whatever the page answers,
    [p] ends in an outcome that satisfies [Q]. *)
Fixpoint always {A} (Q : outcome A -> Prop) (p : prog A) : Prop :=
  match p with
  | Ret a => Q (Resolved a)
  | Throw e => Q (Rejected e)
  | Sync c k => forall r, always Q (k r)
  | Await c k => forall o, always Q (k o)
  end.

(* ===================================================================== *)
(** ** [BrowserManager] ([src/utils/browser.ts]) *)
(* ===================================================================== *)

Local Open Scope prog_scope.

(** The double quote, for selectors such as [input[type="text"]]. *)
Definition dq : string := String (ascii_of_nat 34) EmptyString.

Definition attr_sel (tag name value : string) : string :=
  tag ++ "[" ++ name ++ "=" ++ dq ++ value ++ dq ++ "]".

Module BrowserManager.

Definition getPage : prog (option Page) :=
  st <- perform GetState ;; Ret (page st).

Definition isLoggedIn : prog bool :=
  st <- perform GetState ;; Ret (isLoggedIn st).

(** The markers of the logged-in state. *)
Definition dashboard_sel : string := ".dashboard, .project-list, .user-menu".

Definition checkLoginStatus : prog bool :=
  st <- perform GetState ;;
  match page st with
  | None => Ret false
  | Some _ =>
      try_catch
        (dashboardElement <- await (Query dashboard_sel) ;;
         Ret (match dashboardElement with Some _ => true | None => false end))
        (fun _ => Ret false)
  end.

Definition login_user_sel : string :=
  attr_sel "input" "type" "text" ++ ", " ++ attr_sel "input" "type" "email".
Definition login_pass_sel : string := attr_sel "input" "type" "password".
Definition submit_sel : string := attr_sel "button" "type" "submit".

(** [x || process.env.NAME]: the environment is read only when [x] is
    falsy. *)
Definition or_env (x : option string) (name : string)
  : prog (option string) :=
  match x with
  | Some s => if Js.truthy s then Ret (Some s) else perform (GetEnv name)
  | None => perform (GetEnv name)
  end.

(** The value of a truthy optional string. *)
Definition truthy_value (x : option string) : option string :=
  match x with
  | Some s => if Js.truthy s then Some s else None
  | None => None
  end.

(** The part of [login] from "Attempt login" to its [return]: look for
    the login form, fill it in, submit it, and check the result. *)
Definition attempt_login (user pass : string) : prog bool :=
  perform (Log info "Attempting to login to OnlineEDA...") ;;
  await (WaitForSelector login_user_sel (Some 5000%Z)) ;;
  await (TypeText login_user_sel user) ;;
  await (TypeText login_pass_sel pass) ;;
  promise_all2 (Click submit_sel) WaitForNavigation ;;
  b <- checkLoginStatus ;;
  perform (SetLoggedIn b) ;;
  Ret b.

(** The [catch] clause of [login]. *)
Definition login_failed (_ : thrown) : prog bool :=
  perform (Log error_level "Login failed") ;;
  Ret false.

Definition login (username password : option string) : prog bool :=
  st <- perform GetState ;;
  match page st with
  | None => Throw (JsError "Browser not initialized")
  | Some _ =>
      try_catch
        (loggedIn <- checkLoginStatus ;;
         if loggedIn : bool then
           perform (SetLoggedIn true) ;; Ret true
         else
           user <- or_env username "ONLINEEDA_USERNAME" ;;
           pass <- or_env password "ONLINEEDA_PASSWORD" ;;
           match truthy_value user, truthy_value pass with
           | Some user, Some pass => attempt_login user pass
           | _, _ =>
               perform (Log warn "No credentials provided for OnlineEDA login") ;;
               Ret false
           end)
        login_failed
  end.

End BrowserManager.

(* ===================================================================== *)
(** ** [AbstractTool] ([src/tools/base.ts]) *)
(* ===================================================================== *)

(** A tool: its name, its zod schema (whose [parse] either narrows the raw
    arguments or throws a [ZodError]) and its [execute]. *)
Record Tool : Type := {
  Params : Type;
  getName : string;
  getDescription : string;
  schema_parse : json -> Params + ZodErrorObj;
  execute : Params -> prog ToolResult;
}.

Definition parse (t : Tool) (params : json) : prog (Params t) :=
  match schema_parse t params with
  | inl validated => Ret validated
  | inr z => Throw (ZodError z)
  end.

Definition validateAndExecute (t : Tool) (params : json) : prog ToolResult :=
  try_catch
    (validated <- parse t params ;;
     perform (Log info ("Executing tool: " ++ getName t)) ;;
     result <- execute t validated ;;
     perform (Log info ("Tool " ++ getName t ++ " completed")) ;;
     Ret result)
    (fun err =>
       match err with
       | ZodError z =>
           perform (Log error_level ("Validation error in " ++ getName t)) ;;
           Ret (fail ("Invalid parameters: "
                      ++ Js.join ", " (map message (errors z))))
       | _ =>
           perform (Log error_level ("Error executing " ++ getName t)) ;;
           Ret (fail (message_or err "Unknown error occurred"))
       end).

Definition ensureLoggedIn : prog bool :=
  logged_in <- BrowserManager.isLoggedIn ;;
  if negb logged_in then
    perform (Log info "Not logged in, attempting to login...") ;;
    loginSuccess <- BrowserManager.login None None ;;
    if negb loginSuccess then
      Throw (JsError "Failed to login to OnlineEDA. Please check credentials.")
    else Ret true
  else Ret true.

Definition site : string := "https://onlineeda.arcas-da.com".

(** The catch clause shared by the page-driven tools:
    [`${what}: ${error instanceof Error ? error.message : 'Unknown error'}`]. *)
Definition failed_with (what : string) (e : thrown) : prog ToolResult :=
  Ret (fail (what ++ ": " ++ message_or e "Unknown error")).

(* ===================================================================== *)
(** ** [NavigateTool] ([src/tools/navigate.ts]) *)
(* ===================================================================== *)

Module NavigateTool.

Inductive Action : Type :=
  home | projects | new_project | documentation | settings.

Definition action_name (a : Action) : string :=
  match a with
  | home => "home"
  | projects => "projects"
  | new_project => "new-project"
  | documentation => "documentation"
  | settings => "settings"
  end.

Record NavigateParams : Type := {
  action : Action;
  projectId : option string;
}.

Definition execute (params : NavigateParams) : prog ToolResult :=
  ensureLoggedIn ;;
  page <- BrowserManager.getPage ;;
  match page with
  | None => Ret (fail "Browser page not available")
  | Some _ =>
      try_catch
        (match action params with
         | home => await (Goto (site ++ "/dashboard") None)
         | projects => await (Goto (site ++ "/projects") None)
         | new_project => await (Goto (site ++ "/projects/new") None)
         | documentation => await (Goto (site ++ "/docs") None)
         | settings => await (Goto (site ++ "/settings") None)
         end ;;
         await (WaitForTimeout 1000) ;;
         currentUrl <- perform PageUrl ;;
         Ret (succeed (JObj [("action", JStr (action_name (action params)));
                             ("currentUrl", JStr currentUrl)])))
        (failed_with "Navigation failed")
  end.

Definition instance (NavigateSchema : json -> NavigateParams + ZodErrorObj) : Tool :=
  Build_Tool "arcas_onlineeda_navigate"
             "Navigate to different sections of the OnlineEDA platform"
             NavigateSchema execute.

End NavigateTool.

(* ===================================================================== *)
(** ** [ProjectTool] ([src/tools/project.ts]) *)
(* ===================================================================== *)

Inductive ProjectType : Type := formal | equivalence | power | security | fpga.

Definition type_name (t : ProjectType) : string :=
  match t with
  | formal => "formal"
  | equivalence => "equivalence"
  | power => "power"
  | security => "security"
  | fpga => "fpga"
  end.

Module ProjectTool.

Inductive Action : Type := create | open | list_ | delete.

Record ProjectParams : Type := {
  action : Action;
  projectName : option string;
  projectType : option ProjectType;
  projectId : option string;
}.

Definition name_sel : string :=
  attr_sel "input" "name" "projectName" ++ ", #projectName".
Definition type_sel : string :=
  attr_sel "select" "name" "projectType" ++ ", #projectType".

Definition createProject (name type : string) : prog ToolResult :=
  await (Goto (site ++ "/projects/new") None) ;;
  await (WaitForSelector name_sel None) ;;
  await (TypeText name_sel name) ;;
  await (Select type_sel type) ;;
  promise_all2 (Click (attr_sel "button" "type" "submit" ++ ", .create-project-btn"))
               WaitForNavigation ;;
  Ret (succeed (JObj [("projectName", JStr name);
                      ("projectType", JStr type);
                      ("message", JStr "Project created successfully")])).

Definition openProject (projectId : string) : prog ToolResult :=
  await (Goto (site ++ "/projects/" ++ projectId) None) ;;
  currentUrl <- perform PageUrl ;;
  Ret (succeed (JObj [("projectId", JStr projectId);
                      ("currentUrl", JStr currentUrl)])).

(** [x?.textContent?.trim()] as a field of a returned object. *)
Definition text_field (el : option Dom.node) : json :=
  match el with
  | Some n => JStr (Js.trim (Dom.textContent n))
  | None => JUndefined
  end.

(** The callback given to [page.evaluate] by [listProjects]. *)
Definition project_entries (document : Dom.document) : list json :=
  map (fun el =>
         JObj [("id", JStr (match Js.or_else (Dom.getAttribute el "data-project-id")
                                             (Some (Dom.id_of el)) with
                            | Some s => s
                            | None => EmptyString
                            end));
               ("name", text_field (Dom.el_querySelector el [".project-name"]));
               ("type", text_field (Dom.el_querySelector el [".project-type"]));
               ("status", text_field (Dom.el_querySelector el [".project-status"]))])
      (Dom.querySelectorAll document [".project-item"; ".project-card"]).

Definition listProjects : prog ToolResult :=
  await (Goto (site ++ "/projects") None) ;;
  document <- await Evaluate ;;
  let projects := project_entries document in
  Ret (succeed (JObj [("projects", JArr projects);
                      ("count", JInt (Z.of_nat (length projects)))])).

Definition deleteProject (projectId : string) : prog ToolResult :=
  await (Goto (site ++ "/projects/" ++ projectId ++ "/settings") None) ;;
  await (Click (".delete-project-btn, " ++ attr_sel "button" "data-action" "delete")) ;;
  await (WaitForSelector ".confirm-delete, .modal-confirm" None) ;;
  await (Click (".confirm-delete, " ++ attr_sel "button" "data-confirm" "delete")) ;;
  Ret (succeed (JObj [("projectId", JStr projectId);
                      ("message", JStr "Project deleted successfully")])).

Definition execute (params : ProjectParams) : prog ToolResult :=
  ensureLoggedIn ;;
  page <- BrowserManager.getPage ;;
  match page with
  | None => Ret (fail "Browser page not available")
  | Some _ =>
      try_catch
        (match action params with
         | create =>
             match BrowserManager.truthy_value (projectName params),
                   projectType params with
             | Some name, Some type => createProject name (type_name type)
             | _, _ =>
                 Ret (fail "Project name and type are required for creating a project")
             end
         | open =>
             match BrowserManager.truthy_value (projectId params) with
             | Some id => openProject id
             | None => Ret (fail "Project ID is required for opening a project")
             end
         | list_ => listProjects
         | delete =>
             match BrowserManager.truthy_value (projectId params) with
             | Some id => deleteProject id
             | None => Ret (fail "Project ID is required for deleting a project")
             end
         end)
        (failed_with "Project operation failed")
  end.

Definition instance (ProjectSchema : json -> ProjectParams + ZodErrorObj) : Tool :=
  Build_Tool "arcas_onlineeda_project"
             "Manage projects in OnlineEDA platform"
             ProjectSchema execute.

End ProjectTool.

(* ===================================================================== *)
(** ** [UploadFileTool] ([src/tools/upload-file.ts]) *)
(* ===================================================================== *)

Module UploadFileTool.

Inductive FileType : Type := verilog | systemverilog | vhdl | constraints | other.

Record UploadFileParams : Type := {
  projectId : string;
  filePath : string;
  fileType : option FileType;
}.

(** [absolutePath.split('/').pop()]. *)
Definition fileName (absolutePath : string) : json :=
  match Js.pop (Js.split "/" absolutePath) with
  | Some s => JStr s
  | None => JUndefined
  end.

Section WithPath.

(** [resolve] of Node's [path] module: the absolute path of its argument
    with respect to the working directory of the process. *)
Variable resolve : string -> string.

Definition execute (params : UploadFileParams) : prog ToolResult :=
  ensureLoggedIn ;;
  page <- BrowserManager.getPage ;;
  match page with
  | None => Ret (fail "Browser page not available")
  | Some _ =>
      try_catch
        (let absolutePath := resolve (filePath params) in
         await (FsAccess absolutePath) ;;
         await (Goto (site ++ "/projects/" ++ projectId params ++ "/files") None) ;;
         fileInput <- await (Query (attr_sel "input" "type" "file")) ;;
         match fileInput with
         | None => Ret (fail "File upload input not found on page")
         | Some h =>
             await (UploadFile h absolutePath) ;;
             await (WaitForSelector ".upload-success, .file-uploaded"
                                    (Some 30000%Z)) ;;
             Ret (succeed
                    (JObj [("projectId", JStr (projectId params));
                           ("fileName", fileName absolutePath);
                           ("filePath", JStr (filePath params));
                           ("message", JStr "File uploaded successfully")]))
         end)
        (failed_with "File upload failed")
  end.

Definition instance (UploadFileSchema : json -> UploadFileParams + ZodErrorObj) : Tool :=
  Build_Tool "arcas_onlineeda_upload_file"
             "Upload design files to OnlineEDA project"
             UploadFileSchema execute.

End WithPath.

End UploadFileTool.

(* ===================================================================== *)
(** ** [RunVerificationTool] ([src/tools/run-verification.ts]) *)
(* ===================================================================== *)

Module RunVerificationTool.

(** Numbers of the schema ([z.number()]) are taken integer-valued. *)
Record Options : Type := {
  timeout : option Z;
  depth : option Z;
  properties : option (list string);
}.

Record RunVerificationParams : Type := {
  projectId : string;
  verificationType : ProjectType;
  options : option Options;
}.

(** [interface VerificationResult] as the extraction builds it. *)
Record Violation : Type := {
  type : string;
  message : string;
  location : option string;
  severity : string;
}.

Module Statistics.
Record t : Type := {
  totalChecks : Js.number;
  passed : Js.number;
  failed : Js.number;
  warnings : Js.number;
}.
End Statistics.

Record VerificationResult : Type := {
  passed : bool;
  violations : list Violation;
  statistics : Statistics.t;
}.

(** [el.querySelector(sel)?.textContent?.trim()]. *)
Definition trimmed_text (el : Dom.node) (sel : Dom.selector) : option string :=
  option_map (fun n => Js.trim (Dom.textContent n)) (Dom.el_querySelector el sel).

(** [parseInt(document.querySelector(sel)?.textContent || '0')]. *)
Definition statistic (document : Dom.document) (sel : Dom.selector) : Js.number :=
  Js.parseInt
    (Js.or_default (option_map Dom.textContent (Dom.querySelector document sel)) "0").

(** The callback given to [page.evaluate] by [extractVerificationResults]. *)
Definition extract (document : Dom.document) : VerificationResult :=
  {| passed :=
       match Dom.querySelector document [".verification-passed"; ".status-passed"] with
       | Some _ => true
       | None => false
       end;
     violations :=
       map (fun el =>
              {| type := Js.or_default (trimmed_text el [".violation-type"]) "unknown";
                 message := Js.or_default (trimmed_text el [".violation-message"]) EmptyString;
                 location := trimmed_text el [".violation-location"];
                 severity := Js.or_default (trimmed_text el [".violation-severity"]) "error" |})
           (Dom.querySelectorAll document [".violation-item"; ".error-item"]);
     statistics :=
       {| Statistics.totalChecks := statistic document [".total-checks"];
          Statistics.passed := statistic document [".checks-passed"];
          Statistics.failed := statistic document [".checks-failed"];
          Statistics.warnings := statistic document [".warnings-count"] |} |}.

Definition extractVerificationResults : prog VerificationResult :=
  document <- await Evaluate ;;
  Ret (extract document).

Definition violation_json (v : Violation) : json :=
  JObj [("type", JStr (type v));
        ("message", JStr (message v));
        ("location", match location v with Some s => JStr s | None => JUndefined end);
        ("severity", JStr (severity v))].

Definition result_json (r : VerificationResult) : json :=
  JObj [("passed", JBool (passed r));
        ("violations", JArr (map violation_json (violations r)));
        ("statistics",
         JObj [("totalChecks", JNum (Statistics.totalChecks (statistics r)));
               ("passed", JNum (Statistics.passed (statistics r)));
               ("failed", JNum (Statistics.failed (statistics r)));
               ("warnings", JNum (Statistics.warnings (statistics r)))])].

(** [if (n) page.type(sel, n.toString())] for an optional number. *)
Definition type_number (sel : string) (n : option Z) : prog unit :=
  match n with
  | Some v => if (v =? 0)%Z then Ret tt else await (TypeText sel (Js.Z_toString v))
  | None => Ret tt
  end.

(** [params.options?.timeout || 300]. *)
Definition timeout_seconds (params : RunVerificationParams) : Z :=
  match options params with
  | Some o =>
      match timeout o with
      | Some t => if (t =? 0)%Z then 300%Z else t
      | None => 300%Z
      end
  | None => 300%Z
  end.

Definition run_button : string :=
  "button.run-verification, " ++ attr_sel "button" "type" "submit".
Definition running_sel : string := ".verification-running, .progress-indicator".
Definition complete_sel : string := ".verification-complete, .results-ready".

Definition execute (params : RunVerificationParams) : prog ToolResult :=
  ensureLoggedIn ;;
  page <- BrowserManager.getPage ;;
  match page with
  | None => Ret (fail "Browser page not available")
  | Some _ =>
      try_catch
        (await (Goto (site ++ "/projects/" ++ projectId params ++ "/verify") None) ;;
         await (Select (attr_sel "select" "name" "verificationType"
                        ++ ", #verificationType")
                       (type_name (verificationType params))) ;;
         match options params with
         | Some o =>
             type_number (attr_sel "input" "name" "timeout" ++ ", #timeout")
                         (timeout o) ;;
             type_number (attr_sel "input" "name" "depth" ++ ", #depth") (depth o)
         | None => Ret tt
         end ;;
         promise_all2 (Click run_button)
                      (WaitForSelector running_sel (Some 5000%Z)) ;;
         await (WaitForSelector complete_sel
                                (Some (timeout_seconds params * 1000)%Z)) ;;
         results <- extractVerificationResults ;;
         Ret (succeed
                (JObj [("projectId", JStr (projectId params));
                       ("verificationType", JStr (type_name (verificationType params)));
                       ("results", result_json results)])))
        (failed_with "Verification failed")
  end.

Definition instance (RunVerificationSchema : json -> RunVerificationParams + ZodErrorObj)
  : Tool :=
  Build_Tool "arcas_onlineeda_run_verification"
             "Run various verification types on OnlineEDA project"
             RunVerificationSchema execute.

End RunVerificationTool.

(* ===================================================================== *)
(** ** [NaturalLanguageTool] ([src/tools/natural-language.ts]) *)
(* ===================================================================== *)

Module NaturalLanguageTool.

Record Context : Type := {
  currentProject : option string;
  previousResults : option json;
}.

Record NaturalLanguageParams : Type := {
  query : string;
  context : option Context;
}.

Module Example.
Record t : Type := {
  query : string;
  interpretation : string;
  tool : string;
  params : json;
}.
End Example.

Definition Example : Type := Example.t.

Definition step (tool : string) (params : json) : json :=
  JObj [("tool", JStr tool); ("params", params)].

Definition examples : list Example :=
  [ (* Project creation examples *)
    {| Example.query := "I want to create a new formal verification project for my CPU design";
       Example.interpretation := "Create formal verification project";
       Example.tool := "arcas_onlineeda_project";
       Example.params := JObj [("action", JStr "create"); ("projectType", JStr "formal");
                               ("projectName", JStr "cpu_formal_verification")] |};
    {| Example.query := "Let's start a power analysis project for the GPU controller";
       Example.interpretation := "Create power analysis project";
       Example.tool := "arcas_onlineeda_project";
       Example.params := JObj [("action", JStr "create"); ("projectType", JStr "power");
                               ("projectName", JStr "gpu_controller_power")] |};
    {| Example.query := "Set up equivalence checking between RTL and gate-level netlist";
       Example.interpretation := "Create equivalence checking project";
       Example.tool := "arcas_onlineeda_project";
       Example.params := JObj [("action", JStr "create"); ("projectType", JStr "equivalence");
                               ("projectName", JStr "rtl_gate_equivalence")] |};
    (* Verification examples *)
    {| Example.query := "Check if my RISC-V core meets all safety properties";
       Example.interpretation := "Run formal verification with safety properties";
       Example.tool := "arcas_onlineeda_run_verification";
       Example.params :=
         JObj [("verificationType", JStr "formal");
               ("options", JObj [("properties", JArr [JStr "safety"]);
                                 ("depth", JInt 20)])] |};
    {| Example.query := "Verify that the optimized design is functionally equivalent to the original";
       Example.interpretation := "Run equivalence verification";
       Example.tool := "arcas_onlineeda_run_verification";
       Example.params := JObj [("verificationType", JStr "equivalence")] |};
    {| Example.query := "Analyze power consumption during different operating modes";
       Example.interpretation := "Run power analysis verification";
       Example.tool := "arcas_onlineeda_run_verification";
       Example.params :=
         JObj [("verificationType", JStr "power");
               ("options", JObj [("timeout", JInt 600)])] |};
    {| Example.query := "Find security vulnerabilities in my crypto module";
       Example.interpretation := "Run security verification";
       Example.tool := "arcas_onlineeda_run_verification";
       Example.params :=
         JObj [("verificationType", JStr "security");
               ("options", JObj [("properties", JArr [JStr "information_leakage";
                                                      JStr "timing_attacks"])])] |};
    (* File operations examples *)
    {| Example.query := "Upload my Verilog files for the memory controller";
       Example.interpretation := "Upload Verilog design files";
       Example.tool := "arcas_onlineeda_upload_file";
       Example.params := JObj [("fileType", JStr "verilog")] |};
    {| Example.query := "Add the SystemVerilog testbench to the project";
       Example.interpretation := "Upload SystemVerilog testbench";
       Example.tool := "arcas_onlineeda_upload_file";
       Example.params := JObj [("fileType", JStr "systemverilog")] |};
    {| Example.query := "Import SDC timing constraints";
       Example.interpretation := "Upload constraint files";
       Example.tool := "arcas_onlineeda_upload_file";
       Example.params := JObj [("fileType", JStr "constraints")] |};
    (* Navigation examples *)
    {| Example.query := "Show me all my verification projects";
       Example.interpretation := "Navigate to projects list";
       Example.tool := "arcas_onlineeda_navigate";
       Example.params := JObj [("action", JStr "projects")] |};
    {| Example.query := "Go to the documentation";
       Example.interpretation := "Navigate to documentation";
       Example.tool := "arcas_onlineeda_navigate";
       Example.params := JObj [("action", JStr "documentation")] |};
    (* Complex workflow examples *)
    {| Example.query := "I need to verify my AES encryption module meets FIPS standards";
       Example.interpretation := "Security verification workflow for cryptographic module";
       Example.tool := "workflow";
       Example.params :=
         JObj [("steps",
                JArr [step "arcas_onlineeda_project"
                        (JObj [("action", JStr "create"); ("projectType", JStr "security");
                               ("projectName", JStr "aes_fips_verification")]);
                      step "arcas_onlineeda_upload_file"
                        (JObj [("fileType", JStr "verilog")]);
                      step "arcas_onlineeda_run_verification"
                        (JObj [("verificationType", JStr "security");
                               ("options",
                                JObj [("properties", JArr [JStr "fips_compliance"])])])])] |};
    {| Example.query := "Compare power consumption before and after optimization";
       Example.interpretation := "Power comparison workflow";
       Example.tool := "workflow";
       Example.params :=
         JObj [("steps",
                JArr [step "arcas_onlineeda_project"
                        (JObj [("action", JStr "create"); ("projectType", JStr "power");
                               ("projectName", JStr "optimization_comparison")]);
                      step "arcas_onlineeda_upload_file"
                        (JObj [("fileType", JStr "verilog");
                               ("note", JStr "Upload both versions")]);
                      step "arcas_onlineeda_run_verification"
                        (JObj [("verificationType", JStr "power")])])] |} ].

(** ** Stage A: the closest example *)

(** [words.filter(word => exampleWords.includes(word)).length]. *)
Definition commonWords (words exampleWords : list string) : nat :=
  length (filter (fun word => Js.arr_includes exampleWords word) words).

(** [commonWords / Math.max(words.length, exampleWords.length)].  Both
    arrays come from [split] and so are not empty; the quotient of two
    small integers is kept exact. *)
Definition score (words exampleWords : list string) : Q :=
  Z.of_nat (commonWords words exampleWords)
  # Pos.of_nat (Nat.max (length words) (length exampleWords)).

Definition Qgt_bool (a b : Q) : bool := negb (Qle_bool a b).

Definition example_words (example : Example) : list string :=
  Js.split " " (Js.toLowerCase (Example.query example)).

(** One turn of the loop of [findBestExample] on [(bestMatch, bestScore)]. *)
Definition consider (words : list string) (best : option Example * Q)
                    (example : Example) : option Example * Q :=
  let score := score words (example_words example) in
  if Qgt_bool score (snd best) && Qgt_bool score (1 # 2)
  then (Some example, score)
  else best.

Definition findBestExampleIn (corpus : list Example) (query : string)
  : option Example :=
  let words := Js.split " " query in
  fst (fold_left (consider words) corpus (None, 0%Q)).

Definition findBestExample (query : string) : option Example :=
  findBestExampleIn examples query.

(** ** Stage B: categories and slots *)

(** [keywords.some(k => query.includes(k))]. *)
Definition some_in (keywords : list string) (query : string) : bool :=
  existsb (fun k => Js.includes query k) keywords.

Definition isProjectCreation (query : string) : bool :=
  let keywords := ["create"; "new"; "start"; "setup"; "initialize"; "begin"] in
  let projectWords := ["project"; "verification"; "analysis"] in
  some_in keywords query && some_in projectWords query.

Definition isVerification (query : string) : bool :=
  let keywords := ["verify"; "check"; "analyze"; "test"; "validate"; "run"; "execute"] in
  let verificationTypes := ["formal"; "equivalence"; "power"; "security"; "fpga"] in
  some_in keywords query || some_in verificationTypes query.

Definition isFileOperation (query : string) : bool :=
  let keywords := ["upload"; "add"; "import"; "load"; "file"; "design"] in
  some_in keywords query.

Definition isNavigation (query : string) : bool :=
  let keywords := ["go"; "navigate"; "show"; "view"; "open"; "list"] in
  let sections := ["home"; "projects"; "documentation"; "settings"] in
  some_in keywords query || some_in sections query.

Definition isResultsQuery (query : string) : bool :=
  let keywords := ["result"; "report"; "output"; "findings"; "status"] in
  some_in keywords query.

Definition isHelpQuery (query : string) : bool :=
  let keywords := ["help"; "how"; "what"; "explain"; "guide"; "tutorial"] in
  some_in keywords query.

(** The loop over [Object.entries(table)] with its [break]: the key of
    the first group one of whose keywords occurs in the query, or the
    initial value. *)
Fixpoint detect (table : list (string * list string)) (query dflt : string)
  : string :=
  match table with
  | [] => dflt
  | (key, keywords) :: rest =>
      if some_in keywords query then key else detect rest query dflt
  end.

Definition example_json (e : Example) : json :=
  JObj [("query", JStr (Example.query e));
        ("interpretation", JStr (Example.interpretation e));
        ("tool", JStr (Example.tool e));
        ("params", Example.params e)].

Definition strings (l : list string) : json := JArr (map JStr l).

(** [v === s] for an optional member of an [any] value. *)
Definition is_string (v : option json) (s : string) : bool :=
  match v with
  | Some (JStr s') => String.eqb s' s
  | _ => false
  end.

Definition suggestProjectCreation (query : string) : ToolResult :=
  let projectTypes :=
    [("formal", ["formal"; "property"; "assertion"; "correctness"; "safety"]);
     ("equivalence", ["equivalence"; "equivalent"; "compare"; "match"; "same"]);
     ("power", ["power"; "energy"; "consumption"; "optimization"; "low-power"]);
     ("security", ["security"; "secure"; "vulnerability"; "crypto"; "attack"]);
     ("fpga", ["fpga"; "synthesis"; "implementation"; "xilinx"; "altera"])] in
  let detectedType := detect projectTypes query "formal" in
  succeed
    (JObj [("interpretation", JStr "Create a new project");
           ("suggestedTool", JStr "arcas_onlineeda_project");
           ("suggestedParams",
            JObj [("action", JStr "create");
                  ("projectType", JStr detectedType);
                  ("projectName", JStr "Suggested: Extract from your requirements")]);
           ("examples",
            JArr (map example_json
                    (filter (fun e =>
                               String.eqb (Example.tool e) "arcas_onlineeda_project"
                               && is_string (get "action" (Example.params e)) "create")
                            examples)));
           ("nextSteps",
            strings ["After creating project, upload design files";
                     "Configure verification settings";
                     "Run verification"])]).

Definition suggestVerification (query : string) : ToolResult :=
  let verificationTypes :=
    [("formal", ["formal"; "property"; "assertion"; "prove"; "theorem"]);
     ("equivalence", ["equivalence"; "equivalent"; "compare"; "netlist"; "rtl"]);
     ("power", ["power"; "energy"; "consumption"; "watts"; "dynamic"]);
     ("security", ["security"; "secure"; "vulnerability"; "attack"; "leak"]);
     ("fpga", ["fpga"; "synthesis"; "implementation"; "timing"; "resource"])] in
  let detectedType := detect verificationTypes query "formal" in
  succeed
    (JObj [("interpretation", JStr "Run verification");
           ("suggestedTool", JStr "arcas_onlineeda_run_verification");
           ("suggestedParams",
            JObj [("verificationType", JStr detectedType);
                  ("projectId", JStr "Required: Use current project ID")]);
           ("examples",
            JArr (map example_json
                    (filter (fun e =>
                               String.eqb (Example.tool e)
                                          "arcas_onlineeda_run_verification")
                            examples)));
           ("tips",
            strings ["Ensure all design files are uploaded";
                     "Check project status before running verification";
                     "Review verification options for specific requirements"])]).

Definition fileTypes : list (string * list string) :=
  [("verilog", ["verilog"; ".v"; "rtl"]);
   ("systemverilog", ["systemverilog"; ".sv"; "testbench"]);
   ("vhdl", ["vhdl"; ".vhd"]);
   ("constraints", ["constraint"; "sdc"; "xdc"; "timing"])].

Definition suggestFileUpload (query : string) : ToolResult :=
  let detectedType := detect fileTypes query "verilog" in
  succeed
    (JObj [("interpretation", JStr "Upload design files");
           ("suggestedTool", JStr "arcas_onlineeda_upload_file");
           ("suggestedParams",
            JObj [("projectId", JStr "Required: Use current project ID");
                  ("filePath", JStr "Required: Path to your design file");
                  ("fileType", JStr detectedType)]);
           ("examples",
            JArr (map example_json
                    (filter (fun e =>
                               String.eqb (Example.tool e) "arcas_onlineeda_upload_file")
                            examples)));
           ("supportedFormats",
            strings ["Verilog (.v)";
                     "SystemVerilog (.sv)";
                     "VHDL (.vhd, .vhdl)";
                     "Constraint files (.sdc, .xdc)"])]).

Definition suggestNavigation (query : string) : ToolResult :=
  let navigationMap :=
    [("home", ["home"; "dashboard"; "main"]);
     ("projects", ["projects"; "list"; "all"]);
     ("new-project", ["new"; "create"]);
     ("documentation", ["docs"; "documentation"; "help"; "guide"]);
     ("settings", ["settings"; "config"; "preferences"])] in
  let detectedAction := detect navigationMap query "home" in
  succeed
    (JObj [("interpretation", JStr "Navigate to platform section");
           ("suggestedTool", JStr "arcas_onlineeda_navigate");
           ("suggestedParams", JObj [("action", JStr detectedAction)]);
           ("availableActions", strings (map fst navigationMap))]).

Definition suggestGetResults (projectId : option string) : ToolResult :=
  succeed
    (JObj [("interpretation", JStr "Get verification results");
           ("suggestedAction",
            JStr (match BrowserManager.truthy_value projectId with
                  | Some id => "Navigate to project " ++ id ++ " results page"
                  | None => "First select a project, then navigate to its results"
                  end));
           ("suggestedTool", JStr "arcas_onlineeda_navigate");
           ("note", JStr "Results are typically shown after running verification");
           ("tip", JStr "You can also use the arcas://verification-results resource")]).

Definition provideEnhancedHelp : ToolResult :=
  succeed
    (JObj [("interpretation", JStr "Help requested");
           ("overview", JStr "Arcas OnlineEDA is a comprehensive web-based EDA platform");
           ("availableTools",
            JArr [JObj [("name", JStr "arcas_onlineeda_navigate");
                        ("description", JStr "Navigate platform sections");
                        ("actions", strings ["home"; "projects"; "new-project";
                                             "documentation"; "settings"])];
                  JObj [("name", JStr "arcas_onlineeda_project");
                        ("description", JStr "Manage projects");
                        ("actions", strings ["create"; "open"; "list"; "delete"])];
                  JObj [("name", JStr "arcas_onlineeda_upload_file");
                        ("description", JStr "Upload design files to projects")];
                  JObj [("name", JStr "arcas_onlineeda_run_verification");
                        ("description", JStr "Run verification on projects");
                        ("types", strings ["formal"; "equivalence"; "power";
                                           "security"; "fpga"])]]);
           ("exampleQueries", strings (map Example.query (firstn 5 examples)));
           ("workflow",
            strings ["1. Create or open a project";
                     "2. Upload design files";
                     "3. Configure verification settings";
                     "4. Run verification";
                     "5. Review results"]);
           ("resources",
            strings ["arcas://projects - List all projects";
                     "arcas://verification-results - Latest results";
                     "arcas://platform-status - Platform status";
                     "arcas://documentation - Full documentation"])]).

Definition provideFallbackWithExamples (query : string) : ToolResult :=
  succeed
    (JObj [("interpretation", JStr "Query understood but needs clarification");
           ("originalQuery", JStr query);
           ("suggestions",
            strings ["Try rephrasing your query";
                     "Use specific keywords like: create, verify, upload, navigate";
                     "Mention the verification type: formal, equivalence, power, security, fpga"]);
           ("exampleQueries",
            JArr (map (fun e => JObj [("query", JStr (Example.query e));
                                      ("action", JStr (Example.interpretation e))])
                      (firstn 10 examples)));
           ("availableTools",
            strings ["arcas_onlineeda_project - Project management";
                     "arcas_onlineeda_upload_file - File uploads";
                     "arcas_onlineeda_run_verification - Run verifications";
                     "arcas_onlineeda_navigate - Platform navigation"])]).

(** The answer built from a Stage A match. *)
Definition matched (exactMatch : Example) : ToolResult :=
  succeed
    (JObj [("interpretation", JStr (Example.interpretation exactMatch));
           ("suggestedTool", JStr (Example.tool exactMatch));
           ("suggestedParams", Example.params exactMatch);
           ("matchedExample", JStr (Example.query exactMatch));
           ("confidence", JStr "high")]).

Definition execute (params : NaturalLanguageParams) : prog ToolResult :=
  let query := Js.toLowerCase (query params) in
  try_catch
    (match findBestExample query with
     | Some exactMatch => Ret (matched exactMatch)
     | None =>
         if isProjectCreation query then Ret (suggestProjectCreation query)
         else if isVerification query then Ret (suggestVerification query)
         else if isFileOperation query then Ret (suggestFileUpload query)
         else if isNavigation query then Ret (suggestNavigation query)
         else if isResultsQuery query then
           Ret (suggestGetResults
                  (match context params with
                   | Some c => currentProject c
                   | None => None
                   end))
         else if isHelpQuery query then Ret provideEnhancedHelp
         else Ret (provideFallbackWithExamples (NaturalLanguageTool.query params))
     end)
    (failed_with "Natural language processing failed").

Definition instance (NaturalLanguageSchema : json -> NaturalLanguageParams + ZodErrorObj)
  : Tool :=
  Build_Tool "arcas_onlineeda_natural_language"
             "Process natural language queries for Arcas OnlineEDA operations with extensive examples"
             NaturalLanguageSchema execute.

End NaturalLanguageTool.

(* ===================================================================== *)
(** ** The server ([src/index.ts]) *)
(* ===================================================================== *)

(** What the tools take from libraries: the [parse] of each zod schema,
    which narrows raw arguments to the parameter type or throws, and
    [path.resolve]. *)
Record Externals : Type := {
  NavigateSchema : json -> NavigateTool.NavigateParams + ZodErrorObj;
  ProjectSchema : json -> ProjectTool.ProjectParams + ZodErrorObj;
  UploadFileSchema : json -> UploadFileTool.UploadFileParams + ZodErrorObj;
  RunVerificationSchema :
    json -> RunVerificationTool.RunVerificationParams + ZodErrorObj;
  NaturalLanguageSchema :
    json -> NaturalLanguageTool.NaturalLanguageParams + ZodErrorObj;
  resolve : string -> string;
}.

(** [setupTools]. *)
Definition toolInstances (x : Externals) : list Tool :=
  [ NavigateTool.instance (NavigateSchema x);
    ProjectTool.instance (ProjectSchema x);
    UploadFileTool.instance (resolve x) (UploadFileSchema x);
    RunVerificationTool.instance (RunVerificationSchema x);
    NaturalLanguageTool.instance (NaturalLanguageSchema x) ].

(** [this.tools.get(name)]. *)
Definition tools_get (x : Externals) (name : string) : option Tool :=
  find (fun t => String.eqb (getName t) name) (toolInstances x).

(** The four tools that drive the page. *)
Definition domainOperations (x : Externals) : list Tool :=
  firstn 4 (toolInstances x).

(** The same tool with another handler. *)
Definition with_execute (t : Tool) (h : Params t -> prog ToolResult) : Tool :=
  Build_Tool (getName t) (getDescription t) (schema_parse t) h.

(** The contract of [ToolResult]: data exactly on success, a non-empty
    error message exactly on failure. *)
Definition contract (r : ToolResult) : Prop :=
  if success r
  then data r <> None /\ error r = None
  else (exists m, error r = Some m /\ m <> EmptyString) /\ data r = None.

Definition contractb (r : ToolResult) : bool :=
  if success r
  then match data r, error r with Some _, None => true | _, _ => false end
  else match data r, error r with
       | None, Some m => Js.truthy m
       | _, _ => false
       end.

(* ===================================================================== *)
(** ** Several callers at once *)
(* ===================================================================== *)

Section Scheduler.

Variable W : Type.
Variable env : Environment W.
Variable A : Type.

(** Run a caller up to its next awaited call (or to its end).  What an
    [async] function does between two awaited calls -- its synchronous
    statements and the continuations that need no answer from the page --
    belongs to one turn of the event loop and is not interrupted by the
    arrival of another request. *)
Fixpoint advance (p : prog A) (s : State W) : prog A * State W :=
  match p with
  | Sync c k => let '(r, s') := sync_step env c s in advance (k r) s'
  | _ => (p, s)
  end.

(** The callers in progress, oldest first, and the state they share. *)
Record Pool : Type := mkPool {
  tasks : list (prog A);
  shared : State W;
}.

(** A new caller invokes [p]. *)
Definition enter (p : prog A) (pool : Pool) : Pool :=
  let '(p', s') := advance p (shared pool) in
  mkPool (tasks pool ++ [p'])%list s'.

Fixpoint set_nth (i : nat) (p : prog A) (l : list (prog A)) : list (prog A) :=
  match l, i with
  | [], _ => []
  | _ :: r, O => p :: r
  | q :: r, S j => q :: set_nth j p r
  end.

(** The promise caller [i] is waiting for settles, and the caller goes
    on to its next [await]. *)
Definition resume (i : nat) (pool : Pool) : Pool :=
  match nth_error (tasks pool) i with
  | Some (Await c k) =>
      let '(o, s1) := call_step env c (shared pool) in
      let '(p', s2) := advance (k o) s1 in
      mkPool (set_nth i p' (tasks pool)) s2
  | _ => pool
  end.

Definition in_flight (p : prog A) : bool :=
  match p with
  | Await _ _ => true
  | _ => false
  end.

End Scheduler.

Arguments mkPool {W A}.

(** The login attempts started through [ensureLoggedIn]: each is
    announced in the log just before [login] is called. *)
Definition attempt_entry (e : level * string) : bool :=
  match e with
  | (info, msg) => String.eqb msg "Not logged in, attempting to login..."
  | _ => false
  end.

Definition attempts {W} (s : State W) : nat :=
  length (filter attempt_entry (logged s)).

(** A scheduling decision for callers of [ensureLoggedIn]. *)
Inductive decision : Type :=
| Enter
| Resume (i : nat).

Definition apply_decision {W} (env : Environment W) (d : decision)
                  (pool : Pool W bool) : Pool W bool :=
  match d with
  | Enter => enter env ensureLoggedIn pool
  | Resume i => resume env i pool
  end.

Definition schedule {W} (env : Environment W) (ds : list decision)
                    (pool : Pool W bool) : Pool W bool :=
  fold_left (fun pl d => apply_decision env d pl) ds pool.

(* ===================================================================== *)
(** ** Stage A as the specification words it *)
(* ===================================================================== *)

Module Spec.

(** Split on white space, dropping empty tokens. *)
Fixpoint tokens_from (s : string) (cur : string) : list string :=
  let flush := match cur with
               | EmptyString => []
               | _ => [Js.rev_string cur EmptyString]
               end in
  match s with
  | EmptyString => flush
  | String c r =>
      if Js.is_space c then (flush ++ tokens_from r EmptyString)%list
      else tokens_from r (String c cur)
  end.

(** The set of lowercase white-space tokens, without repetitions. *)
Definition token_set (s : string) : list string :=
  nodup string_dec (tokens_from (Js.toLowerCase s) EmptyString).

(** |intersection| / max(|query tokens|, |example tokens|). *)
Definition token_score (q e : list string) : Q :=
  Z.of_nat (length (filter (fun t => Js.arr_includes e t) q))
  # Pos.of_nat (Nat.max (length q) (length e)).

Definition consider (q : list string)
                    (best : option NaturalLanguageTool.Example * Q)
                    (example : NaturalLanguageTool.Example)
  : option NaturalLanguageTool.Example * Q :=
  let sc := token_score q (token_set (NaturalLanguageTool.Example.query example)) in
  if NaturalLanguageTool.Qgt_bool sc (snd best)
     && NaturalLanguageTool.Qgt_bool sc (1 # 2)
  then (Some example, sc)
  else best.

(** The highest-scoring example, the first one on ties, when its score
    exceeds one half. *)
Definition stageA (query : string) : option NaturalLanguageTool.Example :=
  fst (fold_left (consider (token_set query)) NaturalLanguageTool.examples
                 (None, 0%Q)).

End Spec.

(* ===================================================================== *)
(** ** Concrete environments *)
(* ===================================================================== *)

Module Script.

(** A remote side that answers the calls it receives from a list, one
    answer per call, and resolves everything once the list is used up. *)
Inductive answer : Type :=
| ok
| fails (msg : string)
| found (h : ElementHandle)
| shows (d : Dom.document).

Definition answer_to (c : call) (a : answer) : outcome (reply c) :=
  match a with
  | fails msg => Rejected (JsError msg)
  | _ =>
      match c return outcome (reply c) with
      | Query _ => Resolved (match a with found h => Some h | _ => None end)
      | Evaluate => Resolved (match a with shows d => d | _ => [] end)
      | Goto _ _ | Select _ _ | TypeText _ _ | Click _ | WaitForSelector _ _
      | WaitForNavigation | WaitForTimeout _ | UploadFile _ _ | FsAccess _ =>
          Resolved tt
      end
  end.

Definition next_answer (c : call) (w : list answer) : outcome (reply c) * list answer :=
  match w with
  | [] => (answer_to c ok, [])
  | a :: r => (answer_to c a, r)
  end.

Definition env : Environment (list answer) :=
  {| respond := next_answer; url_of := fun _ => "about:blank" |}.

Definition no_env (name : string) : option string := None.

Definition with_credentials (name : string) : option string :=
  if String.eqb name "ONLINEEDA_USERNAME" then Some "alice"
  else if String.eqb name "ONLINEEDA_PASSWORD" then Some "secret"
  else None.

(** The process before [initialize]: no browser, no page. *)
Definition uninitialized (w : list answer) : State (list answer) :=
  mkState (mkSession None None false None) with_credentials [] w [].

(** The process after [initialize], not logged in. *)
Definition ready (environ : string -> option string) (w : list answer)
  : State (list answer) :=
  mkState (mkSession (Some TheBrowser) (Some ThePage) false None) environ [] w [].

(** The process once logged in. *)
Definition authenticated (w : list answer) : State (list answer) :=
  mkState (mkSession (Some TheBrowser) (Some ThePage) true None) with_credentials [] w [].

(** A results page whose total is not a number, and one without any
    marker. *)
Definition page_without_total : Dom.document :=
  [Dom.Element "summary" ["results-ready"] []
     [Dom.Element EmptyString ["total-checks"] [] [Dom.Text "N/A"];
      Dom.Element EmptyString ["checks-passed"] [] [Dom.Text " 12 passed"];
      Dom.Element EmptyString ["violation-item"] []
        [Dom.Element EmptyString ["violation-message"] []
           [Dom.Text "  assertion a1 fails "]]]].

Definition empty_page : Dom.document :=
  [Dom.Element "summary" ["results-ready"] [] [Dom.Text "done"]].

(** A remote side on which every local path is missing and everything
    else succeeds. *)
Definition without_files : Environment unit :=
  {| respond := fun c w =>
       (match c return outcome (reply c) with
        | FsAccess _ => Rejected (JsError "ENOENT: no such file or directory")
        | Query _ => Resolved (Some 0%nat)
        | Evaluate => Resolved []
        | Goto _ _ | Select _ _ | TypeText _ _ | Click _ | WaitForSelector _ _
        | WaitForNavigation | WaitForTimeout _ | UploadFile _ _ => Resolved tt
        end, w);
     url_of := fun _ => "about:blank" |}.

(** Stand-ins for the zod schemas, enough to run the tools. *)
Definition issue (msg : string) : ZodErrorObj :=
  {| errors := [{| message := msg |}]; zod_message := "[" ++ msg ++ "]" |}.

Definition member (k : string) (v : json) : option string :=
  match get k v with
  | Some (JStr s) => Some s
  | _ => None
  end.

Definition parse_navigate (v : json) : NavigateTool.NavigateParams + ZodErrorObj :=
  match member "action" v with
  | Some a =>
      if String.eqb a "home"
      then inl {| NavigateTool.action := NavigateTool.home;
                  NavigateTool.projectId := member "projectId" v |}
      else if String.eqb a "projects"
      then inl {| NavigateTool.action := NavigateTool.projects;
                  NavigateTool.projectId := member "projectId" v |}
      else inr (issue "Invalid enum value")
  | None => inr (issue "Required")
  end.

Definition parse_project (v : json) : ProjectTool.ProjectParams + ZodErrorObj :=
  match member "action" v with
  | Some a =>
      if String.eqb a "list"
      then inl {| ProjectTool.action := ProjectTool.list_;
                  ProjectTool.projectName := member "projectName" v;
                  ProjectTool.projectType := None;
                  ProjectTool.projectId := member "projectId" v |}
      else if String.eqb a "open"
      then inl {| ProjectTool.action := ProjectTool.open;
                  ProjectTool.projectName := member "projectName" v;
                  ProjectTool.projectType := None;
                  ProjectTool.projectId := member "projectId" v |}
      else inr (issue "Invalid enum value")
  | None => inr (issue "Required")
  end.

Definition parse_upload (v : json) : UploadFileTool.UploadFileParams + ZodErrorObj :=
  match member "projectId" v, member "filePath" v with
  | Some p, Some f =>
      inl {| UploadFileTool.projectId := p;
             UploadFileTool.filePath := f;
             UploadFileTool.fileType := None |}
  | _, _ => inr (issue "Required")
  end.

Definition parse_run (v : json)
  : RunVerificationTool.RunVerificationParams + ZodErrorObj :=
  match member "projectId" v with
  | Some p =>
      inl {| RunVerificationTool.projectId := p;
             RunVerificationTool.verificationType := formal;
             RunVerificationTool.options :=
               match get "options" v with
               | Some o =>
                   Some {| RunVerificationTool.timeout :=
                             match get "timeout" o with
                             | Some (JNum (Js.Num t)) => Some t
                             | _ => None
                             end;
                           RunVerificationTool.depth := None;
                           RunVerificationTool.properties := None |}
               | None => None
               end |}
  | None => inr (issue "Required")
  end.

Definition parse_query (v : json)
  : NaturalLanguageTool.NaturalLanguageParams + ZodErrorObj :=
  match member "query" v with
  | Some q => inl {| NaturalLanguageTool.query := q;
                     NaturalLanguageTool.context := None |}
  | None => inr (issue "Required")
  end.

(** A [resolve] for a process whose working directory is [/work]. *)
Definition resolve_in_work (p : string) : string :=
  match p with
  | String "/"%char _ => p
  | _ => "/work/" ++ p
  end.

Definition externals : Externals :=
  {| NavigateSchema := parse_navigate;
     ProjectSchema := parse_project;
     UploadFileSchema := parse_upload;
     RunVerificationSchema := parse_run;
     NaturalLanguageSchema := parse_query;
     resolve := resolve_in_work |}.

End Script.

(* ===================================================================== *)
(** ** Vocabulary of the properties *)
(* ===================================================================== *)

(** The text [validateAndExecute] reports for a caught value. *)
Definition reported (e : thrown) : string :=
  match e with
  | ZodError z => "Invalid parameters: " ++ Js.join ", " (map message (errors z))
  | _ => message_or e "Unknown error occurred"
  end.

(** The state after [logger.<l>(msg)]. *)
Definition after_log {W} (s : State W) (l : level) (msg : string) : State W :=
  mkState (session s) (environ s) (logged s ++ [(l, msg)])%list (world s) (issued s).

(** An outcome that [validateAndExecute] turns into a result within the
    contract: a result that is within it already, or a thrown value
    whose reported text is not empty. *)
Definition safe (o : outcome ToolResult) : Prop :=
  match o with
  | Resolved r => contract r
  | Rejected e => reported e <> EmptyString
  end.

(** [along Q tr p]: on every path of [p], with [tr] the calls made
    before, the calls made and the outcome satisfy [Q]. *)
Fixpoint along {A} (Q : list (call * bool) -> outcome A -> Prop)
                   (tr : list (call * bool)) (p : prog A) : Prop :=
  match p with
  | Ret a => Q tr (Resolved a)
  | Throw e => Q tr (Rejected e)
  | Sync c k => forall r, along Q tr (k r)
  | Await c k => forall o, along Q (tr ++ [(c, resolved o)])%list (k o)
  end.

Definition is_goto (c : call) : bool :=
  match c with Goto _ _ => true | _ => false end.

Definition is_evaluate (c : call) : bool :=
  match c with Evaluate => true | _ => false end.

Definition is_access (c : call) : bool :=
  match c with FsAccess _ => true | _ => false end.


(** The score of a corpus example against a lowercased query, as
    [findBestExample] computes it. *)
Definition score_of (query : string) (e : NaturalLanguageTool.Example) : Q :=
  NaturalLanguageTool.score (Js.split " " query)
                            (NaturalLanguageTool.example_words e).

(** [e] is the first example of [corpus] with the highest score. *)
Definition first_maximum (query : string)
           (corpus : list NaturalLanguageTool.Example)
           (e : NaturalLanguageTool.Example) : Prop :=
  exists pre post,
    corpus = (pre ++ e :: post)%list
    /\ (forall x, In x pre -> score_of query x < score_of query e)
    /\ (forall x, In x post -> score_of query x <= score_of query e).

(** The calls [BrowserManager.login] makes, recognised by their
    selectors. *)
Definition login_call (c : call) : bool :=
  match c with
  | Query sel => String.eqb sel BrowserManager.dashboard_sel
  | WaitForSelector sel _ => String.eqb sel BrowserManager.login_user_sel
  | TypeText sel _ =>
      String.eqb sel BrowserManager.login_user_sel
      || String.eqb sel BrowserManager.login_pass_sel
  | Click sel => String.eqb sel BrowserManager.submit_sel
  | WaitForNavigation => true
  | _ => false
  end.

Definition login_calls (tr : list (call * bool)) : Prop :=
  Forall (fun cb => login_call (fst cb) = true) tr.

(** A result that reports a failure and carries no data. *)
Definition failure (o : outcome ToolResult) : Prop :=
  exists msg, o = Resolved (fail msg).

(** [x] occurs in [tr] before every entry of [tr] that [after] accepts. *)
Definition precedes (x : call * bool) (after : call -> bool)
           (tr : list (call * bool)) : Prop :=
  forall pre y post,
    tr = (pre ++ y :: post)%list -> after (fst y) = true -> In x pre.

(** Every entry of [tr] that [first] accepts is directly followed by
    [next], whatever the result of [next]. *)
Definition directly_followed (first : call -> bool) (next : call)
           (tr : list (call * bool)) : Prop :=
  forall pre x post,
    tr = (pre ++ x :: post)%list -> first (fst x) = true ->
    exists b post', post = (next, b) :: post'.

(** A scan of the calls made: every entry that [after] accepts comes
    later than some entry that [before] accepts ([seen] tells whether
    one was met already). *)
Fixpoint guarded (before : call * bool -> bool) (after : call -> bool)
         (seen : bool) (tr : list (call * bool)) : bool :=
  match tr with
  | [] => true
  | y :: r =>
      (if after (fst y) then seen else true)
      && guarded before after (seen || before y) r
  end.

(** A successful [fs.access], a failed one. *)
Definition access_ok (cb : call * bool) : bool := is_access (fst cb) && snd cb.
Definition access_failed (cb : call * bool) : bool :=
  is_access (fst cb) && negb (snd cb).

Definition no_goto (tr : list (call * bool)) : Prop :=
  Forall (fun cb => is_goto (fst cb) = false) tr.

(** What holds of the calls [tr] and the outcome [o] of an upload of the
    file at [path] (already resolved). *)
Definition upload_trace (path : string) (tr : list (call * bool))
           (o : outcome ToolResult) : Prop :=
  guarded access_ok is_goto false tr = true
  /\ (forall p b, In (FsAccess p, b) tr -> p = path)
  /\ (existsb access_failed tr = true ->
      failure o /\ forallb (fun cb => negb (is_goto (fst cb))) tr = true)
  /\ (forall r, o = Resolved r -> success r = true ->
      existsb access_ok tr = true).

(** The calls of a verification run, recognised by their selectors. *)
Definition is_trigger (c : call) : bool :=
  match c with
  | Click sel => String.eqb sel RunVerificationTool.run_button
  | _ => false
  end.

Definition is_running_wait (c : call) : bool :=
  match c with
  | WaitForSelector sel _ => String.eqb sel RunVerificationTool.running_sel
  | _ => false
  end.

Definition is_complete_wait (c : call) : bool :=
  match c with
  | WaitForSelector sel _ => String.eqb sel RunVerificationTool.complete_sel
  | _ => false
  end.

Definition ok_of (kind : call -> bool) (cb : call * bool) : bool :=
  kind (fst cb) && snd cb.

Definition failed_of (kind : call -> bool) (cb : call * bool) : bool :=
  kind (fst cb) && negb (snd cb).

(** The wait for the running indicator, with its bound of 5000 ms. *)
Definition running_wait : call :=
  WaitForSelector RunVerificationTool.running_sel (Some 5000%Z).

(** The wait for the complete indicator, with its bound in ms. *)
Definition complete_wait (params : RunVerificationTool.RunVerificationParams) : call :=
  WaitForSelector RunVerificationTool.complete_sel
                  (Some (RunVerificationTool.timeout_seconds params * 1000)%Z).

Definition is_running_wait_5s (c : call) : bool :=
  match c with
  | WaitForSelector sel (Some t) =>
      String.eqb sel RunVerificationTool.running_sel && (t =? 5000)%Z
  | _ => false
  end.

(** A scan of the calls made: every entry that [first] accepts is
    directly followed by one that [next] accepts. *)
Fixpoint followed (first next : call -> bool) (tr : list (call * bool)) : bool :=
  match tr with
  | [] => true
  | x :: r =>
      (if first (fst x)
       then match r with
            | y :: _ => next (fst y)
            | [] => false
            end
       else true)
      && followed first next r
  end.

(** What holds of the calls [tr] and the outcome [o] of a verification
    run. *)
Definition verification_trace (params : RunVerificationTool.RunVerificationParams)
           (tr : list (call * bool)) (o : outcome ToolResult) : Prop :=
  followed is_trigger is_running_wait_5s tr = true
  /\ guarded (ok_of is_running_wait) is_complete_wait false tr = true
  /\ guarded (ok_of is_complete_wait) is_evaluate false tr = true
  /\ (forall sel t b, In (WaitForSelector sel t, b) tr ->
      (sel = RunVerificationTool.running_sel -> t = Some 5000%Z)
      /\ (sel = RunVerificationTool.complete_sel ->
          t = Some (RunVerificationTool.timeout_seconds params * 1000)%Z))
  /\ (existsb (failed_of is_running_wait) tr = true -> failure o)
  /\ (existsb (failed_of is_complete_wait) tr = true -> failure o)
  /\ (forall r, o = Resolved r -> success r = true ->
      existsb (ok_of is_running_wait) tr = true
      /\ existsb (ok_of is_complete_wait) tr = true).

(** [params.options?.timeout]. *)
Definition options_timeout (params : RunVerificationTool.RunVerificationParams)
  : option Z :=
  match RunVerificationTool.options params with
  | Some o => RunVerificationTool.timeout o
  | None => None
  end.

(** Whether the answer to the status query shows a logged-in marker. *)
Definition shows_dashboard (o : outcome (option ElementHandle)) : bool :=
  match o with
  | Resolved (Some _) => true
  | _ => false
  end.

(** The state after [this.state.isLoggedIn = b]. *)
Definition after_set_logged_in {W} (s : State W) (b : bool) : State W :=
  mkState (mkSession (browser (session s)) (page (session s)) b
                     (currentProject (session s)))
          (environ s) (logged s) (world s) (issued s).

(** What holds of the calls [tr] and the outcome [o] of the attempt to
    log in as [user] with [pass]. *)
Definition attempt_trace (user pass : string) (tr : list (call * bool))
           (o : outcome bool) : Prop :=
  (exists r, o = Resolved r)
  /\ (forall x b, In (TypeText BrowserManager.login_user_sel x, b) tr -> x = user)
  /\ (forall x b, In (TypeText BrowserManager.login_pass_sel x, b) tr -> x = pass)
  /\ exists b1 rest,
       tr = (WaitForSelector BrowserManager.login_user_sel (Some 5000%Z), b1) :: rest
       /\ (b1 = true ->
           exists b2 rest',
             rest = (TypeText BrowserManager.login_user_sel user, b2) :: rest'
             /\ (b2 = true ->
                 exists b3 rest'',
                   rest' = (TypeText BrowserManager.login_pass_sel pass, b3) :: rest'')).

(** A synchronous access that announces a login attempt, one that
    writes the logged-in flag. *)
Definition announces (c : sync) : bool :=
  match c with
  | Log l msg => attempt_entry (l, msg)
  | _ => false
  end.

Definition sets_flag (c : sync) : bool :=
  match c with
  | SetLoggedIn _ => true
  | _ => false
  end.

(** [finishes p]: [p] runs to its end without awaiting anything and
    without announcing a login attempt. *)
Fixpoint finishes {A} (p : prog A) : Prop :=
  match p with
  | Ret _ | Throw _ => True
  | Sync c k => announces c = false /\ forall r, finishes (k r)
  | Await _ _ => False
  end.

(** [calm p]: [p] announces no login attempt, and once it has written
    the logged-in flag it runs to its end without awaiting anything. *)
Fixpoint calm {A} (p : prog A) : Prop :=
  match p with
  | Ret _ | Throw _ => True
  | Sync c k =>
      announces c = false
      /\ if sets_flag c then forall r, finishes (k r) else forall r, calm (k r)
  | Await _ k => forall o, calm (k o)
  end.

Definition is_enter (d : decision) : bool :=
  match d with
  | Enter => true
  | Resume _ => false
  end.

(** The callers that entered are all still waiting, none has finished. *)
Definition all_in_flight {W} (pool : Pool W bool) : bool :=
  forallb (@in_flight bool) (tasks pool).

(** What the interleavings of callers of [ensureLoggedIn] preserve, with
    [a0] the attempts announced before the first caller. *)
Definition unserialized {W} (a0 : nat) (pool : Pool W bool) : Prop :=
  Forall calm (tasks pool)
  /\ page (session (shared pool)) = Some ThePage
  /\ (all_in_flight pool = true ->
      isLoggedIn (session (shared pool)) = false
      /\ attempts (shared pool) = (a0 + length (tasks pool))%nat).

(** The state of the loop of [findBestExample] after the examples [l]. *)
Definition scanned (query : string) (l : list NaturalLanguageTool.Example)
           (best : option NaturalLanguageTool.Example * Q) : Prop :=
  match fst best with
  | None => snd best = 0 /\ forall x, In x l -> score_of query x <= 1 # 2
  | Some e =>
      snd best = score_of query e
      /\ 1 # 2 < score_of query e
      /\ first_maximum query l e
  end.

(* ===================================================================== *)
(** ** Following the session record along a program *)
(* ===================================================================== *)

(** What a synchronous access answers, as far as the session record
    [st] decides it: [this.state] is [st] itself. *)
Definition told (c : sync) (st : SessionState) : sync_reply c -> Prop :=
  match c return sync_reply c -> Prop with
  | GetState => fun r => r = st
  | _ => fun _ => True
  end.

(** The session record after a synchronous access. *)
Definition session_after (c : sync) (st : SessionState) : SessionState :=
  match c with
  | SetLoggedIn b => mkSession (browser st) (page st) b (currentProject st)
  | _ => st
  end.

(** [tracked Q st p]: started with the session record [st], whatever the
    environment and the page answer, [p] ends with a session record and
    an outcome that satisfy [Q]. *)
Fixpoint tracked {A} (Q : SessionState -> outcome A -> Prop)
         (st : SessionState) (p : prog A) : Prop :=
  match p with
  | Ret a => Q st (Resolved a)
  | Throw e => Q st (Rejected e)
  | Sync c k => forall r, told c st r -> tracked Q (session_after c st) (k r)
  | Await c k => forall o, tracked Q st (k o)
  end.

(** What [ensureLoggedIn] leaves behind. *)
Definition authenticated_or_rejected (st : SessionState) (o : outcome bool) : Prop :=
  match o with
  | Resolved b => b = true /\ isLoggedIn st = true
  | Rejected _ => isLoggedIn st = false
  end.

(** What [login] leaves behind when there is a page. *)
Definition logged_in_when_true (st : SessionState) (o : outcome bool) : Prop :=
  exists b, o = Resolved b /\ (b = true -> isLoggedIn st = true).

(** What a domain operation leaves behind. *)
Definition success_needs_session (st : SessionState) (o : outcome ToolResult) : Prop :=
  forall r, o = Resolved r -> success r = true ->
            isLoggedIn st = true /\ page st = Some ThePage.

(* ===================================================================== *)
(** ** Life cycle of the browser ([src/utils/browser.ts], [src/index.ts]) *)
(* ===================================================================== *)

Module Lifecycle.

(** [navigateToOnlineEDA]. *)
Definition navigateToOnlineEDA : prog unit :=
  st <- perform GetState ;;
  match page st with
  | None => Throw (JsError "Browser not initialized")
  | Some _ =>
      try_catch
        (perform (Log info "Navigating to OnlineEDA platform...") ;;
         await (Goto (site ++ "/") (Some 30000%Z)) ;;
         await (WaitForTimeout 2000) ;;
         perform (Log info "Successfully navigated to OnlineEDA"))
        (fun err =>
           perform (Log error_level "Failed to navigate to OnlineEDA") ;;
           Throw err)
  end.

Section WithWorld.

Variable W : Type.

(** The state with [this.state.browser] and [this.state.page] assigned. *)
Definition with_handles (s : State W) (b : option Browser) (p : option Page)
  : State W :=
  mkState (mkSession b p (isLoggedIn (session s)) (currentProject (session s)))
          (environ s) (logged s) (world s) (issued s).

(** [initialize], given how the promises of [puppeteer.launch],
    [browser.newPage] and [page.setViewport] settle.  Each handle is
    assigned as soon as its promise resolves; an error is logged and
    thrown again. *)
Definition initialize (launch : outcome Browser) (newPage : outcome Page)
           (setViewport : outcome unit) (s : State W) : outcome unit * State W :=
  let s0 := after_log s info "Launching browser for OnlineEDA..." in
  let failed (e : thrown) (s1 : State W) :=
    (Rejected (A := unit) e,
     after_log s1 error_level "Failed to initialize browser") in
  match launch with
  | Rejected e => failed e s0
  | Resolved b =>
      let s1 := with_handles s0 (Some b) (page (session s0)) in
      match newPage with
      | Rejected e => failed e s1
      | Resolved p =>
          let s2 := with_handles s1 (browser (session s1)) (Some p) in
          match setViewport with
          | Rejected e => failed e s2
          | Resolved _ =>
              (Resolved tt, after_log s2 info "Browser initialized successfully")
          end
      end
  end.

(** [close], given how the promise of [browser.close] settles (it is
    only called when there is a browser). *)
Definition close (closed : outcome unit) (s : State W) : outcome unit * State W :=
  match browser (session s) with
  | Some _ =>
      match closed with
      | Resolved _ =>
          (Resolved tt,
           mkState (mkSession None None false (currentProject (session s)))
                   (environ s) (logged s) (world s) (issued s))
      | Rejected e => (Rejected e, s)
      end
  | None => (Resolved tt, s)
  end.

(** The state of a [BrowserManager] just constructed. *)
Definition constructed (environ : string -> option string) (w : W) : State W :=
  mkState (mkSession None None false None) environ [] w [].

(** The browser part of [start]: initialise and navigate, and go on
    without a browser when either fails. *)
Definition start_browser (env : Environment W) (launch : outcome Browser)
           (newPage : outcome Page) (setViewport : outcome unit) (s : State W)
  : State W :=
  let without (s1 : State W) :=
    after_log (after_log s1 error_level "Failed to initialize browser:")
              warn "Server starting without browser - some features may not work" in
  match initialize launch newPage setViewport s with
  | (Resolved _, s1) =>
      match run env navigateToOnlineEDA s1 with
      | (Resolved _, s2) =>
          after_log s2 info "Browser initialized and navigated to OnlineEDA"
      | (Rejected _, s2) => without s2
      end
  | (Rejected _, s1) => without s1
  end.

End WithWorld.

End Lifecycle.

(** A page is held only together with a browser. *)
Definition page_needs_browser (st : SessionState) : Prop :=
  page st <> None -> browser st <> None.

(** The message of a domain operation on a session without a page. *)
Definition no_page_message (st : SessionState) : string :=
  if isLoggedIn st then "Browser page not available"
  else "Browser not initialized".

(* ===================================================================== *)
(** ** The request handlers ([src/index.ts]) *)
(* ===================================================================== *)

Module Server.

Inductive ErrorCode : Type := InternalError | MethodNotFound.

(** [new McpError(code, message)], by its arguments. *)
Record McpError : Type := {
  code : ErrorCode;
  reason : string;
}.

(** A [Map] with string keys, in insertion order: [set] on a key that is
    present replaces the value in place. *)
Fixpoint map_set {V} (k : string) (v : V) (m : list (string * V))
  : list (string * V) :=
  match m with
  | [] => [(k, v)]
  | (k', v') :: r =>
      if String.eqb k' k then (k, v) :: r else (k', v') :: map_set k v r
  end.

Fixpoint map_get {V} (m : list (string * V)) (k : string) : option V :=
  match m with
  | [] => None
  | (k', v) :: r => if String.eqb k' k then Some v else map_get r k
  end.

Definition map_values {V} (m : list (string * V)) : list V := map snd m.

(** [setupTools]: [this.tools] after the loop. *)
Definition setupTools (x : Externals) : list (string * Tool) :=
  fold_left (fun tools tool => map_set (getName tool) tool tools)
            (toolInstances x) [].

Record Resource : Type := {
  uri : string;
  name : string;
  description : string;
  mimeType : string;
}.

(** [setupResources]: [this.resources] after the four [set]s. *)
Definition setupResources : list (string * Resource) :=
  map_set "documentation"
    {| uri := "arcas://documentation";
       name := "Arcas OnlineEDA Documentation";
       description := "Platform documentation and user guides";
       mimeType := "text/markdown" |}
  (map_set "platform-status"
    {| uri := "arcas://platform-status";
       name := "Platform Status";
       description := "Current status of Arcas OnlineEDA platform and services";
       mimeType := "application/json" |}
  (map_set "verification-results"
    {| uri := "arcas://verification-results";
       name := "Verification Results";
       description := "Latest verification results from all projects";
       mimeType := "application/json" |}
  (map_set "projects"
    {| uri := "arcas://projects";
       name := "Arcas OnlineEDA Projects";
       description := "List of all projects in your Arcas OnlineEDA workspace";
       mimeType := "application/json" |}
  []))).

(** The handler of [ListResourcesRequestSchema]. *)
Definition listResources : list Resource := map_values setupResources.

(** [s.split(sep)] for a separator of one character or more: [skip]
    counts the characters of a separator just met that are still to be
    passed over, [cur] holds the current piece in reverse. *)
Fixpoint split_from (sep s : string) (skip : nat) (cur : string) : list string :=
  match s with
  | EmptyString => [Js.rev_string cur EmptyString]
  | String c r =>
      match skip with
      | S k => split_from sep r k cur
      | O =>
          if String.prefix sep s
          then Js.rev_string cur EmptyString
               :: split_from sep r (String.length sep - 1) EmptyString
          else split_from sep r 0 (String c cur)
      end
  end.

Definition split_by (sep s : string) : list string :=
  split_from sep s 0 EmptyString.

(** [this.resources.get(uri.split('://')[1])?.mimeType || 'text/plain']. *)
Definition mimeType_of (uri : string) : string :=
  Js.or_default
    match nth_error (split_by "://" uri) 1 with
    | Some key => option_map mimeType (map_get setupResources key)
    | None => None
    end
    "text/plain".

Definition nl : string := String (ascii_of_nat 10) EmptyString.

(** The text of [arcas://documentation]. *)
Definition documentation : string :=
  Js.join nl
    [ "# Arcas OnlineEDA Platform Documentation";
      EmptyString;
      "## Overview";
      "Arcas OnlineEDA is a web-based EDA platform for formal verification and chip design.";
      EmptyString;
      "## Features";
      "- Formal Verification";
      "- Equivalence Checking";
      "- Power Analysis";
      "- Security Verification";
      "- FPGA Design Support";
      EmptyString;
      "## Quick Start";
      "1. Create a project";
      "2. Upload your design files";
      "3. Configure verification settings";
      "4. Run verification";
      "5. Review results";
      EmptyString;
      "For detailed usage, use the natural language tool with your questions." ].

(** One entry of [contents]; [text] is absent when [JSON.stringify] is
    given [undefined]. *)
Record ResourceContents : Type := {
  contents_uri : string;
  contents_mimeType : string;
  text : option string;
}.

(** The answer of the tool call: the text of its one piece of content
    and whether [isError: true] is set. *)
Record CallToolResult : Type := {
  content_text : option string;
  isError : bool;
}.

Section Handlers.

(** [JSON.stringify(v, null, 2)] on a value that is not [undefined], and
    [new Date().toISOString()] at the time of the request. *)
Variable stringify : json -> string.
Variable now : string.
Variable x : Externals.

(** A template literal with a value that may be [undefined]. *)
Definition interpolate (v : option string) : string :=
  match v with Some s => s | None => "undefined" end.

(** [args || {}], for the arguments of a request: an object or absent. *)
Definition or_empty (args : option json) : json :=
  match args with Some a => a | None => JObj [] end.

(** The handler of [ReadResourceRequestSchema]; [inl] is the [McpError]
    it throws. *)
Definition readResource (uri : string)
  : prog (McpError + list ResourceContents) :=
  try_catch
    (content <-
       (if String.eqb uri "arcas://projects" then
          match map_get (setupTools x) "arcas_onlineeda_project" with
          | Some projectTool =>
              projectsResult <-
                validateAndExecute projectTool (JObj [("action", JStr "list")]) ;;
              Ret (option_map stringify (data projectsResult))
          | None =>
              Throw (JsError "Cannot read properties of undefined (reading 'validateAndExecute')")
          end
        else if String.eqb uri "arcas://verification-results" then
          Ret (Some (stringify
            (JObj [("message", JStr "Use arcas_onlineeda_run_verification to get results for specific projects");
                   ("tip", JStr "Results are available after running verification on a project")])))
        else if String.eqb uri "arcas://platform-status" then
          loggedIn <- BrowserManager.isLoggedIn ;;
          Ret (Some (stringify
            (JObj [("status", JStr "online");
                   ("browser", JStr (if loggedIn then "connected" else "disconnected"));
                   ("timestamp", JStr now)])))
        else if String.eqb uri "arcas://documentation" then
          Ret (Some documentation)
        else Throw (JsError ("Unknown resource: " ++ uri))) ;;
     Ret (inr [ {| contents_uri := uri;
                   contents_mimeType := mimeType_of uri;
                   text := content |} ]))
    (fun err =>
       Ret (inl {| code := InternalError;
                   reason := "Failed to read resource: "
                             ++ message_or err "Unknown error" |})).

(** The handler of [CallToolRequestSchema]; [inl] is the [McpError] it
    throws. *)
Definition callTool (name : string) (args : option json)
  : prog (McpError + CallToolResult) :=
  match map_get (setupTools x) name with
  | None =>
      Ret (inl {| code := MethodNotFound;
                  reason := "Tool " ++ name ++ " not found" |})
  | Some tool =>
      try_catch
        (result <- validateAndExecute tool (or_empty args) ;;
         if negb (success result) then
           Ret (inr {| content_text := Some ("Error: " ++ interpolate (error result));
                       isError := true |})
         else
           Ret (inr {| content_text := option_map stringify (data result);
                       isError := false |}))
        (fun err =>
           perform (Log error_level ("Error executing tool " ++ name ++ ":")) ;;
           Ret (inr {| content_text := Some ("Error: " ++ message_or err "Unknown error");
                       isError := true |}))
  end.

End Handlers.

End Server.

(** The names under which the tools are registered. *)
Definition tool_names : list string :=
  [ "arcas_onlineeda_navigate"; "arcas_onlineeda_project";
    "arcas_onlineeda_upload_file"; "arcas_onlineeda_run_verification";
    "arcas_onlineeda_natural_language" ].

(* ===================================================================== *)
(** ** The calls of an operation, and the slots of a suggestion *)
(* ===================================================================== *)

(** The address a navigation action stands for. *)
Definition navigate_url (a : NavigateTool.Action) : string :=
  match a with
  | NavigateTool.home => "https://onlineeda.arcas-da.com/dashboard"
  | NavigateTool.projects => "https://onlineeda.arcas-da.com/projects"
  | NavigateTool.new_project => "https://onlineeda.arcas-da.com/projects/new"
  | NavigateTool.documentation => "https://onlineeda.arcas-da.com/docs"
  | NavigateTool.settings => "https://onlineeda.arcas-da.com/settings"
  end.

(** The page calls of a project operation in the order in which they
    are made, when the parameters the action needs are there. *)
Definition project_script (params : ProjectTool.ProjectParams)
  : option (list call) :=
  match ProjectTool.action params with
  | ProjectTool.create =>
      match BrowserManager.truthy_value (ProjectTool.projectName params),
            ProjectTool.projectType params with
      | Some name, Some type =>
          Some [ Goto "https://onlineeda.arcas-da.com/projects/new" None;
                 WaitForSelector ProjectTool.name_sel None;
                 TypeText ProjectTool.name_sel name;
                 Select ProjectTool.type_sel (type_name type);
                 Click (attr_sel "button" "type" "submit" ++ ", .create-project-btn");
                 WaitForNavigation ]
      | _, _ => None
      end
  | ProjectTool.open =>
      match BrowserManager.truthy_value (ProjectTool.projectId params) with
      | Some id => Some [ Goto ("https://onlineeda.arcas-da.com/projects/" ++ id) None ]
      | None => None
      end
  | ProjectTool.list_ =>
      Some [ Goto "https://onlineeda.arcas-da.com/projects" None; Evaluate ]
  | ProjectTool.delete =>
      match BrowserManager.truthy_value (ProjectTool.projectId params) with
      | Some id =>
          Some [ Goto ("https://onlineeda.arcas-da.com/projects/" ++ id ++ "/settings")
                      None;
                 Click (".delete-project-btn, "
                        ++ attr_sel "button" "data-action" "delete");
                 WaitForSelector ".confirm-delete, .modal-confirm" None;
                 Click (".confirm-delete, "
                        ++ attr_sel "button" "data-confirm" "delete") ]
      | None => None
      end
  end.

(** The message for an action whose parameters are missing. *)
Definition project_requirement (a : ProjectTool.Action) : string :=
  match a with
  | ProjectTool.create => "Project name and type are required for creating a project"
  | ProjectTool.open => "Project ID is required for opening a project"
  | ProjectTool.list_ => EmptyString
  | ProjectTool.delete => "Project ID is required for deleting a project"
  end.

(** The calls [tr] are calls of [login] followed by the calls of
    [script], each of which resolved. *)
Definition completed (script : list call) (tr : list (call * bool)) : Prop :=
  exists pre,
    tr = (pre ++ map (fun c => (c, true)) script)%list /\ login_calls pre.

(** What holds of the calls and the outcome of a project operation. *)
Definition project_trace (params : ProjectTool.ProjectParams)
           (tr : list (call * bool)) (o : outcome ToolResult) : Prop :=
  match project_script params with
  | Some script =>
      forall r, o = Resolved r -> success r = true -> completed script tr
  | None =>
      login_calls tr
      /\ forall r, o = Resolved r ->
           r = fail (project_requirement (ProjectTool.action params))
           \/ r = fail "Browser page not available"
  end.

(** What holds of the calls and the outcome of a navigation. *)
Definition navigate_trace (params : NavigateTool.NavigateParams)
           (tr : list (call * bool)) (o : outcome ToolResult) : Prop :=
  forall r, o = Resolved r -> success r = true ->
    completed [ Goto (navigate_url (NavigateTool.action params)) None;
                WaitForTimeout 1000 ] tr
    /\ exists currentUrl,
         r = succeed (JObj [("action",
                             JStr (NavigateTool.action_name (NavigateTool.action params)));
                            ("currentUrl", JStr currentUrl)]).

(** The names of the file types in the schema of the upload tool. *)
Definition file_type_name (t : UploadFileTool.FileType) : string :=
  match t with
  | UploadFileTool.verilog => "verilog"
  | UploadFileTool.systemverilog => "systemverilog"
  | UploadFileTool.vhdl => "vhdl"
  | UploadFileTool.constraints => "constraints"
  | UploadFileTool.other => "other"
  end.

(** [result.data.suggestedParams[k]]. *)
Definition slot (r : ToolResult) (k : string) : option json :=
  match data r with
  | Some d =>
      match get "suggestedParams" d with
      | Some suggested => get k suggested
      | None => None
      end
  | None => None
  end.

(* ===================================================================== *)
(** * Properties *)
(* ===================================================================== *)

Unset Implicit Arguments.

(** ** Tactics *)

(** Walking the paths of a program: reduce, and split on whatever the
    next node inspects. *)
Ltac inner_var x :=
  match x with
  | _ => let _ := match goal with _ => is_var x end in constr:(x)
  | ?f ?y => inner_var y
  end.

Ltac split_on p :=
  match p with
  | context [settle ?o] => is_var o; destruct o
  | context [match ?x with _ => _ end] =>
      first [ let v := inner_var x in destruct v | destruct x ]
  end.

Ltac walk :=
  repeat (cbn; intros;
          try match goal with
              | |- always _ ?p => split_on p
              | |- along _ _ ?p => split_on p
              end).

Ltac contract_tac :=
  try exact I;
  try discriminate;
  try (split; [discriminate | reflexivity]);
  try (split; [eexists; split; [reflexivity | discriminate] | reflexivity]).

(** Splitting a membership in an explicit list of calls. *)
Ltac in_cases H :=
  cbn in H;
  repeat (destruct H as [H | H];
          [ try discriminate H; try (injection H as ? ?; subst) | ]);
  try contradiction.

Ltac upload_path :=
  unfold upload_trace; cbn;
  repeat split;
  try reflexivity;
  try (intros; discriminate);
  try (let p := fresh in let b := fresh in let H := fresh in
       intros p b H; in_cases H; reflexivity);
  try (intros; eexists; reflexivity);
  try (let r := fresh in let Hr := fresh in let Hs := fresh in
       intros r Hr Hs; injection Hr as <-; discriminate Hs).

Ltac wait_cases H :=
  cbn in H;
  repeat (destruct H as [H | H];
          [ try discriminate H;
            try (injection H as ? ? ?; subst;
                 split; intros Hsel; try discriminate Hsel; reflexivity) | ]);
  try contradiction.

Ltac verification_path :=
  unfold verification_trace; cbn;
  split; [reflexivity |];
  split; [reflexivity |];
  split; [reflexivity |];
  split; [let sel := fresh in let t := fresh in let b := fresh in
          let H := fresh in intros sel t b H; wait_cases H |];
  split; [first [ intros _; eexists; reflexivity
                | let H := fresh in intros H; discriminate H ] |];
  split; [first [ intros _; eexists; reflexivity
                | let H := fresh in intros H; discriminate H ] |];
  let r := fresh in let Hr := fresh in let Hs := fresh in
  intros r Hr Hs;
  first [ discriminate Hr
        | injection Hr as <-;
          first [ discriminate Hs | split; reflexivity ] ].

Ltac typed_cases H :=
  cbn in H;
  repeat (destruct H as [H | H];
          [ try discriminate H; try (injection H as ? ?; subst; reflexivity) | ]);
  try contradiction.

(** The same walk with the session record followed: the variable that
    decides a test is looked for inside nested tests too. *)
Ltac deciding_var x :=
  match x with
  | _ => let _ := match goal with _ => is_var x end in constr:(x)
  | match ?y with _ => _ end => deciding_var y
  | ?f ?y => deciding_var y
  end.

Ltac split_session p :=
  match p with
  | context [settle ?o] => is_var o; destruct o
  | context [match ?x with _ => _ end] =>
      first [ let v := deciding_var x in destruct v | destruct x ]
  end.

Ltac walk_session :=
  repeat (cbn; intros; subst; cbn;
          try match goal with
              | |- tracked _ _ ?p => split_session p
              end).

Ltac session_path :=
  repeat match goal with
         | p : Page |- _ => destruct p
         end;
  match goal with
  | Hr : Resolved _ = Resolved _, Hs : success _ = true |- _ =>
      injection Hr as <-; first [discriminate Hs | split; reflexivity]
  | Hr : Rejected _ = Resolved _ |- _ => discriminate Hr
  end.

(** ** Laws of [run] *)

Section RunLaws.

Variable W : Type.
Variable env : Environment W.

Lemma run_bind {A B} (p : prog A) (f : A -> prog B) (s : State W) :
  run env (bind p f) s =
  match run env p s with
  | (Resolved a, s') => run env (f a) s'
  | (Rejected e, s') => (Rejected e, s')
  end.
Proof.
  revert s; induction p as [a | e | c k IH | c k IH]; intros s; cbn.
  - reflexivity.
  - reflexivity.
  - destruct (sync_step env c s) as [r s']. apply IH.
  - destruct (call_step env c s) as [o s']. apply IH.
Qed.

Lemma run_try_catch {A} (p : prog A) (h : thrown -> prog A) (s : State W) :
  run env (try_catch p h) s =
  match run env p s with
  | (Resolved a, s') => (Resolved a, s')
  | (Rejected e, s') => run env (h e) s'
  end.
Proof.
  revert s; induction p as [a | e | c k IH | c k IH]; intros s; cbn.
  - reflexivity.
  - reflexivity.
  - destruct (sync_step env c s) as [r s']. apply IH.
  - destruct (call_step env c s) as [o s']. apply IH.
Qed.

Lemma run_await (c : call) (s : State W) :
  run env (await c) s = call_step env c s.
Proof.
  unfold await; cbn. destruct (call_step env c s) as [[a | e] s']; reflexivity.
Qed.

Lemma run_perform (c : sync) (s : State W) :
  run env (perform c) s =
  (Resolved (fst (sync_step env c s)), snd (sync_step env c s)).
Proof.
  unfold perform; cbn. destruct (sync_step env c s); reflexivity.
Qed.

(** A synchronous access leaves the list of calls alone, an awaited call
    adds exactly itself. *)
Lemma sync_step_issued (c : sync) (s : State W) :
  issued (snd (sync_step env c s)) = issued s.
Proof. destruct c; reflexivity. Qed.

Lemma sync_step_world (c : sync) (s : State W) :
  world (snd (sync_step env c s)) = world s.
Proof. destruct c; reflexivity. Qed.

Lemma call_step_issued (c : call) (s : State W) :
  issued (snd (call_step env c s)) =
  (issued s ++ [(c, resolved (fst (call_step env c s)))])%list.
Proof.
  unfold call_step. destruct (respond env c (world s)) as [o w]. reflexivity.
Qed.

(** The calls recorded by a run extend those recorded before it, and
    each recorded result is one the environment can give. *)
Lemma run_issued {A} (p : prog A) (s : State W) :
  exists tr, issued (snd (run env p s)) = (issued s ++ tr)%list
             /\ Forall (answered env) tr.
Proof.
  revert s; induction p as [a | e | c k IH | c k IH]; intros s; cbn.
  - exists []. split; [now rewrite app_nil_r | constructor].
  - exists []. split; [now rewrite app_nil_r | constructor].
  - pose proof (sync_step_issued c s) as Hi.
    destruct (sync_step env c s) as [r s']; cbn in Hi.
    destruct (IH r s') as [tr [Htr Hall]].
    exists tr. now rewrite Htr, Hi.
  - unfold call_step.
    destruct (respond env c (world s)) as [o w] eqn:Hr.
    match goal with
    | |- context [run env (k o) ?s1] => destruct (IH o s1) as [tr [Htr Hall]]
    end.
    exists ((c, resolved o) :: tr). split.
    + rewrite Htr. cbn. now rewrite <- app_assoc.
    + constructor; [| exact Hall].
      exists (world s). cbn. now rewrite Hr.
Qed.

End RunLaws.

(** ** Properties that hold on every path of a program *)

Lemma always_run {A} (Q : outcome A -> Prop) (p : prog A) :
  always Q p ->
  forall W (env : Environment W) (s : State W), Q (fst (run env p s)).
Proof.
  intros H W env. induction p as [a | e | c k IH | c k IH]; intros s; cbn in *.
  - exact H.
  - exact H.
  - destruct (sync_step env c s) as [r s']. apply IH, H.
  - destruct (call_step env c s) as [o s']. apply IH, H.
Qed.

Lemma always_weaken {A} (Q Q' : outcome A -> Prop) (p : prog A) :
  (forall o, Q o -> Q' o) -> always Q p -> always Q' p.
Proof.
  intros HQ. induction p as [a | e | c k IH | c k IH]; cbn; intros H.
  - now apply HQ.
  - now apply HQ.
  - intros r. apply IH, H.
  - intros o. apply IH, H.
Qed.

Lemma always_bind {A B} (Q : outcome B -> Prop) (p : prog A) (f : A -> prog B) :
  always (fun o => match o with
                   | Resolved a => always Q (f a)
                   | Rejected e => Q (Rejected e)
                   end) p ->
  always Q (bind p f).
Proof.
  induction p as [a | e | c k IH | c k IH]; cbn; intros H.
  - exact H.
  - exact H.
  - intros r. apply IH, H.
  - intros o. apply IH, H.
Qed.

Lemma always_try_catch {A} (Q : outcome A -> Prop) (p : prog A)
      (h : thrown -> prog A) :
  always (fun o => match o with
                   | Resolved a => Q (Resolved a)
                   | Rejected e => always Q (h e)
                   end) p ->
  always Q (try_catch p h).
Proof.
  induction p as [a | e | c k IH | c k IH]; cbn; intros H.
  - exact H.
  - exact H.
  - intros r. apply IH, H.
  - intros o. apply IH, H.
Qed.

(** Every program ends in some outcome. *)
Lemma always_trivial {A} (p : prog A) : always (fun _ => True) p.
Proof.
  induction p as [a | e | c k IH | c k IH]; cbn; auto.
Qed.

(* ===================================================================== *)
(** ** The dispatch boundary *)
(* ===================================================================== *)

Lemma run_log {W} (env : Environment W) {A} (l : level) (msg : string)
      (p : prog A) (s : State W) :
  run env (bind (perform (Log l msg)) (fun _ => p)) s = run env p (after_log s l msg).
Proof. reflexivity. Qed.

(** What [validateAndExecute] does, by the outcome of [parse] and of the
    handler. *)
Lemma run_validateAndExecute {W} (env : Environment W) (t : Tool)
      (params : json) (s : State W) :
  run env (validateAndExecute t params) s =
  match schema_parse t params with
  | inr z =>
      (Resolved (fail (reported (ZodError z))),
       after_log s error_level ("Validation error in " ++ getName t))
  | inl v =>
      match run env (execute t v)
                (after_log s info ("Executing tool: " ++ getName t)) with
      | (Resolved r, s1) =>
          (Resolved r, after_log s1 info ("Tool " ++ getName t ++ " completed"))
      | (Rejected e, s1) =>
          (Resolved (fail (reported e)),
           after_log s1 error_level
             (match e with
              | ZodError _ => "Validation error in " ++ getName t
              | _ => "Error executing " ++ getName t
              end))
      end
  end.
Proof.
  unfold validateAndExecute, parse.
  rewrite run_try_catch, run_bind.
  destruct (schema_parse t params) as [v | z]; cbn [run].
  - rewrite run_log, run_bind.
    destruct (run env (execute t v) _) as [[r | e] s1].
    + reflexivity.
    + destruct e; reflexivity.
  - reflexivity.
Qed.

(** C1. For every tool, every raw argument value, every environment and
    every state, [validateAndExecute] returns a result and does not
    raise.  When the schema rejects the arguments the result is the
    failure carrying the issues' messages joined by ", " (after the
    prefix "Invalid parameters: "), only the validation error is logged,
    and the handler plays no part: any other handler gives the same run.
    When the handler (or anything below it) throws, the result is the
    failure carrying the message of what was thrown. *)
Theorem validateAndExecute_never_raises :
  forall (t : Tool) (params : json) W (env : Environment W) (s : State W),
  exists r s',
    run env (validateAndExecute t params) s = (Resolved r, s')
    /\ (forall z, schema_parse t params = inr z ->
          r = fail ("Invalid parameters: "
                    ++ Js.join ", " (map message (errors z)))
          /\ s' = after_log s error_level ("Validation error in " ++ getName t)
          /\ forall h : Params t -> prog ToolResult,
               run env (validateAndExecute (with_execute t h) params) s
               = (Resolved r, s'))
    /\ (forall v e s1, schema_parse t params = inl v ->
          run env (execute t v)
              (after_log s info ("Executing tool: " ++ getName t))
          = (Rejected e, s1) ->
          success r = false /\ data r = None /\ error r = Some (reported e)).
Proof.
  intros t params W env s.
  pose proof (run_validateAndExecute env t params s) as Hrun.
  destruct (schema_parse t params) as [v | z] eqn:Hparse.
  - destruct (run env (execute t v) _) as [[r | e] s1] eqn:Hexec.
    + exists r. eexists. split; [exact Hrun |]. split.
      * intros z Hz. discriminate Hz.
      * intros v' e s1' Hv Hrej. injection Hv as <-.
        rewrite Hexec in Hrej. discriminate Hrej.
    + exists (fail (reported e)). eexists. split; [exact Hrun |]. split.
      * intros z Hz. discriminate Hz.
      * intros v' e' s1' Hv Hrej. injection Hv as <-.
        rewrite Hexec in Hrej. injection Hrej as <- _.
        repeat split; reflexivity.
  - exists (fail (reported (ZodError z))). eexists. split; [exact Hrun |]. split.
    + intros z' Hz. injection Hz as <-.
      split; [reflexivity |]. split; [reflexivity |].
      intros h. rewrite run_validateAndExecute. cbn [schema_parse with_execute].
      rewrite Hparse. reflexivity.
    + intros v e s1 Hv. discriminate Hv.
Qed.

(* ===================================================================== *)
(** ** The result contract *)
(* ===================================================================== *)

Lemma contract_succeed (d : json) : contract (succeed d).
Proof. split; [discriminate | reflexivity]. Qed.

Lemma contract_fail (msg : string) : msg <> EmptyString -> contract (fail msg).
Proof. intros H. split; [exists msg; split; [reflexivity | exact H] | reflexivity]. Qed.

Lemma contract_contractb (r : ToolResult) : contractb r = true -> contract r.
Proof.
  destruct r as [[|] [d|] [e|] m]; cbn; try discriminate; intros H.
  - split; [discriminate | reflexivity].
  - split; [| reflexivity]. exists e. split; [reflexivity |].
    destruct e; [discriminate H | discriminate].
Qed.

Lemma reported_nonempty_ZodError (z : ZodErrorObj) :
  reported (ZodError z) <> EmptyString.
Proof. discriminate. Qed.

Lemma ensureLoggedIn_throws_nonempty :
  always (fun o : outcome bool =>
            match o with
            | Resolved b => b = true
            | Rejected e =>
                e = JsError "Browser not initialized"
                \/ e = JsError "Failed to login to OnlineEDA. Please check credentials."
            end) ensureLoggedIn.
Proof. walk; auto. Qed.

Lemma navigate_safe (p : NavigateTool.NavigateParams) :
  always safe (NavigateTool.execute p).
Proof. unfold NavigateTool.execute. walk; contract_tac. Qed.

Lemma project_safe (p : ProjectTool.ProjectParams) :
  always safe (ProjectTool.execute p).
Proof. unfold ProjectTool.execute. walk; contract_tac. Qed.

Lemma upload_safe (resolve : string -> string) (p : UploadFileTool.UploadFileParams) :
  always safe (UploadFileTool.execute resolve p).
Proof. unfold UploadFileTool.execute. walk; contract_tac. Qed.

Lemma run_verification_safe (p : RunVerificationTool.RunVerificationParams) :
  always safe (RunVerificationTool.execute p).
Proof.
  unfold RunVerificationTool.execute, RunVerificationTool.type_number.
  walk; contract_tac.
Qed.

Lemma natural_language_safe (p : NaturalLanguageTool.NaturalLanguageParams) :
  always safe (NaturalLanguageTool.execute p).
Proof.
  unfold NaturalLanguageTool.execute.
  destruct (NaturalLanguageTool.findBestExample _); [apply contract_succeed |].
  repeat match goal with
         | |- context [if ?b then _ else _] => destruct b
         end; apply contract_succeed.
Qed.

(** A tool whose handler stays within [safe] gives results within the
    contract through [validateAndExecute]. *)
Lemma dispatch_contract (t : Tool) :
  (forall v, always safe (execute t v)) ->
  forall (params : json) W (env : Environment W) (s : State W) r s',
    run env (validateAndExecute t params) s = (Resolved r, s') -> contract r.
Proof.
  intros Hsafe params W env s r s' Hrun.
  rewrite run_validateAndExecute in Hrun.
  destruct (schema_parse t params) as [v | z].
  - pose proof (always_run safe (execute t v) (Hsafe v) _ env
                  (after_log s info ("Executing tool: " ++ getName t))) as Hs.
    destruct (run env (execute t v) _) as [[r0 | e] s1]; cbn in Hs;
      injection Hrun as <- _.
    + exact Hs.
    + apply contract_fail, Hs.
  - injection Hrun as <- _. apply contract_fail, reported_nonempty_ZodError.
Qed.

(** C2. Every result that [validateAndExecute] gives for a registered
    tool is within the contract: on success the data is present and the
    error absent, on failure the error is a non-empty message and the
    data absent. *)
Theorem results_within_contract :
  forall (x : Externals) (t : Tool),
    In t (toolInstances x) ->
    forall (params : json) W (env : Environment W) (s : State W) r s',
      run env (validateAndExecute t params) s = (Resolved r, s') ->
      contract r.
Proof.
  intros x t Hin.
  cbn in Hin.
  destruct Hin as [<- | [<- | [<- | [<- | [<- | []]]]]];
    apply dispatch_contract; intros v.
  - apply navigate_safe.
  - apply project_safe.
  - apply upload_safe.
  - apply run_verification_safe.
  - apply natural_language_safe.
Qed.

Lemma results_within_contract_witness :
  contract (fail "Failed to login to OnlineEDA. Please check credentials.").
Proof.
  pose (s0 := Script.ready Script.with_credentials
                [Script.ok; Script.fails "TimeoutError: waiting failed"]).
  pose (p0 := validateAndExecute (ProjectTool.instance Script.parse_project)
                (JObj [("action", JStr "list")])).
  apply (results_within_contract Script.externals
           (ProjectTool.instance Script.parse_project)
           (or_intror (or_introl eq_refl))
           (JObj [("action", JStr "list")]) _ Script.env s0
           _ (snd (run Script.env p0 s0))).
  reflexivity.
Defined.

(* ===================================================================== *)
(** ** Failures of authentication *)
(* ===================================================================== *)

(** Each domain operation starts with [await this.ensureLoggedIn()],
    outside its [try] block. *)
Lemma domain_operation_starts_with_ensureLoggedIn (x : Externals) (t : Tool) :
  In t (domainOperations x) ->
  forall v, exists rest, execute t v = bind ensureLoggedIn rest.
Proof.
  intros Hin v. cbn in Hin.
  destruct Hin as [<- | [<- | [<- | [<- | []]]]]; eexists; reflexivity.
Qed.

(** C3, as the claim states it, fails: with no page, [ensureLoggedIn]
    throws (from [login]) and the exception leaves [ProjectTool.execute]
    unhandled; [execute] returns no result of its own. *)
Lemma authentication_failure_escapes_execute :
  let s0 := Script.uninitialized [] in
  let p := {| ProjectTool.action := ProjectTool.list_;
              ProjectTool.projectName := None;
              ProjectTool.projectType := None;
              ProjectTool.projectId := None |} in
  fst (run Script.env ensureLoggedIn s0) = Rejected (JsError "Browser not initialized")
  /\ fst (run Script.env (ProjectTool.execute p) s0)
     = Rejected (JsError "Browser not initialized")
  /\ ~ (exists r, fst (run Script.env (ProjectTool.execute p) s0) = Resolved r).
Proof.
  cbv zeta. split; [reflexivity |]. split; [reflexivity |].
  intros [r Hr]. discriminate Hr.
Qed.

(** C3, amended.  For every domain operation (navigate, project, upload,
    run verification): an exception raised by [ensureLoggedIn] leaves
    [execute] as it is, without a result of the operation; it is
    [validateAndExecute] that catches it and returns the failure carrying
    its message. *)
Theorem authentication_failure_caught_by_dispatch :
  forall (x : Externals) (t : Tool),
    In t (domainOperations x) ->
    forall W (env : Environment W),
      (forall (s : State W) (v : Params t) (e : thrown) (s' : State W),
          run env ensureLoggedIn s = (Rejected e, s') ->
          run env (execute t v) s = (Rejected e, s'))
      /\ (forall (s : State W) (params : json) (v : Params t) (e : thrown)
                 (s' : State W),
             schema_parse t params = inl v ->
             run env ensureLoggedIn
                 (after_log s info ("Executing tool: " ++ getName t))
             = (Rejected e, s') ->
             run env (validateAndExecute t params) s
             = (Resolved (fail (message_or e "Unknown error occurred")),
                after_log s' error_level ("Error executing " ++ getName t))).
Proof.
  intros x t Hin W env.
  assert (Hexec : forall (s : State W) (v : Params t) e s',
             run env ensureLoggedIn s = (Rejected e, s') ->
             run env (execute t v) s = (Rejected e, s')).
  { intros s v e s' Hauth.
    destruct (domain_operation_starts_with_ensureLoggedIn x t Hin v) as [rest Hrest].
    rewrite Hrest, run_bind, Hauth. reflexivity. }
  split; [exact Hexec |].
  intros s params v e s' Hparse Hauth.
  rewrite run_validateAndExecute, Hparse, (Hexec _ v e s' Hauth).
  pose proof (always_run _ _ ensureLoggedIn_throws_nonempty _ env
                (after_log s info ("Executing tool: " ++ getName t))) as He.
  rewrite Hauth in He. cbn in He.
  destruct He as [-> | ->]; reflexivity.
Qed.

Lemma authentication_failure_caught_by_dispatch_witness :
  run Script.env
      (validateAndExecute (ProjectTool.instance Script.parse_project)
                          (JObj [("action", JStr "list")]))
      (Script.uninitialized [])
  = (Resolved (fail "Browser not initialized"),
     after_log
       (after_log
          (after_log (Script.uninitialized []) info
                     "Executing tool: arcas_onlineeda_project")
          info "Not logged in, attempting to login...")
       error_level "Error executing arcas_onlineeda_project").
Proof.
  refine (proj2 (authentication_failure_caught_by_dispatch
                   Script.externals (ProjectTool.instance Script.parse_project)
                   (or_intror (or_introl eq_refl)) _ Script.env)
                (Script.uninitialized [])
                (JObj [("action", JStr "list")])
                _ (JsError "Browser not initialized") _ _ _).
  - reflexivity.
  - reflexivity.
Defined.

(* ===================================================================== *)
(** ** Intent resolution, stage A *)
(* ===================================================================== *)

Lemma Qgt_bool_true (a b : Q) :
  NaturalLanguageTool.Qgt_bool a b = true <-> b < a.
Proof.
  unfold NaturalLanguageTool.Qgt_bool. rewrite negb_true_iff.
  split; intros H.
  - apply Qnot_le_lt. intros Hle. apply Qle_bool_iff in Hle. congruence.
  - destruct (Qle_bool a b) eqn:E; [| reflexivity].
    apply Qle_bool_iff in E. lra.
Qed.

Lemma Qgt_bool_false (a b : Q) :
  NaturalLanguageTool.Qgt_bool a b = false <-> a <= b.
Proof.
  unfold NaturalLanguageTool.Qgt_bool. rewrite negb_false_iff.
  apply Qle_bool_iff.
Qed.

Lemma scan_invariant (query : string) (l : list NaturalLanguageTool.Example) :
  scanned query l
    (fold_left (NaturalLanguageTool.consider (Js.split " " query)) l (None, 0)).
Proof.
  induction l as [| x l IH] using rev_ind.
  - cbn. split; [reflexivity | intros x []].
  - rewrite fold_left_app. cbn [fold_left].
    destruct (fold_left _ l (None, 0)) as [[e |] bs]; unfold scanned in *;
      cbn [fst snd] in IH; unfold NaturalLanguageTool.consider; cbn [snd];
      fold (score_of query x);
      destruct (NaturalLanguageTool.Qgt_bool (score_of query x) bs
                && NaturalLanguageTool.Qgt_bool (score_of query x) (1 # 2))
        eqn:E; cbn [fst snd].
    + (* a better example replaces the best one *)
      apply andb_true_iff in E. destruct E as [E1 E2].
      apply Qgt_bool_true in E1, E2.
      destruct IH as [-> [Hhalf [pre [post [-> [Hpre Hpost]]]]]].
      split; [reflexivity |]. split; [exact E2 |].
      exists (pre ++ e :: post)%list, []. split; [reflexivity |]. split.
      * intros y Hy. apply in_app_or in Hy. destruct Hy as [Hy | [<- | Hy]].
        -- specialize (Hpre y Hy). lra.
        -- exact E1.
        -- specialize (Hpost y Hy). lra.
      * intros y [].
    + (* the best example stays *)
      destruct IH as [-> [Hhalf [pre [post [-> [Hpre Hpost]]]]]].
      split; [reflexivity |]. split; [exact Hhalf |].
      exists pre, (post ++ [x])%list. split.
      * rewrite <- app_assoc. reflexivity.
      * split; [exact Hpre |].
        intros y Hy. apply in_app_or in Hy. destruct Hy as [Hy | [<- | []]].
        -- apply Hpost, Hy.
        -- apply andb_false_iff in E. destruct E as [E | E];
             apply Qgt_bool_false in E; lra.
    + (* the first acceptable example *)
      apply andb_true_iff in E. destruct E as [_ E2].
      apply Qgt_bool_true in E2.
      destruct IH as [-> Hall].
      split; [reflexivity |]. split; [exact E2 |].
      exists l, []. split; [reflexivity |]. split.
      * intros y Hy. specialize (Hall y Hy). lra.
      * intros y [].
    + (* still no acceptable example *)
      destruct IH as [-> Hall].
      split; [reflexivity |].
      intros y Hy. apply in_app_or in Hy. destruct Hy as [Hy | [<- | []]].
      * apply Hall, Hy.
      * apply andb_false_iff in E. destruct E as [E | E];
          apply Qgt_bool_false in E; lra.
Qed.

(** C4, as the claim states it, fails: the words of the query are an
    array, not a set.  A query that repeats one word of "Go to the
    documentation" four times scores 4/4 on the code and is answered by
    that example, while its token set scores 1/4 and matches nothing. *)
Lemma repeated_words_are_counted :
  let q := "the the the the" in
  NaturalLanguageTool.findBestExample (Js.toLowerCase q)
  = nth_error NaturalLanguageTool.examples 11
  /\ option_map NaturalLanguageTool.Example.query
       (NaturalLanguageTool.findBestExample (Js.toLowerCase q))
     = Some "Go to the documentation"
  /\ Spec.stageA q = None
  /\ NaturalLanguageTool.findBestExample (Js.toLowerCase q) <> Spec.stageA q.
Proof.
  cbv zeta.
  assert (H1 : NaturalLanguageTool.findBestExample (Js.toLowerCase "the the the the")
               = nth_error NaturalLanguageTool.examples 11) by (vm_compute; reflexivity).
  assert (H2 : Spec.stageA "the the the the" = None) by (vm_compute; reflexivity).
  split; [exact H1 |]. split; [rewrite H1; reflexivity |]. split; [exact H2 |].
  rewrite H1, H2. discriminate.
Qed.

(** C4, amended.  For every query, stage A splits the lowercased query
    at single spaces into an array of words and scores each corpus
    example by (number of query words, repetitions included, that are
    among the example's words) / max(number of query words, number of
    example words).  It returns the first example in corpus order that
    attains the highest score, provided that score is strictly above
    1/2, and nothing when no example scores above 1/2.  Querying the
    exact corpus string "I want to create a new formal verification
    project for my CPU design" scores 1 and returns that example's
    suggestion: tool [arcas_onlineeda_project] with action create and
    projectType formal. *)
Theorem findBestExample_first_maximum :
  (forall (corpus : list NaturalLanguageTool.Example) (query : string),
     let q := Js.toLowerCase query in
     match NaturalLanguageTool.findBestExampleIn corpus q with
     | Some e => 1 # 2 < score_of q e /\ first_maximum q corpus e
     | None => forall e, In e corpus -> score_of q e <= 1 # 2
     end)
  /\ (let query := "I want to create a new formal verification project for my CPU design" in
      forall context,
      exists e,
        nth_error NaturalLanguageTool.examples 0 = Some e
        /\ NaturalLanguageTool.Example.query e = query
        /\ score_of (Js.toLowerCase query) e == 1
        /\ NaturalLanguageTool.findBestExample (Js.toLowerCase query) = Some e
        /\ NaturalLanguageTool.execute
             {| NaturalLanguageTool.query := query;
                NaturalLanguageTool.context := context |}
           = Ret (NaturalLanguageTool.matched e)
        /\ NaturalLanguageTool.Example.tool e = "arcas_onlineeda_project"
        /\ get "action" (NaturalLanguageTool.Example.params e) = Some (JStr "create")
        /\ get "projectType" (NaturalLanguageTool.Example.params e)
           = Some (JStr "formal")).
Proof.
  split.
  - intros corpus query q.
    pose proof (scan_invariant q corpus) as H.
    unfold NaturalLanguageTool.findBestExampleIn, scanned in *.
    destruct (fst (fold_left _ corpus (None, 0))) as [e |].
    + destruct H as [_ [Hhalf Hfirst]]. split; assumption.
    + destruct H as [_ Hall]. exact Hall.
  - cbv zeta. intros context.
    eexists. split; [reflexivity |].
    split; [reflexivity |].
    split; [vm_compute; reflexivity |].
    assert (Hbest : NaturalLanguageTool.findBestExample
                      (Js.toLowerCase
                         "I want to create a new formal verification project for my CPU design")
                    = nth_error NaturalLanguageTool.examples 0)
      by (vm_compute; reflexivity).
    split; [exact Hbest |].
    split.
    + unfold NaturalLanguageTool.execute. cbv zeta. cbn [NaturalLanguageTool.query].
      rewrite Hbest. reflexivity.
    + repeat split; reflexivity.
Qed.

(* ===================================================================== *)
(** ** Intent resolution, stage B *)
(* ===================================================================== *)

Lemma prefix_toLowerCase (sub s : string) :
  String.prefix sub s = true ->
  String.prefix (Js.toLowerCase sub) (Js.toLowerCase s) = true.
Proof.
  revert sub; induction s as [| b s IH]; intros [| a sub]; cbn; try easy.
  destruct (ascii_dec a b) as [-> | Hab]; [| discriminate].
  intros H. destruct (ascii_dec (Js.lower_ascii b) (Js.lower_ascii b)) as [_ | N].
  - apply IH, H.
  - now elim N.
Qed.

Lemma includes_toLowerCase (s sub : string) :
  Js.includes s sub = true ->
  Js.includes (Js.toLowerCase s) (Js.toLowerCase sub) = true.
Proof.
  induction s as [| c s IH]; cbn [Js.includes Js.toLowerCase].
  - destruct (String.prefix sub EmptyString) eqn:E; [| discriminate].
    intros _. apply prefix_toLowerCase in E. cbn [Js.toLowerCase] in E.
    now rewrite E.
  - destruct (String.prefix sub (String c s)) eqn:E.
    + intros _. apply prefix_toLowerCase in E. cbn [Js.toLowerCase] in E.
      now rewrite E.
    + intros H. rewrite (IH H).
      match goal with
      | |- (if ?b then _ else _) = _ => destruct b; reflexivity
      end.
Qed.

(** A query in which a keyword of the first group occurs is given that
    group's key. *)
Lemma detect_first (key : string) (keywords : list string)
      (rest : list (string * list string)) (query dflt : string) :
  NaturalLanguageTool.some_in keywords query = true ->
  NaturalLanguageTool.detect ((key, keywords) :: rest) query dflt = key.
Proof. intros H. cbn. now rewrite H. Qed.

(** Stage B on a lowercased query that contains "upload" and "verilog",
    once the two categories tested before file operations are out. *)
Lemma file_upload_suggested (params : NaturalLanguageTool.NaturalLanguageParams) :
  let query := Js.toLowerCase (NaturalLanguageTool.query params) in
  Js.includes query "upload" = true ->
  Js.includes query "verilog" = true ->
  NaturalLanguageTool.findBestExample query = None ->
  NaturalLanguageTool.isProjectCreation query = false ->
  NaturalLanguageTool.isVerification query = false ->
  NaturalLanguageTool.isFileOperation query = true
  /\ NaturalLanguageTool.detect NaturalLanguageTool.fileTypes query "verilog"
     = "verilog"
  /\ NaturalLanguageTool.execute params
     = Ret (NaturalLanguageTool.suggestFileUpload query).
Proof.
  intros query Hup Hv Hbest Hproj Hver.
  assert (Hfile : NaturalLanguageTool.isFileOperation query = true).
  { unfold NaturalLanguageTool.isFileOperation, NaturalLanguageTool.some_in.
    cbn [existsb]. now rewrite Hup. }
  split; [exact Hfile |]. split.
  - apply detect_first. unfold NaturalLanguageTool.some_in.
    cbn [existsb]. now rewrite Hv.
  - unfold NaturalLanguageTool.execute. fold query.
    rewrite Hbest, Hproj, Hver, Hfile. reflexivity.
Qed.

(** C8, as the claim states it, fails: the categories are tried in
    order and project creation comes first.  "upload new verilog
    project" contains "upload" and "verilog", is not matched by stage A,
    and is answered with the project-creation suggestion. *)
Lemma upload_query_taken_for_project_creation :
  let params := {| NaturalLanguageTool.query := "upload new verilog project";
                   NaturalLanguageTool.context := None |} in
  let query := Js.toLowerCase (NaturalLanguageTool.query params) in
  Js.includes (NaturalLanguageTool.query params) "upload" = true
  /\ Js.includes (NaturalLanguageTool.query params) "verilog" = true
  /\ NaturalLanguageTool.findBestExample query = None
  /\ NaturalLanguageTool.execute params
     = Ret (NaturalLanguageTool.suggestProjectCreation query)
  /\ option_map (get "suggestedTool")
       (data (NaturalLanguageTool.suggestProjectCreation query))
     = Some (Some (JStr "arcas_onlineeda_project"))
  /\ NaturalLanguageTool.execute params
     <> Ret (NaturalLanguageTool.suggestFileUpload query).
Proof.
  cbv zeta.
  assert (Hbest : NaturalLanguageTool.findBestExample
                    (Js.toLowerCase "upload new verilog project") = None)
    by (vm_compute; reflexivity).
  assert (Hrun : NaturalLanguageTool.execute
                   {| NaturalLanguageTool.query := "upload new verilog project";
                      NaturalLanguageTool.context := None |}
                 = Ret (NaturalLanguageTool.suggestProjectCreation
                          (Js.toLowerCase "upload new verilog project"))).
  { unfold NaturalLanguageTool.execute. cbv zeta. cbn [NaturalLanguageTool.query].
    rewrite Hbest. reflexivity. }
  split; [reflexivity |]. split; [reflexivity |]. split; [exact Hbest |].
  split; [exact Hrun |]. split; [reflexivity |].
  rewrite Hrun. intros H.
  apply (f_equal (fun p => match p with
                           | Ret r => option_map (get "suggestedTool") (data r)
                           | _ => None
                           end)) in H.
  vm_compute in H. discriminate H.
Qed.

(** C8, amended.  For every query string that contains the substrings
    "upload" and "verilog", is not accepted by stage A, and whose
    lowercased text satisfies neither the project-creation predicate nor
    the verification predicate (the two categories tested before file
    operations), intent resolution classifies it as a file operation and
    returns the upload suggestion: tool [arcas_onlineeda_upload_file]
    with detected file type "verilog". *)
Theorem upload_verilog_query_suggests_upload :
  forall (params : NaturalLanguageTool.NaturalLanguageParams),
    let query := Js.toLowerCase (NaturalLanguageTool.query params) in
    Js.includes (NaturalLanguageTool.query params) "upload" = true ->
    Js.includes (NaturalLanguageTool.query params) "verilog" = true ->
    NaturalLanguageTool.findBestExample query = None ->
    NaturalLanguageTool.isProjectCreation query = false ->
    NaturalLanguageTool.isVerification query = false ->
    NaturalLanguageTool.isFileOperation query = true
    /\ exists d suggestedParams,
         NaturalLanguageTool.execute params = Ret (succeed d)
         /\ get "interpretation" d = Some (JStr "Upload design files")
         /\ get "suggestedTool" d = Some (JStr "arcas_onlineeda_upload_file")
         /\ get "suggestedParams" d = Some suggestedParams
         /\ get "fileType" suggestedParams = Some (JStr "verilog").
Proof.
  intros params query Hup Hv Hbest Hproj Hver. subst query.
  apply includes_toLowerCase in Hup, Hv.
  change (Js.toLowerCase "upload") with "upload" in Hup.
  change (Js.toLowerCase "verilog") with "verilog" in Hv.
  destruct (file_upload_suggested params Hup Hv Hbest Hproj Hver)
    as [Hfile [Hdetect Hrun]].
  split; [exact Hfile |].
  unfold NaturalLanguageTool.suggestFileUpload in Hrun.
  cbv zeta in Hrun, Hdetect. rewrite Hdetect in Hrun.
  eexists. eexists. split; [exact Hrun |].
  repeat split; reflexivity.
Qed.

Lemma upload_verilog_query_suggests_upload_witness :
  exists d,
    NaturalLanguageTool.execute
      {| NaturalLanguageTool.query := "please upload the verilog";
         NaturalLanguageTool.context := None |}
    = Ret (succeed d)
    /\ get "suggestedTool" d = Some (JStr "arcas_onlineeda_upload_file").
Proof.
  destruct (upload_verilog_query_suggests_upload
              {| NaturalLanguageTool.query := "please upload the verilog";
                 NaturalLanguageTool.context := None |})
    as [_ [d [sp [Hrun [_ [Htool _]]]]]];
    try (vm_compute; reflexivity).
  exists d. split; [exact Hrun | exact Htool].
Defined.

(* ===================================================================== *)
(** ** Extraction of verification results *)
(* ===================================================================== *)

(** Extraction itself cannot fail: once [page.evaluate] has resolved,
    [extractVerificationResults] resolves with the extracted record. *)
Lemma extraction_resolves W (env : Environment W) (s : State W) :
  match run env RunVerificationTool.extractVerificationResults s with
  | (Resolved r, _) =>
      exists document,
        fst (respond env Evaluate (world s)) = Resolved document
        /\ r = RunVerificationTool.extract document
  | (Rejected e, _) => fst (respond env Evaluate (world s)) = Rejected e
  end.
Proof.
  unfold RunVerificationTool.extractVerificationResults.
  rewrite run_bind, run_await. unfold call_step.
  destruct (respond env Evaluate (world s)) as [[d | e] w]; cbn.
  - exists d. split; reflexivity.
  - reflexivity.
Qed.

(** A statistic whose marker is missing, or whose marker has no text,
    is 0. *)
Lemma statistic_missing (document : Dom.document) (sel : Dom.selector) :
  Dom.querySelector document sel = None ->
  RunVerificationTool.statistic document sel = Js.Num 0.
Proof. intros H. unfold RunVerificationTool.statistic. now rewrite H. Qed.

Lemma statistic_empty (document : Dom.document) (sel : Dom.selector) (n : Dom.node) :
  Dom.querySelector document sel = Some n ->
  Dom.textContent n = EmptyString ->
  RunVerificationTool.statistic document sel = Js.Num 0.
Proof.
  intros H Ht. unfold RunVerificationTool.statistic. rewrite H. cbn.
  now rewrite Ht.
Qed.

(** A statistic whose marker has some text is whatever [parseInt] makes
    of that text. *)
Lemma statistic_present (document : Dom.document) (sel : Dom.selector) (n : Dom.node) :
  Dom.querySelector document sel = Some n ->
  Dom.textContent n <> EmptyString ->
  RunVerificationTool.statistic document sel = Js.parseInt (Dom.textContent n).
Proof.
  intros H Ht. unfold RunVerificationTool.statistic. rewrite H. cbn.
  destruct (Dom.textContent n); [now elim Ht | reflexivity].
Qed.

(** The lenient part of the extraction: without a pass indicator the
    verdict is false, without statistic markers the statistics are all
    0, and a violation entry without children gets the placeholders. *)
Lemma extract_defaults (document : Dom.document) :
  (Dom.querySelector document [".verification-passed"; ".status-passed"] = None ->
   RunVerificationTool.passed (RunVerificationTool.extract document) = false)
  /\ (Dom.querySelector document [".total-checks"] = None ->
      Dom.querySelector document [".checks-passed"] = None ->
      Dom.querySelector document [".checks-failed"] = None ->
      Dom.querySelector document [".warnings-count"] = None ->
      RunVerificationTool.statistics (RunVerificationTool.extract document)
      = {| RunVerificationTool.Statistics.totalChecks := Js.Num 0;
           RunVerificationTool.Statistics.passed := Js.Num 0;
           RunVerificationTool.Statistics.failed := Js.Num 0;
           RunVerificationTool.Statistics.warnings := Js.Num 0 |})
  /\ Forall (fun v =>
               RunVerificationTool.type v <> EmptyString
               /\ RunVerificationTool.severity v <> EmptyString)
            (RunVerificationTool.violations (RunVerificationTool.extract document)).
Proof.
  split; [| split].
  - intros H. cbn. now rewrite H.
  - intros H1 H2 H3 H4. cbn.
    now rewrite !statistic_missing by assumption.
  - cbn. apply Forall_forall. intros v Hv.
    apply in_map_iff in Hv. destruct Hv as [el [<- _]]. cbn.
    split.
    + unfold Js.or_default.
      destruct (RunVerificationTool.trimmed_text el _) as [[| c t] |]; discriminate.
    + unfold Js.or_default.
      destruct (RunVerificationTool.trimmed_text el _) as [[| c t] |]; discriminate.
Qed.

(** C5.  The code departs from the claim where a statistic's marker is
    present with text that is not a number: [parseInt] gives NaN, not 0.
    On a results page whose total reads "N/A" the extracted total is
    NaN; the verification run on that page succeeds and returns it. *)
Theorem non_numeric_statistic_is_NaN :
  let r := RunVerificationTool.extract Script.page_without_total in
  RunVerificationTool.Statistics.totalChecks (RunVerificationTool.statistics r)
  = Js.NaN
  /\ RunVerificationTool.Statistics.totalChecks (RunVerificationTool.statistics r)
     <> Js.Num 0
  /\ RunVerificationTool.Statistics.passed (RunVerificationTool.statistics r)
     = Js.Num 12
  /\ RunVerificationTool.passed r = false
  /\ exists d results stats,
       fst (run Script.env
              (RunVerificationTool.execute
                 {| RunVerificationTool.projectId := "p1";
                    RunVerificationTool.verificationType := formal;
                    RunVerificationTool.options := None |})
              (Script.authenticated
                 [Script.ok; Script.ok; Script.ok; Script.ok; Script.ok;
                  Script.shows Script.page_without_total]))
       = Resolved (succeed d)
       /\ get "results" d = Some results
       /\ get "statistics" results = Some stats
       /\ get "totalChecks" stats = Some (JNum Js.NaN).
Proof.
  cbv zeta. split; [reflexivity |]. split; [discriminate |].
  split; [reflexivity |]. split; [reflexivity |].
  eexists. eexists. eexists.
  split; [reflexivity |]. split; [reflexivity |]. split; reflexivity.
Qed.

(* ===================================================================== *)
(** ** Calls made along a run *)
(* ===================================================================== *)

Lemma along_run {A} (Q : list (call * bool) -> outcome A -> Prop) (p : prog A) :
  forall tr, along Q tr p ->
  forall W (env : Environment W) (s : State W) pre,
    issued s = (pre ++ tr)%list ->
    exists tr',
      issued (snd (run env p s)) = (pre ++ tr')%list
      /\ Q tr' (fst (run env p s)).
Proof.
  induction p as [a | e | c k IH | c k IH]; intros tr H W env s pre Hs; cbn in *.
  - exists tr. split; assumption.
  - exists tr. split; assumption.
  - pose proof (sync_step_issued _ env c s) as Hi.
    destruct (sync_step env c s) as [r s']. cbn in Hi.
    apply (IH r tr (H r)). now rewrite Hi.
  - unfold call_step. destruct (respond env c (world s)) as [o w].
    apply (IH o _ (H o)). cbn. rewrite Hs. now rewrite app_assoc.
Qed.

(** The calls of a run from a given state, with the outcome. *)
Lemma along_from {A} (Q : list (call * bool) -> outcome A -> Prop) (p : prog A) :
  along Q [] p ->
  forall W (env : Environment W) (s : State W) o s',
    run env p s = (o, s') ->
    exists tr, issued s' = (issued s ++ tr)%list /\ Q tr o.
Proof.
  intros H W env s o s' Hrun.
  destruct (along_run Q p [] H W env s (issued s)) as [tr [Htr HQ]].
  - now rewrite app_nil_r.
  - rewrite Hrun in Htr, HQ. exists tr. split; assumption.
Qed.

(** [ensureLoggedIn] makes the calls of [login] and no other. *)
Lemma ensureLoggedIn_calls :
  along (fun tr (_ : outcome bool) => login_calls tr) [] ensureLoggedIn.
Proof.
  walk; unfold login_calls; repeat constructor.
Qed.

Lemma guarded_sound (before : call * bool -> bool) (after : call -> bool)
      (tr : list (call * bool)) :
  forall seen,
    guarded before after seen tr = true ->
    forall pre y post,
      tr = (pre ++ y :: post)%list -> after (fst y) = true ->
      seen = true \/ exists x, In x pre /\ before x = true.
Proof.
  induction tr as [| z tr IH]; intros seen H pre y post Htr Hy.
  - destruct pre; discriminate Htr.
  - cbn in H. apply andb_true_iff in H. destruct H as [Hz Hrest].
    destruct pre as [| z' pre]; cbn in Htr; injection Htr as -> ->.
    + rewrite Hy in Hz. now left.
    + destruct (IH _ Hrest pre y post eq_refl Hy) as [Hseen | [x [Hx Hb]]].
      * apply orb_true_iff in Hseen. destruct Hseen as [Hseen | Hb].
        -- now left.
        -- right. exists z'. split; [now left | exact Hb].
      * right. exists x. split; [now right | exact Hb].
Qed.

Lemma upload_calls (resolve : string -> string)
      (params : UploadFileTool.UploadFileParams) :
  along (upload_trace (resolve (UploadFileTool.filePath params))) []
        (UploadFileTool.execute resolve params).
Proof.
  unfold UploadFileTool.execute.
  walk; upload_path.
Qed.

Lemma after_log_issued {W} (s : State W) (l : level) (msg : string) :
  issued (after_log s l msg) = issued s.
Proof. reflexivity. Qed.

(** What [validateAndExecute] adds to the calls of the handler: nothing. *)
Lemma validateAndExecute_calls {W} (env : Environment W) (t : Tool)
      (params : json) (v : Params t) (s : State W) :
  schema_parse t params = inl v ->
  let s1 := after_log s info ("Executing tool: " ++ getName t) in
  issued (snd (run env (validateAndExecute t params) s))
  = issued (snd (run env (execute t v) s1))
  /\ fst (run env (validateAndExecute t params) s)
     = Resolved (match fst (run env (execute t v) s1) with
                 | Resolved r => r
                 | Rejected e => fail (reported e)
                 end).
Proof.
  intros Hparse s1. rewrite run_validateAndExecute, Hparse. fold s1.
  destruct (run env (execute t v) s1) as [[r | e] s2]; split; reflexivity.
Qed.

(** C7.  For every upload request, the local path is resolved and
    checked with [fs.access] before any [page.goto]: every navigation
    made during the request comes after a successful check of the
    resolved path.  If the resolved path is not an existing accessible
    file (the check fails whenever it is made), the upload returns a
    failure without data and no navigation is made at all. *)
Theorem upload_checks_file_before_navigation :
  forall (resolve : string -> string)
         (schema : json -> UploadFileTool.UploadFileParams + ZodErrorObj)
         (raw : json) (params : UploadFileTool.UploadFileParams)
         W (env : Environment W) (s : State W),
    schema raw = inl params ->
    let path := resolve (UploadFileTool.filePath params) in
    exists r s' tr,
      run env (validateAndExecute (UploadFileTool.instance resolve schema) raw) s
      = (Resolved r, s')
      /\ issued s' = (issued s ++ tr)%list
      /\ precedes (FsAccess path, true) is_goto tr
      /\ ((forall w, resolved (fst (respond env (FsAccess path) w)) = false) ->
          success r = false /\ data r = None /\ no_goto tr).
Proof.
  intros resolve schema raw params W env s Hparse path.
  set (t := UploadFileTool.instance resolve schema).
  set (s1 := after_log s info ("Executing tool: " ++ getName t)).
  destruct (validateAndExecute_calls env t raw params s Hparse) as [Hcalls Hres].
  fold s1 in Hcalls, Hres.
  destruct (run env (validateAndExecute t raw) s) as [o' s'] eqn:Hdispatch.
  cbn [fst snd] in Hcalls, Hres. subst o'.
  destruct (run env (execute t params) s1) as [o s2] eqn:Hexec.
  cbn [fst snd] in Hcalls.
  destruct (along_from _ _ (upload_calls resolve params) W env s1 o s2 Hexec)
    as [tr [Htr [Hguard [Hpaths [Hfailed Hok]]]]].
  fold path in Hpaths.
  assert (Hprec : precedes (FsAccess path, true) is_goto tr).
  { intros pre y post Hsplit Hy.
    destruct (guarded_sound _ _ _ _ Hguard pre y post Hsplit Hy)
      as [Hf | [[c b] [Hin Hb]]]; [discriminate Hf |].
    unfold access_ok in Hb. cbn in Hb. apply andb_true_iff in Hb.
    destruct Hb as [Hc ->]. destruct c; try discriminate Hc.
    match type of Hin with
    | In (FsAccess ?p0, true) _ =>
        assert (Hp : p0 = path)
          by (apply (Hpaths p0 true); rewrite Hsplit; apply in_or_app; now left);
        rewrite Hp in Hin; exact Hin
    end. }
  eexists. exists s', tr. split; [reflexivity |].
  split; [rewrite Hcalls, Htr; reflexivity |].
  split; [exact Hprec |].
  intros Hmissing.
  (* no recorded check of the path can have succeeded *)
  assert (Hnever : ~ In (FsAccess path, true) tr).
  { intros Hin.
    destruct (run_issued W env (execute t params) s1) as [tr0 [Htr0 Hans]].
    rewrite Hexec in Htr0. cbn [snd] in Htr0. rewrite Htr in Htr0.
    apply app_inv_head in Htr0. subst tr0.
    rewrite Forall_forall in Hans. destruct (Hans _ Hin) as [w Hw].
    cbn in Hw. rewrite Hmissing in Hw. discriminate Hw. }
  assert (Hnogoto : no_goto tr).
  { apply Forall_forall. intros y Hy.
    destruct (is_goto (fst y)) eqn:E; [| reflexivity].
    exfalso. apply Hnever.
    destruct (in_split _ _ Hy) as [pre [post Hsplit]].
    specialize (Hprec pre y post Hsplit E).
    rewrite Hsplit. apply in_or_app. now left. }
  pose proof (always_run safe _ (upload_safe resolve params) W env s1) as Hsafe.
  change (UploadFileTool.execute resolve params) with (execute t params) in Hsafe.
  rewrite Hexec in Hsafe. cbn [fst] in Hsafe.
  destruct o as [r0 | e]; cbn [fst].
  - assert (Hs : success r0 = false).
    { destruct (success r0) eqn:E; [| reflexivity].
      exfalso. apply Hnever.
      specialize (Hok r0 eq_refl E). apply existsb_exists in Hok.
      destruct Hok as [[c b] [Hin Hb]].
      unfold access_ok in Hb. cbn in Hb. apply andb_true_iff in Hb.
      destruct Hb as [Hc ->]. destruct c; try discriminate Hc.
      match type of Hin with
      | In (FsAccess ?p0, true) _ =>
          assert (Hp : p0 = path) by (apply (Hpaths p0 true); exact Hin);
          rewrite Hp in Hin; exact Hin
      end. }
    split; [exact Hs |]. split; [| exact Hnogoto].
    unfold safe, contract in Hsafe. rewrite Hs in Hsafe. apply Hsafe.
  - split; [reflexivity |]. split; [reflexivity | exact Hnogoto].
Qed.

Lemma upload_checks_file_before_navigation_witness :
  exists r,
    fst (run Script.without_files
             (validateAndExecute
                (UploadFileTool.instance Script.resolve_in_work Script.parse_upload)
                (JObj [("projectId", JStr "p1"); ("filePath", JStr "cpu.v")]))
             (mkState (mkSession (Some TheBrowser) (Some ThePage) true None)
                      Script.with_credentials [] tt []))
    = Resolved r
    /\ success r = false.
Proof.
  destruct (upload_checks_file_before_navigation
              Script.resolve_in_work Script.parse_upload
              (JObj [("projectId", JStr "p1"); ("filePath", JStr "cpu.v")])
              {| UploadFileTool.projectId := "p1";
                 UploadFileTool.filePath := "cpu.v";
                 UploadFileTool.fileType := None |}
              _ Script.without_files
              (mkState (mkSession (Some TheBrowser) (Some ThePage) true None)
                       Script.with_credentials [] tt [])
              eq_refl)
    as [r [s' [tr [Hrun [_ [_ Hmissing]]]]]].
  exists r. split.
  - now rewrite Hrun.
  - apply Hmissing. intros w. reflexivity.
Defined.

(* ===================================================================== *)
(** ** The verification run *)
(* ===================================================================== *)

Lemma verification_calls (params : RunVerificationTool.RunVerificationParams) :
  along (verification_trace params) [] (RunVerificationTool.execute params).
Proof.
  unfold RunVerificationTool.execute, RunVerificationTool.type_number,
    verification_trace, RunVerificationTool.timeout_seconds.
  walk.
  all: verification_path.
Qed.

Lemma followed_sound (first next : call -> bool) (tr : list (call * bool)) :
  followed first next tr = true ->
  forall pre x post,
    tr = (pre ++ x :: post)%list -> first (fst x) = true ->
    exists y post', post = y :: post' /\ next (fst y) = true.
Proof.
  induction tr as [| z tr IH]; intros H pre x post Htr Hx.
  - destruct pre; discriminate Htr.
  - cbn in H. apply andb_true_iff in H. destruct H as [Hz Hrest].
    destruct pre as [| z' pre]; cbn in Htr; injection Htr as -> ->.
    + rewrite Hx in Hz. destruct post as [| y post']; [discriminate Hz |].
      exists y, post'. split; [reflexivity | exact Hz].
    + apply (IH Hrest pre x post eq_refl Hx).
Qed.

Lemma is_running_wait_inv (c : call) :
  is_running_wait c = true ->
  exists t, c = WaitForSelector RunVerificationTool.running_sel t.
Proof.
  destruct c; try discriminate. cbn. intros H.
  apply String.eqb_eq in H. subst. eexists. reflexivity.
Qed.

Lemma is_complete_wait_inv (c : call) :
  is_complete_wait c = true ->
  exists t, c = WaitForSelector RunVerificationTool.complete_sel t.
Proof.
  destruct c; try discriminate. cbn. intros H.
  apply String.eqb_eq in H. subst. eexists. reflexivity.
Qed.

(** The logical reading of [verification_trace]. *)
Lemma verification_trace_reading
      (params : RunVerificationTool.RunVerificationParams)
      (tr : list (call * bool)) (o : outcome ToolResult) :
  verification_trace params tr o ->
  directly_followed is_trigger running_wait tr
  /\ (forall t b, In (WaitForSelector RunVerificationTool.running_sel t, b) tr ->
      t = Some 5000%Z)
  /\ (In (running_wait, false) tr -> failure o)
  /\ precedes (running_wait, true) is_complete_wait tr
  /\ (forall t b, In (WaitForSelector RunVerificationTool.complete_sel t, b) tr ->
      t = Some (RunVerificationTool.timeout_seconds params * 1000)%Z)
  /\ (In (complete_wait params, false) tr -> failure o)
  /\ precedes (complete_wait params, true) is_evaluate tr
  /\ (forall r, o = Resolved r -> success r = true ->
      In (running_wait, true) tr /\ In (complete_wait params, true) tr).
Proof.
  intros [Hfol [Hrun [Hcomp [Hbounds [Hrfail [Hcfail Hok]]]]]].
  assert (Hrb : forall t b,
             In (WaitForSelector RunVerificationTool.running_sel t, b) tr ->
             t = Some 5000%Z).
  { intros t b Hin. now apply (Hbounds _ _ _ Hin). }
  assert (Hcb : forall t b,
             In (WaitForSelector RunVerificationTool.complete_sel t, b) tr ->
             t = Some (RunVerificationTool.timeout_seconds params * 1000)%Z).
  { intros t b Hin. now apply (Hbounds _ _ _ Hin). }
  assert (Hrin : forall x, In x tr -> ok_of is_running_wait x = true ->
                           x = (running_wait, true)).
  { intros [c b] Hin Hx. unfold ok_of in Hx. cbn in Hx.
    apply andb_true_iff in Hx. destruct Hx as [Hc ->].
    destruct (is_running_wait_inv c Hc) as [t ->].
    now rewrite (Hrb t true Hin). }
  assert (Hcin : forall x, In x tr -> ok_of is_complete_wait x = true ->
                           x = (complete_wait params, true)).
  { intros [c b] Hin Hx. unfold ok_of in Hx. cbn in Hx.
    apply andb_true_iff in Hx. destruct Hx as [Hc ->].
    destruct (is_complete_wait_inv c Hc) as [t ->].
    now rewrite (Hcb t true Hin). }
  split; [| split; [exact Hrb | split; [| split; [| split; [exact Hcb | split; [| split]]]]]].
  - intros pre x post Hsplit Hx.
    destruct (followed_sound _ _ _ Hfol pre x post Hsplit Hx)
      as [[c b] [post' [-> Hy]]].
    exists b, post'. f_equal. f_equal.
    destruct c as [| | | | sel [t |] | | | | | |]; try discriminate Hy.
    cbn in Hy. apply andb_true_iff in Hy. destruct Hy as [Hs Ht].
    apply String.eqb_eq in Hs. apply Z.eqb_eq in Ht. now subst.
  - intros Hin. apply Hrfail. apply existsb_exists.
    exists (running_wait, false). split; [exact Hin | reflexivity].
  - intros pre y post Hsplit Hy.
    destruct (guarded_sound _ _ _ _ Hrun pre y post Hsplit Hy)
      as [Hf | [x [Hin Hx]]]; [discriminate Hf |].
    rewrite <- (Hrin x); [exact Hin | | exact Hx].
    rewrite Hsplit. apply in_or_app. now left.
  - intros Hin. apply Hcfail. apply existsb_exists.
    exists (complete_wait params, false). split; [exact Hin | reflexivity].
  - intros pre y post Hsplit Hy.
    destruct (guarded_sound _ _ _ _ Hcomp pre y post Hsplit Hy)
      as [Hf | [x [Hin Hx]]]; [discriminate Hf |].
    rewrite <- (Hcin x); [exact Hin | | exact Hx].
    rewrite Hsplit. apply in_or_app. now left.
  - intros r Hr Hs. destruct (Hok r Hr Hs) as [H1 H2].
    apply existsb_exists in H1, H2.
    destruct H1 as [x1 [Hin1 Hx1]]. destruct H2 as [x2 [Hin2 Hx2]].
    rewrite <- (Hrin x1 Hin1 Hx1), <- (Hcin x2 Hin2 Hx2). split; assumption.
Qed.

Lemma timeout_seconds_cases (params : RunVerificationTool.RunVerificationParams) :
  (options_timeout params = None ->
   RunVerificationTool.timeout_seconds params = 300%Z)
  /\ (options_timeout params = Some 0%Z ->
      RunVerificationTool.timeout_seconds params = 300%Z)
  /\ (forall t, options_timeout params = Some t -> t <> 0%Z ->
      RunVerificationTool.timeout_seconds params = t).
Proof.
  unfold options_timeout, RunVerificationTool.timeout_seconds.
  destruct (RunVerificationTool.options params) as [o |].
  - destruct (RunVerificationTool.timeout o) as [t |].
    + repeat split.
      * discriminate.
      * intros H. injection H as ->. reflexivity.
      * intros t' H Hnz. injection H as ->.
        destruct (Z.eqb_spec t' 0); [contradiction | reflexivity].
    + repeat split; try reflexivity; discriminate.
  - repeat split; try reflexivity; discriminate.
Qed.

(** C6, as the claim states it, fails when [options.timeout] is 0: the
    value is present, yet the wait for the complete indicator is bounded
    by 300 seconds, not by 0. *)
Lemma zero_timeout_waits_300_seconds :
  let params :=
    {| RunVerificationTool.projectId := "p1";
       RunVerificationTool.verificationType := formal;
       RunVerificationTool.options :=
         Some {| RunVerificationTool.timeout := Some 0%Z;
                 RunVerificationTool.depth := None;
                 RunVerificationTool.properties := None |} |} in
  let tr := issued (snd (run Script.env (RunVerificationTool.execute params)
                             (Script.authenticated []))) in
  options_timeout params = Some 0%Z
  /\ In (WaitForSelector RunVerificationTool.complete_sel (Some 300000%Z), true) tr
  /\ ~ In (WaitForSelector RunVerificationTool.complete_sel (Some (0 * 1000)%Z), true) tr.
Proof.
  cbv zeta. split; [reflexivity |]. split.
  - cbn. tauto.
  - cbn. intros H.
    repeat (destruct H as [H | H]; [discriminate H |]). exact H.
Qed.

(** C6, amended.  For every run of the verification orchestrator: the
    click that triggers the run is directly followed by the wait for the
    running indicator, bounded by 5000 ms; if that wait fails the whole
    operation returns a failure without data.  The wait for the complete
    indicator is made only after the running indicator was seen, and is
    bounded by [options.timeout] seconds when that is present and not 0,
    and by 300 seconds when it is absent or 0; if that wait fails the
    operation likewise returns a failure without data.  The results are
    read from the page only after the complete indicator was seen, and a
    success is returned only when both waits succeeded. *)
Theorem verification_waits_are_bounded :
  forall (params : RunVerificationTool.RunVerificationParams)
         W (env : Environment W) (s : State W),
    let res := run env (RunVerificationTool.execute params) s in
    exists tr,
      issued (snd res) = (issued s ++ tr)%list
      /\ directly_followed is_trigger running_wait tr
      /\ (forall t b, In (WaitForSelector RunVerificationTool.running_sel t, b) tr ->
          t = Some 5000%Z)
      /\ (In (running_wait, false) tr -> failure (fst res))
      /\ precedes (running_wait, true) is_complete_wait tr
      /\ (forall t b, In (WaitForSelector RunVerificationTool.complete_sel t, b) tr ->
          t = Some (RunVerificationTool.timeout_seconds params * 1000)%Z)
      /\ (In (complete_wait params, false) tr -> failure (fst res))
      /\ precedes (complete_wait params, true) is_evaluate tr
      /\ (forall r, fst res = Resolved r -> success r = true ->
          In (running_wait, true) tr /\ In (complete_wait params, true) tr)
      /\ (options_timeout params = None ->
          RunVerificationTool.timeout_seconds params = 300%Z)
      /\ (options_timeout params = Some 0%Z ->
          RunVerificationTool.timeout_seconds params = 300%Z)
      /\ (forall t, options_timeout params = Some t -> t <> 0%Z ->
          RunVerificationTool.timeout_seconds params = t).
Proof.
  intros params W env s res.
  destruct (along_run _ _ [] (verification_calls params) W env s (issued s))
    as [tr [Htr Htrace]].
  { now rewrite app_nil_r. }
  fold res in Htr, Htrace.
  exists tr. split; [exact Htr |].
  destruct (verification_trace_reading _ _ _ Htrace)
    as (H1 & H2 & H3 & H4 & H5 & H6 & H7 & H8).
  destruct (timeout_seconds_cases params) as (T1 & T2 & T3).
  repeat (split; [assumption |]). assumption.
Qed.

Lemma verification_waits_are_bounded_witness :
  let params :=
    {| RunVerificationTool.projectId := "p1";
       RunVerificationTool.verificationType := formal;
       RunVerificationTool.options :=
         Some {| RunVerificationTool.timeout := Some 1%Z;
                 RunVerificationTool.depth := None;
                 RunVerificationTool.properties := None |} |} in
  let s := Script.authenticated
             [Script.ok; Script.ok; Script.ok; Script.ok; Script.ok;
              Script.fails "TimeoutError: Waiting for selector failed: 1000ms exceeded"] in
  failure (fst (run Script.env (RunVerificationTool.execute params) s)).
Proof.
  intros params s.
  destruct (verification_waits_are_bounded params _ Script.env s)
    as (tr & Htr & _ & _ & _ & _ & _ & Hfail & _).
  apply Hfail.
  assert (E : tr = skipn 0 (issued (snd (run Script.env
                                           (RunVerificationTool.execute params) s)))).
  { rewrite Htr. reflexivity. }
  rewrite E. cbn. tauto.
Defined.

(* ===================================================================== *)
(** ** Login *)
(* ===================================================================== *)

Section LoginLaws.

Variable W : Type.
Variable env : Environment W.

Lemma run_try_catch_bind {A B} (p : prog A) (f : A -> prog B)
      (h : thrown -> prog B) (s : State W) :
  run env (try_catch (bind p f) h) s =
  match run env p s with
  | (Resolved a, s') => run env (try_catch (f a) h) s'
  | (Rejected e, s') => run env (h e) s'
  end.
Proof.
  revert s; induction p as [a | e | c k IH | c k IH]; intros s; cbn.
  - reflexivity.
  - reflexivity.
  - destruct (sync_step env c s) as [r s']. apply IH.
  - destruct (call_step env c s) as [o s']. apply IH.
Qed.

Lemma run_checkLoginStatus (s : State W) :
  page (session s) = Some ThePage ->
  run env BrowserManager.checkLoginStatus s =
  (Resolved (shows_dashboard
               (fst (call_step env (Query BrowserManager.dashboard_sel) s))),
   snd (call_step env (Query BrowserManager.dashboard_sel) s)).
Proof.
  intros Hpage. unfold BrowserManager.checkLoginStatus. cbn.
  rewrite Hpage. cbn. unfold call_step.
  destruct (respond env (Query BrowserManager.dashboard_sel) (world s))
    as [[[h |] | e] w]; reflexivity.
Qed.

Lemma run_or_env {A} (x : option string) (name : string) (k : option string -> prog A)
      (h : thrown -> prog A) (s : State W) :
  run env (try_catch (bind (BrowserManager.or_env x name) k) h) s =
  run env (try_catch (k (Js.or_else x (environ s name))) h) s.
Proof.
  rewrite run_try_catch_bind. unfold BrowserManager.or_env, Js.or_else.
  destruct x as [x |]; [destruct (Js.truthy x) |]; reflexivity.
Qed.

(** [login] on an initialised page, by the answer to the first status
    query and the credentials at hand. *)
Lemma run_login (username password : option string) (s : State W) :
  page (session s) = Some ThePage ->
  let o := fst (call_step env (Query BrowserManager.dashboard_sel) s) in
  let s1 := snd (call_step env (Query BrowserManager.dashboard_sel) s) in
  run env (BrowserManager.login username password) s =
  if shows_dashboard o then (Resolved true, after_set_logged_in s1 true)
  else
    match BrowserManager.truthy_value
            (Js.or_else username (environ s "ONLINEEDA_USERNAME")),
          BrowserManager.truthy_value
            (Js.or_else password (environ s "ONLINEEDA_PASSWORD")) with
    | Some user, Some pass =>
        run env (try_catch (BrowserManager.attempt_login user pass)
                           BrowserManager.login_failed) s1
    | _, _ =>
        (Resolved false,
         after_log s1 warn "No credentials provided for OnlineEDA login")
    end.
Proof.
  intros Hpage o s1. unfold BrowserManager.login.
  cbn [run perform bind sync_step]. rewrite Hpage.
  rewrite run_try_catch_bind, (run_checkLoginStatus s Hpage).
  fold o s1.
  assert (Henv : environ s1 = environ s).
  { unfold s1, call_step. now destruct (respond env _ (world s)). }
  destruct (shows_dashboard o).
  - reflexivity.
  - rewrite run_or_env, run_or_env. rewrite Henv.
    destruct (BrowserManager.truthy_value (Js.or_else username _));
      [destruct (BrowserManager.truthy_value (Js.or_else password _)) |];
      reflexivity.
Qed.

End LoginLaws.

Lemma attempt_login_calls (user pass : string) :
  along (attempt_trace user pass) []
        (try_catch (BrowserManager.attempt_login user pass)
                   BrowserManager.login_failed).
Proof.
  unfold BrowserManager.attempt_login, BrowserManager.login_failed, attempt_trace.
  walk.
  all: split; [eexists; reflexivity |].
  all: split; [let x := fresh in let b := fresh in let H := fresh in
               intros x b H; typed_cases H |].
  all: split; [let x := fresh in let b := fresh in let H := fresh in
               intros x b H; typed_cases H |].
  all: eexists; eexists; split; [reflexivity |].
  all: intros Hb; try discriminate Hb.
  all: eexists; eexists; split; [reflexivity |].
  all: intros Hb2; try discriminate Hb2.
  all: eexists; eexists; reflexivity.
Qed.

Lemma call_step_fst {W} (env : Environment W) (c : call) (s : State W) :
  fst (call_step env c s) = fst (respond env c (world s)).
Proof. unfold call_step. now destruct (respond env c (world s)). Qed.

Lemma call_step_session {W} (env : Environment W) (c : call) (s : State W) :
  session (snd (call_step env c s)) = session s.
Proof. unfold call_step. now destruct (respond env c (world s)). Qed.

(** C9, as the claim states it, fails in two ways.  When the page
    already shows a logged-in marker, [login] succeeds although no
    source supplies any credential; and when no page was opened,
    [login] raises. *)
Lemma login_without_credentials_can_succeed_or_raise :
  fst (run Script.env (BrowserManager.login None None)
           (Script.ready Script.no_env [Script.found 7%nat]))
  = Resolved true
  /\ Script.no_env "ONLINEEDA_USERNAME" = None
  /\ Script.no_env "ONLINEEDA_PASSWORD" = None
  /\ fst (run Script.env (BrowserManager.login None None)
              (Script.uninitialized []))
     = Rejected (JsError "Browser not initialized").
Proof. repeat split; reflexivity. Qed.

(** C9, amended.  For every login attempt on an initialised page that
    does not already show a logged-in marker: a call-supplied username
    or password that is not empty is the one used, whatever the
    environment provides, and the environment's value is used when the
    call argument is absent or empty; the texts typed into the login
    form are these.  When the username or the password is available
    from neither source, [login] returns false after the status query
    alone, without any call on the login form and without raising.
    (When the page already shows a logged-in marker [login] returns
    true without looking at credentials, and without a page it raises
    "Browser not initialized".) *)
Theorem login_credentials :
  forall W (env : Environment W) (s : State W) (username password : option string),
    page (session s) = Some ThePage ->
    (forall h, fst (respond env (Query BrowserManager.dashboard_sel) (world s))
               <> Resolved (Some h)) ->
    let user := Js.or_else username (environ s "ONLINEEDA_USERNAME") in
    let pass := Js.or_else password (environ s "ONLINEEDA_PASSWORD") in
    let res := run env (BrowserManager.login username password) s in
    (forall u, username = Some u -> u <> EmptyString -> user = Some u)
    /\ (forall p, password = Some p -> p <> EmptyString -> pass = Some p)
    /\ (username = None \/ username = Some EmptyString ->
        user = environ s "ONLINEEDA_USERNAME")
    /\ (password = None \/ password = Some EmptyString ->
        pass = environ s "ONLINEEDA_PASSWORD")
    /\ exists r b tr,
         fst res = Resolved r
         /\ issued (snd res)
            = (issued s ++ (Query BrowserManager.dashboard_sel, b) :: tr)%list
         /\ (forall x b', In (TypeText BrowserManager.login_user_sel x, b') tr ->
             BrowserManager.truthy_value user = Some x)
         /\ (forall x b', In (TypeText BrowserManager.login_pass_sel x, b') tr ->
             BrowserManager.truthy_value pass = Some x)
         /\ (forall u p,
               BrowserManager.truthy_value user = Some u ->
               BrowserManager.truthy_value pass = Some p ->
               attempt_trace u p tr (fst res))
         /\ (BrowserManager.truthy_value user = None
             \/ BrowserManager.truthy_value pass = None ->
             r = false /\ tr = [] /\ session (snd res) = session s).
Proof.
  intros W env s username password Hpage Hshown user pass res.
  split; [| split; [| split; [| split]]].
  - intros u -> Hu. unfold user. cbn. destruct u; [now elim Hu | reflexivity].
  - intros p -> Hp. unfold pass. cbn. destruct p; [now elim Hp | reflexivity].
  - intros [-> | ->]; reflexivity.
  - intros [-> | ->]; reflexivity.
  - unfold res. rewrite (run_login W env username password s Hpage). cbv zeta.
    fold user pass.
    set (o := fst (call_step env (Query BrowserManager.dashboard_sel) s)).
    set (s1 := snd (call_step env (Query BrowserManager.dashboard_sel) s)).
    assert (Ho : shows_dashboard o = false).
    { unfold o. rewrite call_step_fst.
      destruct (fst (respond env _ (world s))) as [[h |] | e] eqn:E;
        try reflexivity.
      now elim (Hshown h). }
    assert (Hi : issued s1
                 = (issued s ++ [(Query BrowserManager.dashboard_sel, resolved o)])%list).
    { apply (call_step_issued W). }
    assert (Hsess : session s1 = session s) by apply call_step_session.
    rewrite Ho.
    destruct (BrowserManager.truthy_value user) as [u |] eqn:Hu;
      [destruct (BrowserManager.truthy_value pass) as [p |] eqn:Hp |].
    + destruct (along_run _ _ [] (attempt_login_calls u p) W env s1 (issued s1))
        as [tr [Htr Hq]].
      { now rewrite app_nil_r. }
      pose proof Hq as [[r Hr] [Huser [Hpass _]]].
      exists r, (resolved o), tr.
      split; [exact Hr |].
      split; [rewrite Htr, Hi, <- app_assoc; reflexivity |].
      split; [intros x b' Hin; now rewrite (Huser x b' Hin) |].
      split; [intros x b' Hin; now rewrite (Hpass x b' Hin) |].
      split.
      * intros u' p' Hu' Hp'. injection Hu' as <-. injection Hp' as <-. exact Hq.
      * intros [H | H]; discriminate H.
    + exists false, (resolved o), []. cbn [fst snd].
      split; [reflexivity |].
      split; [cbn; exact Hi |].
      split; [intros x b' []|].
      split; [intros x b' []|].
      split; [intros u' p' _ Hp'; discriminate Hp' |].
      intros _. repeat split. exact Hsess.
    + exists false, (resolved o), []. cbn [fst snd].
      split; [reflexivity |].
      split; [cbn; exact Hi |].
      split; [intros x b' []|].
      split; [intros x b' []|].
      split; [intros u' p' Hu' _; discriminate Hu' |].
      intros _. repeat split. exact Hsess.
Qed.

Lemma login_credentials_witness :
  Js.or_else (Some "bob") (Script.with_credentials "ONLINEEDA_USERNAME") = Some "bob"
  /\ Js.or_else None (Script.with_credentials "ONLINEEDA_PASSWORD") = Some "secret".
Proof.
  assert (Hshown : forall h : ElementHandle,
             fst (respond Script.env (Query BrowserManager.dashboard_sel)
                          (world (Script.ready Script.with_credentials [])))
             <> Resolved (Some h))
    by (intros h H; discriminate H).
  destruct (login_credentials _ Script.env
              (Script.ready Script.with_credentials [])
              (Some "bob") None eq_refl Hshown)
    as [Hu [_ [_ [Hp _]]]].
  split.
  - apply (Hu "bob" eq_refl). discriminate.
  - exact (Hp (or_introl eq_refl)).
Defined.

(* ===================================================================== *)
(** ** Concurrent callers of [ensureLoggedIn] *)
(* ===================================================================== *)

Section SchedulerLaws.

Variable W : Type.
Variable env : Environment W.

Lemma attempts_after_quiet_log (s : State W) (l : level) (msg : string) :
  attempt_entry (l, msg) = false ->
  attempts (after_log s l msg) = attempts s.
Proof.
  intros H. unfold attempts, after_log. cbn [logged].
  rewrite filter_app. cbn [filter]. rewrite H. now rewrite app_nil_r.
Qed.

(** A synchronous access that is not a write of the flag and announces
    nothing leaves the flag, the page and the attempts as they are. *)
Lemma sync_step_quiet (c : sync) (s : State W) :
  announces c = false ->
  page (session (snd (sync_step env c s))) = page (session s)
  /\ attempts (snd (sync_step env c s)) = attempts s
  /\ (sets_flag c = false ->
      isLoggedIn (session (snd (sync_step env c s))) = isLoggedIn (session s)).
Proof.
  destruct c; cbn; intros H;
    (split; [reflexivity |
     split; [first [reflexivity | now apply attempts_after_quiet_log] |
             intros Hx; first [discriminate Hx | reflexivity]]]).
Qed.

Lemma advance_finishes (p : prog bool) :
  finishes p ->
  forall s, in_flight (fst (advance env p s)) = false
            /\ calm (fst (advance env p s))
            /\ page (session (snd (advance env p s))) = page (session s)
            /\ attempts (snd (advance env p s)) = attempts s.
Proof.
  induction p as [a | e | c k IH | c k IH]; cbn; intros H s.
  - repeat split.
  - repeat split.
  - destruct H as [Hq Hk].
    destruct (sync_step_quiet c s Hq) as [Hp [Ha _]].
    destruct (sync_step env c s) as [r s']. cbn [snd] in Hp, Ha.
    destruct (IH r (Hk r) s') as [H1 [H2 [H3 H4]]].
    repeat split; try assumption; congruence.
  - contradiction.
Qed.

Lemma advance_calm (p : prog bool) :
  calm p ->
  forall s, calm (fst (advance env p s))
            /\ page (session (snd (advance env p s))) = page (session s)
            /\ (in_flight (fst (advance env p s)) = true ->
                isLoggedIn (session (snd (advance env p s))) = isLoggedIn (session s)
                /\ attempts (snd (advance env p s)) = attempts s).
Proof.
  induction p as [a | e | c k IH | c k IH]; cbn; intros H s.
  - repeat split; discriminate.
  - repeat split; discriminate.
  - destruct H as [Hq Hk].
    destruct (sync_step_quiet c s Hq) as [Hp [Ha Hf]].
    destruct (sync_step env c s) as [r s'] eqn:E. cbn [snd] in Hp, Ha, Hf.
    destruct (sets_flag c).
    + destruct (advance_finishes (k r) (Hk r) s') as [H1 [H2 [H3 H4]]].
      split; [exact H2 |]. split; [congruence |].
      intros Hin. rewrite H1 in Hin. discriminate Hin.
    + destruct (IH r (Hk r) s') as [H1 [H2 H3]].
      split; [exact H1 |]. split; [congruence |].
      intros Hin. destruct (H3 Hin) as [H4 H5].
      split; [rewrite H4; now apply Hf | congruence].
  - split; [exact H |]. split; [reflexivity |]. intros _. split; reflexivity.
Qed.

Lemma call_step_keeps (c : call) (s : State W) :
  session (snd (call_step env c s)) = session s
  /\ attempts (snd (call_step env c s)) = attempts s.
Proof.
  unfold call_step. destruct (respond env c (world s)). split; reflexivity.
Qed.

Lemma set_nth_length {A} (i : nat) (p : prog A) (l : list (prog A)) :
  length (set_nth i p l) = length l.
Proof.
  revert i; induction l as [| q l IH]; intros [| i]; cbn; try reflexivity.
  now rewrite IH.
Qed.

Lemma set_nth_Forall {A} (P : prog A -> Prop) (i : nat) (p : prog A)
      (l : list (prog A)) :
  Forall P l -> P p -> Forall P (set_nth i p l).
Proof.
  intros Hl Hp. revert i; induction Hl as [| q l Hq Hl IH]; intros [| i]; cbn;
    constructor; auto.
Qed.

Lemma set_nth_forallb {A} (f : prog A -> bool) (i : nat) (p q : prog A)
      (l : list (prog A)) :
  nth_error l i = Some q -> f q = true ->
  forallb f (set_nth i p l) = true -> forallb f l = true /\ f p = true.
Proof.
  revert i; induction l as [| x l IH]; intros [| i]; cbn; try discriminate.
  - intros Hq Hf H. injection Hq as ->.
    apply andb_true_iff in H. destruct H as [Hp Hl].
    now rewrite Hf, Hl.
  - intros Hq Hf H. apply andb_true_iff in H. destruct H as [Hx Hl].
    destruct (IH i Hq Hf Hl) as [H1 H2]. now rewrite Hx, H1.
Qed.

(** What [ensureLoggedIn] does up to its first [await]. *)
Lemma enter_ensureLoggedIn (s : State W) :
  page (session s) = Some ThePage ->
  calm (fst (advance env ensureLoggedIn s))
  /\ page (session (snd (advance env ensureLoggedIn s))) = Some ThePage
  /\ (isLoggedIn (session s) = false ->
      in_flight (fst (advance env ensureLoggedIn s)) = true
      /\ isLoggedIn (session (snd (advance env ensureLoggedIn s))) = false
      /\ attempts (snd (advance env ensureLoggedIn s)) = S (attempts s))
  /\ (isLoggedIn (session s) = true ->
      in_flight (fst (advance env ensureLoggedIn s)) = false).
Proof.
  destruct s as [[br pg li cp] en lg w tr]. cbn [session page].
  intros ->. destruct li; cbn.
  - repeat split; discriminate.
  - split.
    + intros o. destruct o as [[h |] | e]; cbn;
        repeat (intros; cbn;
                try match goal with
                    | |- calm ?p => split_on p
                    | |- finishes ?p => split_on p
                    | |- _ /\ _ => split
                    end);
        try reflexivity; try exact I.
    + repeat split; try discriminate.
      unfold attempts. cbn [logged]. rewrite filter_app. cbn.
      rewrite length_app. cbn. now rewrite Nat.add_1_r.
Qed.

Lemma enter_unserialized (a0 : nat) (pool : Pool W bool) :
  unserialized a0 pool ->
  unserialized a0 (enter env ensureLoggedIn pool).
Proof.
  intros [Hcalm [Hpage Hfl]]. unfold enter, unserialized.
  destruct (enter_ensureLoggedIn (shared pool) Hpage) as [Hc [Hp [Hoff Hon]]].
  destruct (advance env ensureLoggedIn (shared pool)) as [p' s'].
  cbn [fst snd tasks shared] in *.
  split; [apply Forall_app; split; [exact Hcalm | now constructor] |].
  split; [exact Hp |].
  unfold all_in_flight. cbn [tasks]. rewrite forallb_app. cbn [forallb].
  intros H. apply andb_true_iff in H. destruct H as [Hall Hnew].
  rewrite andb_true_r in Hnew.
  destruct (Hfl Hall) as [Hflag Hatt].
  destruct (Hoff Hflag) as [_ [Hflag' Hatt']].
  split; [exact Hflag' |].
  rewrite Hatt', Hatt, length_app. cbn. lia.
Qed.

Lemma resume_unserialized (a0 : nat) (i : nat) (pool : Pool W bool) :
  unserialized a0 pool ->
  unserialized a0 (resume env i pool).
Proof.
  intros [Hcalm [Hpage Hfl]]. unfold resume.
  destruct (nth_error (tasks pool) i) as [[a | e | c k | c k] |] eqn:Hi;
    try (split; [exact Hcalm | split; [exact Hpage | exact Hfl]]).
  assert (Hk : forall o, calm (k o)).
  { rewrite Forall_forall in Hcalm. apply (Hcalm _ (nth_error_In _ _ Hi)). }
  destruct (call_step_keeps c (shared pool)) as [Hsess Hatt].
  destruct (call_step env c (shared pool)) as [o s1]. cbn [snd] in Hsess, Hatt.
  destruct (advance_calm (k o) (Hk o) s1) as [Hc [Hp Hin]].
  destruct (advance env (k o) s1) as [p' s2]. cbn [fst snd] in Hc, Hp, Hin.
  unfold unserialized. cbn [tasks shared].
  split; [now apply set_nth_Forall |].
  split; [rewrite Hp, Hsess; exact Hpage |].
  unfold all_in_flight. cbn [tasks]. intros H.
  destruct (set_nth_forallb (@in_flight bool) i p' (Await c k) (tasks pool) Hi eq_refl H)
    as [Hall Hp'].
  destruct (Hfl Hall) as [Hflag Ha].
  destruct (Hin Hp') as [Hflag' Ha'].
  split; [rewrite Hflag', Hsess; exact Hflag |].
  rewrite Ha', Hatt, Ha, set_nth_length. reflexivity.
Qed.

Lemma schedule_unserialized (a0 : nat) (ds : list decision) :
  forall pool, unserialized a0 pool -> unserialized a0 (schedule env ds pool).
Proof.
  induction ds as [| d ds IH]; intros pool H; [exact H |].
  unfold schedule. cbn [fold_left]. apply IH.
  destruct d; [now apply enter_unserialized | now apply resume_unserialized].
Qed.

Lemma schedule_callers (ds : list decision) :
  forall pool,
    length (tasks (schedule env ds pool))
    = (length (tasks pool) + length (filter is_enter ds))%nat.
Proof.
  induction ds as [| d ds IH]; intros pool; [cbn; lia |].
  change (schedule env (d :: ds) pool)
    with (schedule env ds (apply_decision env d pool)).
  rewrite IH. destruct d; cbn [apply_decision is_enter filter length].
  - unfold enter. destruct (advance env ensureLoggedIn (shared pool)).
    cbn [tasks]. rewrite length_app. cbn. lia.
  - unfold resume.
    destruct (nth_error (tasks pool) i) as [[a | e | c k | c k] |]; try lia.
    destruct (call_step env c (shared pool)) as [o s1].
    destruct (advance env (k o) s1) as [p' s2]. cbn [tasks].
    rewrite set_nth_length. lia.
Qed.

End SchedulerLaws.

(** C10, as the claim states it, fails: nothing makes a second caller
    wait for a login in flight.  Two callers enter while the session is
    unauthenticated; both announce and start a login attempt (each sends
    its own status query); the first one logs in, the second one then
    finds no login form and reports a failure: two attempts, two
    different outcomes. *)
Lemma concurrent_callers_log_in_twice :
  let s := Script.ready Script.with_credentials
             [Script.ok; Script.ok; Script.ok; Script.ok; Script.ok; Script.ok;
              Script.ok; Script.found 1%nat;
              Script.fails "TimeoutError: Waiting for selector failed"] in
  let started := schedule Script.env [Enter; Enter] (mkPool [] s) in
  let finished :=
    schedule Script.env
             ([Resume 1] ++ repeat (Resume 0) 7 ++ [Resume 1])%list started in
  all_in_flight started = true
  /\ attempts (shared started) = 2%nat
  /\ attempts (shared finished) = 2%nat
  /\ tasks finished
     = [Ret true;
        Throw (JsError "Failed to login to OnlineEDA. Please check credentials.")]
  /\ firstn 2 (issued (shared finished))
     = [(Query BrowserManager.dashboard_sel, true);
        (Query BrowserManager.dashboard_sel, true)].
Proof. cbv zeta. repeat split; reflexivity. Qed.

(** C10, amended.  Login is not single-flight.  For every interleaving
    of callers of [ensureLoggedIn] that starts from an unauthenticated
    session with a page: as long as the callers that have entered are
    all still waiting (no attempt has finished), the session is still
    unauthenticated and every caller has started a login attempt of its
    own, so that the number of attempts started is the number of
    callers.  In particular a second caller that enters while the first
    caller's login is in flight starts a second attempt; it does not
    wait for the first, and each caller gets the outcome of its own
    attempt. *)
Theorem login_is_not_single_flight :
  forall W (env : Environment W) (s : State W) (ds : list decision),
    isLoggedIn (session s) = false ->
    page (session s) = Some ThePage ->
    let pool := schedule env ds (mkPool [] s) in
    all_in_flight pool = true ->
    length (tasks pool) = length (filter is_enter ds)
    /\ isLoggedIn (session (shared pool)) = false
    /\ attempts (shared pool) = (attempts s + length (filter is_enter ds))%nat.
Proof.
  intros W env s ds Hflag Hpage pool Hall.
  assert (Hinit : unserialized (attempts s) (mkPool (A := bool) [] s)).
  { split; [constructor |]. split; [exact Hpage |].
    intros _. split; [exact Hflag | cbn; lia]. }
  destruct (schedule_unserialized W env (attempts s) ds _ Hinit) as [_ [_ H]].
  fold pool in H. destruct (H Hall) as [Hf Ha].
  pose proof (schedule_callers W env ds (mkPool [] s)) as Hlen.
  fold pool in Hlen. cbn [tasks length] in Hlen.
  split; [exact Hlen |]. split; [exact Hf |]. now rewrite Ha, Hlen.
Qed.

Lemma login_is_not_single_flight_witness :
  attempts
    (shared (schedule Script.env [Enter; Resume 0; Resume 0; Enter]
               (mkPool [] (Script.ready Script.with_credentials []))))
  = 2%nat.
Proof.
  exact (proj2 (proj2
    (login_is_not_single_flight _ Script.env
       (Script.ready Script.with_credentials [])
       [Enter; Resume 0; Resume 0; Enter] eq_refl eq_refl eq_refl))).
Defined.

(* ===================================================================== *)
(** * Further properties of the code *)
(* ===================================================================== *)

(** ** The session record along a run *)

Lemma sync_step_told {W} (env : Environment W) (c : sync) (s : State W) :
  told c (session s) (fst (sync_step env c s))
  /\ session (snd (sync_step env c s)) = session_after c (session s).
Proof. destruct c; cbn; split; reflexivity. Qed.

Lemma tracked_run {A} (Q : SessionState -> outcome A -> Prop) (p : prog A) :
  forall W (env : Environment W) (s : State W),
    tracked Q (session s) p ->
    Q (session (snd (run env p s))) (fst (run env p s)).
Proof.
  intros W env. induction p as [a | e | c k IH | c k IH]; intros s H; cbn in *.
  - exact H.
  - exact H.
  - destruct (sync_step_told env c s) as [Ht Hs].
    destruct (sync_step env c s) as [r s']. cbn [fst snd] in Ht, Hs.
    apply IH. rewrite Hs. apply H, Ht.
  - pose proof (call_step_session env c s) as Hs.
    destruct (call_step env c s) as [o s']. cbn [snd] in Hs.
    apply IH. rewrite Hs. apply H.
Qed.

(** No program assigns the browser, the page or the current project:
    only [initialize] and [close] do. *)
Lemma run_keeps_handles {A} (p : prog A) :
  forall W (env : Environment W) (s : State W),
    browser (session (snd (run env p s))) = browser (session s)
    /\ page (session (snd (run env p s))) = page (session s)
    /\ currentProject (session (snd (run env p s))) = currentProject (session s)
    /\ environ (snd (run env p s)) = environ s.
Proof.
  intros W env. induction p as [a | e | c k IH | c k IH]; intros s; cbn.
  - repeat split.
  - repeat split.
  - assert (H : browser (session (snd (sync_step env c s))) = browser (session s)
                /\ page (session (snd (sync_step env c s))) = page (session s)
                /\ currentProject (session (snd (sync_step env c s)))
                   = currentProject (session s)
                /\ environ (snd (sync_step env c s)) = environ s)
      by (destruct c; repeat split).
    destruct (sync_step env c s) as [r s']. cbn [snd] in H.
    destruct H as (H1 & H2 & H3 & H4).
    destruct (IH r s') as (I1 & I2 & I3 & I4).
    repeat split; congruence.
  - assert (H : session (snd (call_step env c s)) = session s
                /\ environ (snd (call_step env c s)) = environ s)
      by (unfold call_step; destruct (respond env c (world s)); split; reflexivity).
    destruct (call_step env c s) as [o s']. cbn [snd] in H.
    destruct H as (H1 & H2).
    destruct (IH o s') as (I1 & I2 & I3 & I4).
    repeat split; congruence.
Qed.

Lemma ensureLoggedIn_session (st : SessionState) :
  tracked authenticated_or_rejected st ensureLoggedIn.
Proof.
  destruct st as [br pg [|] cp]; unfold authenticated_or_rejected;
    walk_session; repeat split; reflexivity.
Qed.

(** X1.  [ensureLoggedIn] resolves exactly when it leaves the session marked
    as logged in: it resolves (with [true]) only with the flag set, and
    when it throws the flag is clear.  On a session already marked as
    logged in it does nothing, so a call that follows a successful one
    makes no call on the page and writes nothing. *)
Theorem ensureLoggedIn_marks_session :
  forall W (env : Environment W) (s : State W),
    let res := run env ensureLoggedIn s in
    authenticated_or_rejected (session (snd res)) (fst res)
    /\ (isLoggedIn (session s) = true -> res = (Resolved true, s))
    /\ (forall b (env' : Environment W),
          fst res = Resolved b ->
          run env' ensureLoggedIn (snd res) = (Resolved true, snd res)).
Proof.
  intros W env s res.
  assert (Hnoop : forall (env0 : Environment W) (s0 : State W),
             isLoggedIn (session s0) = true ->
             run env0 ensureLoggedIn s0 = (Resolved true, s0)).
  { intros env0 s0 H. unfold ensureLoggedIn, BrowserManager.isLoggedIn.
    cbn. rewrite H. reflexivity. }
  pose proof (tracked_run _ _ W env s (ensureLoggedIn_session (session s))) as H.
  fold res in H.
  split; [exact H |]. split; [apply Hnoop |].
  intros b env' Hb. apply Hnoop.
  rewrite Hb in H. apply H.
Qed.

Lemma login_session (st : SessionState) (username password : option string) :
  page st = Some ThePage ->
  tracked logged_in_when_true st (BrowserManager.login username password).
Proof.
  destruct st as [br pg li cp]. cbn. intros ->.
  unfold logged_in_when_true, BrowserManager.login, BrowserManager.or_env.
  walk_session; eexists;
    (split; [reflexivity
            | let Hb := fresh "Hb" in
              intros Hb; first [discriminate Hb | reflexivity | exact Hb]]).
Qed.

(** X2.  [login] raises only for want of a page.  Without a page it throws
    "Browser not initialized" and touches nothing; with a page it always
    returns a boolean, whatever the page does, and when it returns
    [true] the session is marked as logged in. *)
Theorem login_raises_only_without_page :
  forall W (env : Environment W) (s : State W) (username password : option string),
    let res := run env (BrowserManager.login username password) s in
    (page (session s) = None ->
     res = (Rejected (JsError "Browser not initialized"), s))
    /\ (page (session s) = Some ThePage ->
        exists b, fst res = Resolved b
                  /\ (b = true -> isLoggedIn (session (snd res)) = true)).
Proof.
  intros W env s username password res. split.
  - intros H. unfold res, BrowserManager.login. cbn. rewrite H. reflexivity.
  - intros H.
    apply (tracked_run _ _ W env s (login_session (session s) username password H)).
Qed.

(** X3.  [checkLoginStatus] never raises and writes nothing.  Without a page
    it answers [false] without any call; with a page it makes one status
    query and answers [true] exactly when the query resolves to an
    element (a rejected query counts as [false]). *)
Theorem checkLoginStatus_total :
  forall W (env : Environment W) (s : State W),
    let res := run env BrowserManager.checkLoginStatus s in
    session (snd res) = session s
    /\ (page (session s) = None -> res = (Resolved false, s))
    /\ (page (session s) = Some ThePage ->
        fst res
        = Resolved (shows_dashboard
                      (fst (respond env (Query BrowserManager.dashboard_sel) (world s))))
        /\ issued (snd res)
           = (issued s
              ++ [(Query BrowserManager.dashboard_sel,
                   resolved (fst (respond env (Query BrowserManager.dashboard_sel)
                                          (world s))))])%list).
Proof.
  intros W env s res.
  assert (Hnone : page (session s) = None -> res = (Resolved false, s)).
  { intros H. unfold res, BrowserManager.checkLoginStatus. cbn. now rewrite H. }
  assert (Hsome : page (session s) = Some ThePage ->
                  res = (Resolved (shows_dashboard
                                     (fst (call_step env (Query BrowserManager.dashboard_sel) s))),
                         snd (call_step env (Query BrowserManager.dashboard_sel) s))).
  { intros H. apply (run_checkLoginStatus W env s H). }
  split; [| split].
  - destruct (page (session s)) as [[] |] eqn:Hp.
    + rewrite (Hsome eq_refl). cbn [snd]. apply call_step_session.
    + now rewrite (Hnone eq_refl).
  - exact Hnone.
  - intros H. rewrite (Hsome H). cbn [fst snd].
    rewrite call_step_fst. split; [reflexivity |].
    rewrite (call_step_issued W env). now rewrite call_step_fst.
Qed.

(** ** Domain operations and the session *)

Lemma navigate_session (st : SessionState) (p : NavigateTool.NavigateParams) :
  tracked success_needs_session st (NavigateTool.execute p).
Proof.
  unfold NavigateTool.execute, success_needs_session.
  walk_session; session_path.
Qed.

Lemma project_session (st : SessionState) (p : ProjectTool.ProjectParams) :
  tracked success_needs_session st (ProjectTool.execute p).
Proof.
  unfold ProjectTool.execute, success_needs_session.
  walk_session; session_path.
Qed.

Lemma upload_session (st : SessionState) (resolve : string -> string)
      (p : UploadFileTool.UploadFileParams) :
  tracked success_needs_session st (UploadFileTool.execute resolve p).
Proof.
  unfold UploadFileTool.execute, success_needs_session.
  walk_session; session_path.
Qed.

Lemma run_verification_session (st : SessionState)
      (p : RunVerificationTool.RunVerificationParams) :
  tracked success_needs_session st (RunVerificationTool.execute p).
Proof.
  unfold RunVerificationTool.execute, RunVerificationTool.type_number,
    success_needs_session.
  walk_session; session_path.
Qed.

(** X4.  No domain operation succeeds on a session that is not logged in:
    whenever navigate, project, upload or run verification returns a
    success through [validateAndExecute], the session is marked as
    logged in and has a page at that moment.  The browser, the page, the
    current project and the process environment are never assigned by a
    tool. *)
Theorem success_requires_authenticated_session :
  forall (x : Externals) (t : Tool),
    In t (domainOperations x) ->
    forall (params : json) W (env : Environment W) (s : State W) r s',
      run env (validateAndExecute t params) s = (Resolved r, s') ->
      (success r = true ->
       isLoggedIn (session s') = true /\ page (session s') = Some ThePage)
      /\ browser (session s') = browser (session s)
      /\ page (session s') = page (session s)
      /\ currentProject (session s') = currentProject (session s)
      /\ environ s' = environ s.
Proof.
  intros x t Hin params W env s r s' Hrun.
  split.
  - intros Hs.
    rewrite run_validateAndExecute in Hrun.
    destruct (schema_parse t params) as [v | z];
      [| injection Hrun as <- _; discriminate Hs].
    assert (Ht : forall st, tracked success_needs_session st (execute t v)).
    { intros st. cbn in Hin.
      destruct Hin as [<- | [<- | [<- | [<- | []]]]].
      - apply navigate_session.
      - apply project_session.
      - apply upload_session.
      - apply run_verification_session. }
    pose proof (tracked_run _ _ W env
                  (after_log s info ("Executing tool: " ++ getName t))
                  (Ht _)) as H.
    destruct (run env (execute t v) _) as [[r0 | e] s1]; cbn [fst snd] in H;
      injection Hrun as <- <-; [| discriminate Hs].
    apply (H _ eq_refl Hs).
  - pose proof (run_keeps_handles (validateAndExecute t params) W env s) as H.
    rewrite Hrun in H. exact H.
Qed.

Lemma success_requires_authenticated_session_witness :
  let s := Script.ready Script.with_credentials
             [Script.ok; Script.ok; Script.ok; Script.ok; Script.ok; Script.ok;
              Script.found 3%nat] in
  let p := validateAndExecute (NavigateTool.instance Script.parse_navigate)
                              (JObj [("action", JStr "projects")]) in
  isLoggedIn (session (snd (run Script.env p s))) = true.
Proof.
  intros s p.
  refine (proj1 (proj1 (success_requires_authenticated_session
                   Script.externals (NavigateTool.instance Script.parse_navigate)
                   (or_introl eq_refl)
                   (JObj [("action", JStr "projects")]) _ Script.env s
                   (succeed (JObj [("action", JStr "projects");
                                   ("currentUrl", JStr "about:blank")]))
                   (snd (run Script.env p s)) _) eq_refl)).
  vm_compute. reflexivity.
Defined.

(** ** Without a page *)

(** X5.  On a session without a page every domain operation fails at once,
    without any call on the page and without touching the session: with
    "Browser not initialized" (thrown by [login] and reported by
    [validateAndExecute]) when the session is not marked as logged in,
    and with "Browser page not available" when it is. *)
Theorem domain_operations_need_a_page :
  forall (x : Externals) (t : Tool),
    In t (domainOperations x) ->
    forall (params : json) (v : Params t) W (env : Environment W) (s : State W),
      schema_parse t params = inl v ->
      page (session s) = None ->
      exists s',
        run env (validateAndExecute t params) s
        = (Resolved (fail (no_page_message (session s))), s')
        /\ issued s' = issued s
        /\ world s' = world s
        /\ session s' = session s.
Proof.
  intros x t Hin params v W env s Hparse Hpage.
  rewrite run_validateAndExecute, Hparse.
  destruct s as [[br pg li cp] en lg w tr]. cbn in Hpage. subst pg.
  cbn in Hin.
  destruct Hin as [<- | [<- | [<- | [<- | []]]]]; destruct li; cbn;
    eexists; repeat split.
Qed.

Lemma domain_operations_need_a_page_witness :
  exists s',
    run Script.env
        (validateAndExecute
           (UploadFileTool.instance Script.resolve_in_work Script.parse_upload)
           (JObj [("projectId", JStr "p1"); ("filePath", JStr "cpu.v")]))
        (Script.uninitialized [])
    = (Resolved (fail "Browser not initialized"), s').
Proof.
  destruct (domain_operations_need_a_page
              Script.externals
              (UploadFileTool.instance Script.resolve_in_work Script.parse_upload)
              (or_intror (or_intror (or_introl eq_refl)))
              (JObj [("projectId", JStr "p1"); ("filePath", JStr "cpu.v")])
              {| UploadFileTool.projectId := "p1";
                 UploadFileTool.filePath := "cpu.v";
                 UploadFileTool.fileType := None |}
              _ Script.env (Script.uninitialized []) eq_refl eq_refl)
    as [s' [Hrun _]].
  exists s'. exact Hrun.
Defined.

(** ** Life cycle of the browser *)


(** X7.  [close] is idempotent and safe to call at any time.  Without a
    browser it does nothing.  When [browser.close] resolves, the browser
    is dropped, with it the page (of a session that holds a page only
    together with a browser), and the session is marked as logged out; a
    second [close] then does nothing, whatever [browser.close] would
    answer.  When [browser.close] throws, the error is passed on and the
    state is left as it was. *)
Theorem close_resets_session :
  forall W (closed : outcome unit) (s : State W),
    let res := Lifecycle.close closed s in
    (browser (session s) = None -> res = (Resolved tt, s))
    /\ (forall e, browser (session s) <> None -> closed = Rejected e ->
        res = (Rejected e, s))
    /\ (fst res = Resolved tt ->
        browser (session (snd res)) = None
        /\ (page_needs_browser (session s) -> page (session (snd res)) = None)
        /\ (browser (session s) <> None -> isLoggedIn (session (snd res)) = false)
        /\ forall closed', Lifecycle.close closed' (snd res) = (Resolved tt, snd res))
    /\ (page_needs_browser (session s) -> page_needs_browser (session (snd res))).
Proof.
  intros W closed s res. unfold res, Lifecycle.close.
  destruct (browser (session s)) as [b |] eqn:Hb.
  - destruct closed as [[] | e]; cbn.
    + split; [intros H; discriminate H |].
      split; [intros e _ H; discriminate H |].
      split; [| intros _ H; now elim H].
      intros _. repeat split.
    + split; [intros H; discriminate H |].
      split; [intros e' _ H; injection H as <-; reflexivity |].
      split; [intros H; discriminate H |].
      intros H. exact H.
  - cbn. split; [reflexivity |].
    split; [intros e H; now elim H |].
    split; [| intros H; exact H].
    intros _. split; [exact Hb |]. split.
    + intros Hinv. destruct (page (session s)) as [p |] eqn:Hp; [| reflexivity].
      exfalso. apply Hinv; [rewrite Hp; discriminate | exact Hb].
    + split; [intros H; now elim H |]. intros closed'. now rewrite Hb.
Qed.


(** ** The request handlers *)

(** The handlers of every registered tool stay within [safe]. *)
Lemma registered_safe (x : Externals) (t : Tool) :
  In t (toolInstances x) -> forall v, always safe (execute t v).
Proof.
  intros Hin. cbn in Hin.
  destruct Hin as [<- | [<- | [<- | [<- | [<- | []]]]]]; intros v.
  - apply navigate_safe.
  - apply project_safe.
  - apply upload_safe.
  - apply run_verification_safe.
  - apply natural_language_safe.
Qed.

Lemma setupTools_entries (x : Externals) :
  Server.setupTools x = map (fun t => (getName t, t)) (toolInstances x).
Proof. reflexivity. Qed.

(** X10.  The registry built by [setupTools] holds the five tools under five
    different names, in the order of construction; no [set] replaces an
    earlier entry.  Looking a name up gives the tool of that name, and
    nothing for any other name. *)
Theorem registry_lookup :
  forall (x : Externals) (name : string),
    map fst (Server.setupTools x) = tool_names
    /\ Server.map_values (Server.setupTools x) = toolInstances x
    /\ NoDup tool_names
    /\ (forall t, Server.map_get (Server.setupTools x) name = Some t
                  <-> In t (toolInstances x) /\ getName t = name)
    /\ (Server.map_get (Server.setupTools x) name = None
        <-> ~ In name tool_names).
Proof.
  intros x name.
  split; [reflexivity |]. split; [reflexivity |].
  split.
  { repeat constructor; cbn; intuition discriminate. }
  rewrite setupTools_entries. cbn -[String.eqb].
  split.
  - intros t. split.
    + repeat match goal with
             | |- context [String.eqb ?a name] =>
                 destruct (String.eqb_spec a name) as [<- | ?]
             end; intros H; try discriminate H; injection H as <-;
        (split; [tauto | reflexivity]).
    + intros [[<- | [<- | [<- | [<- | [<- | []]]]]] <-]; reflexivity.
  - split.
    + repeat match goal with
             | |- context [String.eqb ?a name] =>
                 destruct (String.eqb_spec a name) as [<- | ?]
             end; intros H; try discriminate H.
      intros [E | [E | [E | [E | [E | []]]]]]; congruence.
    + intros H.
      repeat match goal with
             | |- context [String.eqb ?a name] =>
                 destruct (String.eqb_spec a name) as [<- | ?]
             end; try reflexivity; exfalso; apply H; cbn; tauto.
Qed.

Lemma registered_lookup (x : Externals) (name : string) (t : Tool) :
  Server.map_get (Server.setupTools x) name = Some t -> In t (toolInstances x).
Proof.
  rewrite setupTools_entries. cbn -[String.eqb].
  repeat match goal with
         | |- context [String.eqb ?a name] => destruct (String.eqb a name)
         end; intros H; try discriminate H; injection H as <-; cbn; tauto.
Qed.

Lemma validateAndExecute_resolves {W} (env : Environment W) (t : Tool)
      (params : json) (s : State W) :
  exists r s', run env (validateAndExecute t params) s = (Resolved r, s').
Proof.
  rewrite run_validateAndExecute.
  destruct (schema_parse t params) as [v | z]; [| eauto].
  destruct (run env (execute t v) _) as [[r | e] s1]; eauto.
Qed.

(** X11.  A call of a tool that is not registered is refused with the
    [McpError] "Tool <name> not found" (code [MethodNotFound]); nothing
    is logged and no call is made.  Only such calls are refused. *)
Theorem callTool_unknown_tool :
  forall (stringify : json -> string) (x : Externals) (name : string)
         (args : option json) W (env : Environment W) (s : State W),
    (~ In name tool_names ->
     run env (Server.callTool stringify x name args) s
     = (Resolved (inl {| Server.code := Server.MethodNotFound;
                         Server.reason := "Tool " ++ name ++ " not found" |}), s))
    /\ (In name tool_names ->
        exists res s',
          run env (Server.callTool stringify x name args) s
          = (Resolved (inr res), s')).
Proof.
  intros stringify x name args W env s. split.
  - intros Hname. unfold Server.callTool.
    destruct (Server.map_get (Server.setupTools x) name) as [t |] eqn:Hget.
    + exfalso. apply Hname.
      rewrite setupTools_entries in Hget. cbn -[String.eqb] in Hget.
      repeat match type of Hget with
             | context [String.eqb ?a name] =>
                 destruct (String.eqb_spec a name) as [<- | ?]
             end; try discriminate Hget; cbn; tauto.
    + reflexivity.
  - intros Hname. unfold Server.callTool.
    destruct (Server.map_get (Server.setupTools x) name) as [t |] eqn:Hget.
    + destruct (validateAndExecute_resolves env t (Server.or_empty args) s)
        as (r & s' & Hrun).
      rewrite run_try_catch, run_bind, Hrun.
      destruct (success r); cbn; eauto.
    + exfalso. revert Hget. rewrite setupTools_entries. cbn -[String.eqb].
      cbn in Hname.
      destruct Hname as [<- | [<- | [<- | [<- | [<- | []]]]]]; discriminate.
Qed.

(** X12.  A call of a registered tool answers with what [validateAndExecute]
    returns for the arguments (for an empty object when there are
    none): the text is always present; on success it is the data in
    JSON and [isError] is not set; on failure it is "Error: " followed
    by the error message and [isError] is set.  The handler's own
    [catch] is never entered: the state is the one [validateAndExecute]
    leaves, without a further log entry. *)
Theorem callTool_answers_with_result :
  forall (stringify : json -> string) (x : Externals) (name : string) (t : Tool),
    Server.map_get (Server.setupTools x) name = Some t ->
    forall (args : option json) W (env : Environment W) (s : State W),
    exists r s' txt,
      run env (validateAndExecute t (Server.or_empty args)) s = (Resolved r, s')
      /\ run env (Server.callTool stringify x name args) s
         = (Resolved (inr {| Server.content_text := Some txt;
                             Server.isError := negb (success r) |}), s')
      /\ (success r = true -> exists d, data r = Some d /\ txt = stringify d)
      /\ (success r = false ->
          exists m, error r = Some m /\ m <> EmptyString /\ txt = "Error: " ++ m).
Proof.
  intros stringify x name t Hget args W env s.
  destruct (validateAndExecute_resolves env t (Server.or_empty args) s)
    as (r & s' & Hrun).
  pose proof (dispatch_contract t (registered_safe x t (registered_lookup x name t Hget))
                _ W env s r s' Hrun) as Hc.
  unfold Server.callTool. rewrite Hget, run_try_catch, run_bind, Hrun.
  unfold contract in Hc.
  destruct r as [[|] d e m]; cbn in Hc |- *.
  - destruct Hc as [Hd He]. destruct d as [d |]; [| now elim Hd].
    exists (mkResult true (Some d) e m), s', (stringify d).
    split; [reflexivity |]. split; [reflexivity |].
    split; [intros _; now exists d | intros H; discriminate H].
  - destruct Hc as [(msg & He & Hne) Hd]. subst e.
    exists (mkResult false d (Some msg) m), s', ("Error: " ++ msg).
    split; [reflexivity |]. split; [reflexivity |].
    split; [intros H; discriminate H | intros _; now exists msg].
Qed.

Lemma callTool_answers_with_result_witness :
  exists r s' txt,
    run Script.env
        (validateAndExecute (ProjectTool.instance Script.parse_project) (JObj []))
        (Script.uninitialized [])
    = (Resolved r, s')
    /\ run Script.env
           (Server.callTool (fun _ => "{}") Script.externals
                            "arcas_onlineeda_project" None)
           (Script.uninitialized [])
       = (Resolved (inr {| Server.content_text := Some txt;
                           Server.isError := negb (success r) |}), s').
Proof.
  destruct (callTool_answers_with_result
              (fun _ => "{}") Script.externals "arcas_onlineeda_project"
              (ProjectTool.instance Script.parse_project) eq_refl
              None _ Script.env (Script.uninitialized []))
    as (r & s' & txt & H1 & H2 & _).
  exists r, s', txt. split; [exact H1 | exact H2].
Defined.

(** X13.  Reading a resource succeeds exactly for the URIs that the list of
    resources announces.  The answer then has one entry, under the URI
    asked for and with the MIME type announced for it; except for
    [arcas://projects] the state is left alone and the text is present.
    Any other URI is refused with the [McpError] "Failed to read
    resource: Unknown resource: <uri>" (code [InternalError]), without
    any effect. *)
Theorem readResource_serves_listed_resources :
  forall (stringify : json -> string) (now : string) (x : Externals)
         (uri : string) W (env : Environment W) (s : State W),
    (forall r, In r Server.listResources -> Server.uri r = uri ->
       exists txt s',
         run env (Server.readResource stringify now x uri) s
         = (Resolved (inr [ {| Server.contents_uri := uri;
                               Server.contents_mimeType := Server.mimeType r;
                               Server.text := txt |} ]), s')
         /\ (uri <> "arcas://projects" -> s' = s /\ txt <> None))
    /\ ((forall r, In r Server.listResources -> Server.uri r <> uri) ->
        run env (Server.readResource stringify now x uri) s
        = (Resolved (inl {| Server.code := Server.InternalError;
                            Server.reason := "Failed to read resource: Unknown resource: "
                                             ++ uri |}), s)).
Proof.
  intros stringify now x uri W env s. split.
  - intros r Hin <-. cbn in Hin.
    destruct Hin as [<- | [<- | [<- | [<- | []]]]].
    + destruct (validateAndExecute_resolves env
                  (ProjectTool.instance (ProjectSchema x))
                  (JObj [("action", JStr "list")]) s) as (r & s' & Hrun).
      exists (option_map stringify (data r)), s'. split.
      * unfold Server.readResource.
        rewrite run_try_catch, run_bind.
        cbn -[validateAndExecute run bind].
        rewrite run_bind, Hrun. reflexivity.
      * intros H. now elim H.
    + eexists; exists s. split; [reflexivity |].
      intros _. split; [reflexivity | discriminate].
    + destruct s as [[br pg li cp] en lg w tr].
      eexists; eexists. split; [reflexivity |].
      intros _. split; [reflexivity | discriminate].
    + eexists; exists s. split; [reflexivity |].
      intros _. split; [reflexivity | discriminate].
  - intros Hnot. unfold Server.readResource.
    rewrite run_try_catch, run_bind.
    assert (Hne : forall u, In u (map Server.uri Server.listResources) -> u <> uri).
    { intros u Hu. apply in_map_iff in Hu. destruct Hu as (r & <- & Hr).
      now apply Hnot. }
    cbn in Hne.
    repeat match goal with
           | |- context [String.eqb uri ?a] =>
               destruct (String.eqb_spec uri a) as [-> | ?];
                 [exfalso; eapply Hne; [| reflexivity]; tauto |]
           end.
    reflexivity.
Qed.

Lemma readResource_serves_listed_resources_witness :
  exists txt s',
    run Script.env
        (Server.readResource (fun _ => "{}") "2024-01-01T00:00:00.000Z"
                             Script.externals "arcas://documentation")
        (Script.uninitialized [])
    = (Resolved (inr [ {| Server.contents_uri := "arcas://documentation";
                          Server.contents_mimeType := "text/markdown";
                          Server.text := txt |} ]), s').
Proof.
  destruct (proj1 (readResource_serves_listed_resources
                     (fun _ => "{}") "2024-01-01T00:00:00.000Z" Script.externals
                     "arcas://documentation" _ Script.env (Script.uninitialized []))
                  {| Server.uri := "arcas://documentation";
                     Server.name := "Arcas OnlineEDA Documentation";
                     Server.description := "Platform documentation and user guides";
                     Server.mimeType := "text/markdown" |}
                  (or_intror (or_intror (or_intror (or_introl eq_refl)))) eq_refl)
    as (txt & s' & Hrun & _).
  exists txt, s'. exact Hrun.
Defined.

(** X14.  Reading [arcas://projects] lists the projects through
    [validateAndExecute] of the project tool and never fails: when the
    listing succeeds the text is its data in JSON; when the listing
    fails (no browser, no login, a page that does not load), the entry
    is returned all the same, without text, and the error message of
    the listing is dropped. *)
Theorem readResource_projects_drops_failure :
  forall (stringify : json -> string) (now : string) (x : Externals)
         W (env : Environment W) (s : State W),
  exists r s',
    run env (validateAndExecute (ProjectTool.instance (ProjectSchema x))
                                (JObj [("action", JStr "list")])) s
    = (Resolved r, s')
    /\ run env (Server.readResource stringify now x "arcas://projects") s
       = (Resolved (inr [ {| Server.contents_uri := "arcas://projects";
                             Server.contents_mimeType := "application/json";
                             Server.text := option_map stringify (data r) |} ]), s')
    /\ (success r = true -> exists d, data r = Some d)
    /\ (success r = false -> data r = None /\ error r <> None).
Proof.
  intros stringify now x W env s.
  destruct (validateAndExecute_resolves env
              (ProjectTool.instance (ProjectSchema x))
              (JObj [("action", JStr "list")]) s) as (r & s' & Hrun).
  exists r, s'. split; [exact Hrun |]. split.
  - unfold Server.readResource.
    rewrite run_try_catch, run_bind.
    cbn -[validateAndExecute run bind].
    rewrite run_bind, Hrun. reflexivity.
  - pose proof (dispatch_contract (ProjectTool.instance (ProjectSchema x))
                  project_safe _ W env s r s' Hrun) as Hc.
    unfold contract in Hc. split; intros Hs; rewrite Hs in Hc.
    + destruct Hc as [Hd _]. destruct (data r) as [d |]; [now exists d | now elim Hd].
    + destruct Hc as [(m & He & _) Hd]. split; [exact Hd |]. rewrite He. discriminate.
Qed.

(** X15.  The status resource reports the logged-in flag as the state of the
    browser: "connected" exactly when the session is marked as logged
    in, whether or not a browser or a page is held.  Reading it changes
    nothing. *)
Theorem platform_status_reports_login_flag :
  forall (stringify : json -> string) (now : string) (x : Externals)
         W (env : Environment W) (s : State W),
  exists status,
    run env (Server.readResource stringify now x "arcas://platform-status") s
    = (Resolved (inr [ {| Server.contents_uri := "arcas://platform-status";
                          Server.contents_mimeType := "application/json";
                          Server.text :=
                            Some (stringify
                              (JObj [("status", JStr "online");
                                     ("browser", JStr status);
                                     ("timestamp", JStr now)])) |} ]), s)
    /\ (status = "connected" <-> isLoggedIn (session s) = true)
    /\ (status = "disconnected" <-> isLoggedIn (session s) = false).
Proof.
  intros stringify now x W env s.
  destruct s as [[br pg li cp] en lg w tr].
  exists (if li then "connected" else "disconnected").
  split; [reflexivity |].
  destruct li; cbn; split; split; intros H; first [reflexivity | discriminate H].
Qed.

(** ** The natural-language tool *)

Lemma consider_in (words : list string) (l : list NaturalLanguageTool.Example)
      (best : option NaturalLanguageTool.Example * Q) (e : NaturalLanguageTool.Example) :
  fst (fold_left (NaturalLanguageTool.consider words) l best) = Some e ->
  In e l \/ fst best = Some e.
Proof.
  revert best. induction l as [| x l IH]; intros best H; cbn in H.
  - now right.
  - apply IH in H. destruct H as [H | H]; [left; now right |].
    unfold NaturalLanguageTool.consider in H.
    destruct (_ && _) in H; cbn in H.
    + injection H as <-. left; now left.
    + now right.
Qed.

(** X16.  The natural-language tool needs no browser: for every query it
    returns a successful result with an interpretation, straight away.
    Through [validateAndExecute] it makes no call on the page and leaves
    the session as it is, whatever the state of the browser. *)
Theorem natural_language_needs_no_browser :
  forall (params : NaturalLanguageTool.NaturalLanguageParams),
    (exists d i,
       NaturalLanguageTool.execute params = Ret (succeed d)
       /\ get "interpretation" d = Some (JStr i))
    /\ forall (x : Externals) (raw : json) W (env : Environment W) (s : State W),
         NaturalLanguageSchema x raw = inl params ->
         exists d s',
           run env (validateAndExecute
                      (NaturalLanguageTool.instance (NaturalLanguageSchema x)) raw) s
           = (Resolved (succeed d), s')
           /\ session s' = session s
           /\ world s' = world s
           /\ issued s' = issued s.
Proof.
  intros params.
  assert (Hpure : exists d i,
             NaturalLanguageTool.execute params = Ret (succeed d)
             /\ get "interpretation" d = Some (JStr i)).
  { unfold NaturalLanguageTool.execute.
    destruct (NaturalLanguageTool.findBestExample _) as [e |].
    - eexists; eexists; split; reflexivity.
    - repeat match goal with
             | |- context [if ?b then _ else _] => destruct b
             end; eexists; eexists; split; reflexivity. }
  split; [exact Hpure |].
  intros x raw W env s Hparse.
  destruct Hpure as (d & i & Hd & _).
  exists d. rewrite run_validateAndExecute.
  cbn [schema_parse execute getName NaturalLanguageTool.instance].
  rewrite Hparse, Hd. cbn.
  eexists. split; [reflexivity |]. repeat split.
Qed.

(** X17.  The letter case of a query does not matter: two queries that agree
    after [toLowerCase] (and come with the same context) get the same
    answer, except in the fall-back answer, which quotes each query as
    it was written. *)
Theorem natural_language_ignores_case :
  forall (p1 p2 : NaturalLanguageTool.NaturalLanguageParams),
    Js.toLowerCase (NaturalLanguageTool.query p1)
    = Js.toLowerCase (NaturalLanguageTool.query p2) ->
    NaturalLanguageTool.context p1 = NaturalLanguageTool.context p2 ->
    NaturalLanguageTool.execute p1 = NaturalLanguageTool.execute p2
    \/ (NaturalLanguageTool.execute p1
        = Ret (NaturalLanguageTool.provideFallbackWithExamples
                 (NaturalLanguageTool.query p1))
        /\ NaturalLanguageTool.execute p2
           = Ret (NaturalLanguageTool.provideFallbackWithExamples
                    (NaturalLanguageTool.query p2))).
Proof.
  intros p1 p2 Hq Hc. unfold NaturalLanguageTool.execute.
  rewrite Hq, Hc.
  destruct (NaturalLanguageTool.findBestExample _) as [e |]; [now left |].
  repeat match goal with
         | |- context [if ?b then _ else _] => destruct b; [now left |]
         end.
  right. split; reflexivity.
Qed.

Lemma natural_language_ignores_case_witness :
  NaturalLanguageTool.execute
    {| NaturalLanguageTool.query := "Go To The Documentation";
       NaturalLanguageTool.context := None |}
  = NaturalLanguageTool.execute
      {| NaturalLanguageTool.query := "go to the documentation";
         NaturalLanguageTool.context := None |}.
Proof.
  destruct (natural_language_ignores_case
              {| NaturalLanguageTool.query := "Go To The Documentation";
                 NaturalLanguageTool.context := None |}
              {| NaturalLanguageTool.query := "go to the documentation";
                 NaturalLanguageTool.context := None |}
              eq_refl eq_refl) as [H | [H _]].
  - exact H.
  - vm_compute in H. discriminate H.
Defined.

(** X18.  Whatever the query, a suggested tool is one of the four tools that
    drive the page, or the word "workflow" of the two workflow
    examples, which is not the name of a registered tool; the
    natural-language tool never suggests itself. *)
Theorem suggested_tool_is_a_domain_tool :
  forall (x : Externals) (params : NaturalLanguageTool.NaturalLanguageParams)
         (d : json) (tool : string),
    NaturalLanguageTool.execute params = Ret (succeed d) ->
    get "suggestedTool" d = Some (JStr tool) ->
    (exists t, In t (domainOperations x) /\ getName t = tool)
    \/ (tool = "workflow"
        /\ Server.map_get (Server.setupTools x) tool = None
        /\ exists e, NaturalLanguageTool.findBestExample
                       (Js.toLowerCase (NaturalLanguageTool.query params)) = Some e
                     /\ NaturalLanguageTool.Example.tool e = "workflow").
Proof.
  intros x params d tool. unfold NaturalLanguageTool.execute.
  assert (Hdom : forall n,
             In n ["arcas_onlineeda_navigate"; "arcas_onlineeda_project";
                   "arcas_onlineeda_upload_file"; "arcas_onlineeda_run_verification"] ->
             exists t, In t (domainOperations x) /\ getName t = n).
  { intros n [<- | [<- | [<- | [<- | []]]]];
      [ exists (NavigateTool.instance (NavigateSchema x))
      | exists (ProjectTool.instance (ProjectSchema x))
      | exists (UploadFileTool.instance (resolve x) (UploadFileSchema x))
      | exists (RunVerificationTool.instance (RunVerificationSchema x)) ].
    all: split.
    all: try reflexivity.
    all: cbn.
    all: tauto. }
  destruct (NaturalLanguageTool.findBestExample _) as [e |] eqn:Hbest.
  - intros H Hget. 
    injection H as <-. 
    cbn in Hget. injection Hget as <-.
    unfold NaturalLanguageTool.findBestExample,
      NaturalLanguageTool.findBestExampleIn in Hbest.
    pose proof Hbest as Hin. apply consider_in in Hin.
    destruct Hin as [Hin | Hin]; [| discriminate Hin].
    assert (Hall : Forall (fun e =>
                    In (NaturalLanguageTool.Example.tool e)
                       ["arcas_onlineeda_navigate"; "arcas_onlineeda_project";
                        "arcas_onlineeda_upload_file";
                        "arcas_onlineeda_run_verification"]
                    \/ NaturalLanguageTool.Example.tool e = "workflow")
                   NaturalLanguageTool.examples).
    { repeat apply Forall_cons; try apply Forall_nil. all: cbn. all: tauto. }
    rewrite Forall_forall in Hall. destruct (Hall e Hin) as [H | H].
    + left. now apply Hdom.
    + right. split; [exact H |]. split; [rewrite H; reflexivity |].
      exists e. split; [reflexivity | exact H].
  - repeat match goal with
           | |- context [if ?b then _ else _] => destruct b
           end; intros H Hget; injection H as <-; cbn in Hget;
      try discriminate Hget; injection Hget as <-; left; apply Hdom; cbn; tauto.
Qed.

Lemma suggested_tool_is_a_domain_tool_witness :
  (exists t, In t (domainOperations Script.externals)
             /\ getName t = "arcas_onlineeda_navigate")
  \/ ("arcas_onlineeda_navigate" = "workflow"
      /\ Server.map_get (Server.setupTools Script.externals)
                        "arcas_onlineeda_navigate" = None
      /\ exists e, NaturalLanguageTool.findBestExample
                     (Js.toLowerCase "Go to the documentation") = Some e
                   /\ NaturalLanguageTool.Example.tool e = "workflow").
Proof.
  refine (suggested_tool_is_a_domain_tool
            Script.externals
            {| NaturalLanguageTool.query := "Go to the documentation";
               NaturalLanguageTool.context := None |}
            (JObj [("interpretation", JStr "Navigate to documentation");
                   ("suggestedTool", JStr "arcas_onlineeda_navigate");
                   ("suggestedParams", JObj [("action", JStr "documentation")]);
                   ("matchedExample", JStr "Go to the documentation");
                   ("confidence", JStr "high")])
            "arcas_onlineeda_navigate" _ eq_refl).
  vm_compute. reflexivity.
Defined.

(** X19.  Every example of the corpus is recognised under its own wording, in
    any letter case: the answer is built from that very example, with
    confidence "high". *)
Theorem examples_recognise_themselves :
  forall (e : NaturalLanguageTool.Example)
         (params : NaturalLanguageTool.NaturalLanguageParams),
    In e NaturalLanguageTool.examples ->
    Js.toLowerCase (NaturalLanguageTool.query params)
    = Js.toLowerCase (NaturalLanguageTool.Example.query e) ->
    NaturalLanguageTool.execute params = Ret (NaturalLanguageTool.matched e).
Proof.
  intros e params Hin Hq. unfold NaturalLanguageTool.execute. rewrite Hq.

  assert (Hall : Forall (fun e =>
                   NaturalLanguageTool.findBestExample
                     (Js.toLowerCase (NaturalLanguageTool.Example.query e)) = Some e)
                 NaturalLanguageTool.examples).
  { repeat apply Forall_cons; try apply Forall_nil; vm_compute; reflexivity. }
  rewrite Forall_forall in Hall. rewrite (Hall e Hin). reflexivity.
Qed.

Lemma examples_recognise_themselves_witness :
  exists e,
    nth_error NaturalLanguageTool.examples 11 = Some e
    /\ NaturalLanguageTool.execute
         {| NaturalLanguageTool.query := "GO TO THE DOCUMENTATION";
            NaturalLanguageTool.context := None |}
       = Ret (NaturalLanguageTool.matched e).
Proof.
  eexists. split; [reflexivity |].
  apply examples_recognise_themselves; [| reflexivity].
  do 11 right. left. reflexivity.
Defined.

Lemma commonWords_permutation (w1 w2 ex : list string) :
  Permutation w1 w2 ->
  NaturalLanguageTool.commonWords w1 ex = NaturalLanguageTool.commonWords w2 ex.
Proof.
  unfold NaturalLanguageTool.commonWords.
  induction 1 as [| x l l' _ IH | x y l | l l' l'' _ IH1 _ IH2]; cbn.
  - reflexivity.
  - destruct (Js.arr_includes ex x); cbn; congruence.
  - destruct (Js.arr_includes ex x), (Js.arr_includes ex y); reflexivity.
  - congruence.
Qed.

(** X20.  The order of the words of a query plays no part in stage A: two
    queries whose words are the same up to their order get the same
    example, or both none. *)
Theorem findBestExample_ignores_word_order :
  forall (corpus : list NaturalLanguageTool.Example) (q1 q2 : string),
    Permutation (Js.split " " q1) (Js.split " " q2) ->
    NaturalLanguageTool.findBestExampleIn corpus q1
    = NaturalLanguageTool.findBestExampleIn corpus q2.
Proof.
  intros corpus q1 q2 Hperm. unfold NaturalLanguageTool.findBestExampleIn.
  f_equal. generalize (@None NaturalLanguageTool.Example, 0%Q).
  induction corpus as [| e corpus IH]; intros best; cbn [fold_left].
  - reflexivity.
  - replace (NaturalLanguageTool.consider (Js.split " " q1) best e)
      with (NaturalLanguageTool.consider (Js.split " " q2) best e); [apply IH |].
    unfold NaturalLanguageTool.consider, NaturalLanguageTool.score.
    rewrite (commonWords_permutation _ _ _ Hperm),
      (Permutation_length Hperm). reflexivity.
Qed.

Lemma findBestExample_ignores_word_order_witness :
  NaturalLanguageTool.findBestExampleIn NaturalLanguageTool.examples
    "go to the documentation"
  = NaturalLanguageTool.findBestExampleIn NaturalLanguageTool.examples
      "documentation the to go".
Proof.
  apply (findBestExample_ignores_word_order NaturalLanguageTool.examples
           "go to the documentation" "documentation the to go").
  exact (Permutation_rev ["go"; "to"; "the"; "documentation"]).
Defined.

Lemma commonWords_le (words ex : list string) :
  (NaturalLanguageTool.commonWords words ex <= length words)%nat.
Proof. unfold NaturalLanguageTool.commonWords. apply filter_length_le. Qed.

Lemma score_half (words ex : list string) :
  1 # 2 < NaturalLanguageTool.score words ex ->
  (Nat.max (length words) (length ex)
   < 2 * NaturalLanguageTool.commonWords words ex)%nat.
Proof.
  unfold NaturalLanguageTool.score, Qlt. cbn [Qnum Qden].
  pose proof (commonWords_le words ex) as Hle.
  set (c := NaturalLanguageTool.commonWords words ex) in *.
  set (m := Nat.max (length words) (length ex)).
  assert (Hm : (length words <= m)%nat) by apply Nat.le_max_l.
  intros H. destruct m as [| m'] eqn:Em.
  - cbn in H. lia.
  - rewrite <- Em in *.
    assert (Hpos : Z.pos (Pos.of_nat m) = Z.of_nat m).
    { rewrite <- positive_nat_Z, Nat2Pos.id; [reflexivity | lia]. }
    rewrite Hpos in H. lia.
Qed.

(** X21.  The score of an example lies between 0 and 1, and an example is
    only ever returned by stage A when more than half of the words of
    the query are among its words and they number more than half of its
    own words; it is then an example of the corpus. *)
Theorem stage_A_match_shares_most_words :
  (forall words ex : list string,
     0 <= NaturalLanguageTool.score words ex
     /\ NaturalLanguageTool.score words ex <= 1)
  /\ forall (corpus : list NaturalLanguageTool.Example) (query : string)
            (e : NaturalLanguageTool.Example),
       NaturalLanguageTool.findBestExampleIn corpus query = Some e ->
       let words := Js.split " " query in
       let exampleWords := NaturalLanguageTool.example_words e in
       In e corpus
       /\ (length words
           < 2 * NaturalLanguageTool.commonWords words exampleWords)%nat
       /\ (length exampleWords
           < 2 * NaturalLanguageTool.commonWords words exampleWords)%nat.
Proof.
  split.
  - intros words ex. unfold NaturalLanguageTool.score, Qle. cbn [Qnum Qden].
    pose proof (commonWords_le words ex) as Hle.
    set (c := NaturalLanguageTool.commonWords words ex) in *.
    split; [lia |].
    pose proof (Nat.le_max_l (length words) (length ex)) as Hm.
    destruct (Nat.max (length words) (length ex)) as [| m'] eqn:Em.
    + cbn. lia.
    + assert (Hpos : Z.pos (Pos.of_nat (S m')) = Z.of_nat (S m')).
      { rewrite <- positive_nat_Z, Nat2Pos.id; [reflexivity | lia]. }
      rewrite Hpos. lia.
  - intros corpus query e Hbest words exampleWords.
    pose proof (scan_invariant query corpus) as Hscan.
    unfold NaturalLanguageTool.findBestExampleIn in Hbest.
    unfold scanned in Hscan. rewrite Hbest in Hscan.
    destruct Hscan as (_ & Hhalf & (pre & post & Hc & _)).
    apply score_half in Hhalf. fold words exampleWords in Hhalf.
    split; [rewrite Hc; apply in_or_app; right; now left |].
    split; lia.
Qed.

Lemma stage_A_match_shares_most_words_witness :
  exists e,
    NaturalLanguageTool.findBestExampleIn NaturalLanguageTool.examples
      "go to the documentation" = Some e
    /\ (4 < 2 * NaturalLanguageTool.commonWords
                  ["go"; "to"; "the"; "documentation"]
                  (NaturalLanguageTool.example_words e))%nat.
Proof.
  eexists. split; [vm_compute; reflexivity |].
  refine (proj1 (proj2 (proj2 stage_A_match_shares_most_words
                          NaturalLanguageTool.examples
                          "go to the documentation" _ _))).
  vm_compute. reflexivity.
Defined.

Lemma detect_range (table : list (string * list string)) (query dflt : string) :
  NaturalLanguageTool.detect table query dflt = dflt
  \/ In (NaturalLanguageTool.detect table query dflt) (map fst table).
Proof.
  induction table as [| [key keywords] table IH]; cbn.
  - now left.
  - destruct (NaturalLanguageTool.some_in keywords query).
    + right; now left.
    + destruct IH as [IH | IH]; [now left | right; now right].
Qed.

(** X22.  Whatever the query, the value a suggestion proposes for a slot with
    a fixed set of values is one of the values the schema of the
    suggested tool accepts: a project type, a verification type, a file
    type (never "other") and a navigation action. *)
Theorem suggested_values_are_accepted :
  forall query : string,
    (exists t, slot (NaturalLanguageTool.suggestProjectCreation query) "projectType"
               = Some (JStr (type_name t)))
    /\ (exists t, slot (NaturalLanguageTool.suggestVerification query) "verificationType"
                  = Some (JStr (type_name t)))
    /\ (exists t, slot (NaturalLanguageTool.suggestFileUpload query) "fileType"
                  = Some (JStr (file_type_name t))
                  /\ t <> UploadFileTool.other)
    /\ (exists a, slot (NaturalLanguageTool.suggestNavigation query) "action"
                  = Some (JStr (NavigateTool.action_name a))).
Proof.
  intros query.
  split; [| split; [| split]].
  - unfold NaturalLanguageTool.suggestProjectCreation, slot. cbn [data succeed].
    match goal with
    | |- context [NaturalLanguageTool.detect ?t ?q ?d] =>
        pose proof (detect_range t q d) as H;
          set (v := NaturalLanguageTool.detect t q d) in *; clearbody v;
          cbn in H; destruct H as [-> | [<- | [<- | [<- | [<- | [<- | []]]]]]]
    end;
      [ exists formal | exists formal | exists equivalence | exists power
      | exists security | exists fpga ]; reflexivity.
  - unfold NaturalLanguageTool.suggestVerification, slot. cbn [data succeed].
    match goal with
    | |- context [NaturalLanguageTool.detect ?t ?q ?d] =>
        pose proof (detect_range t q d) as H;
          set (v := NaturalLanguageTool.detect t q d) in *; clearbody v;
          cbn in H; destruct H as [-> | [<- | [<- | [<- | [<- | [<- | []]]]]]]
    end;
      [ exists formal | exists formal | exists equivalence | exists power
      | exists security | exists fpga ]; reflexivity.
  - unfold NaturalLanguageTool.suggestFileUpload, slot. cbn [data succeed].
    match goal with
    | |- context [NaturalLanguageTool.detect ?t ?q ?d] =>
        pose proof (detect_range t q d) as H;
          set (v := NaturalLanguageTool.detect t q d) in *; clearbody v;
          cbn in H; destruct H as [-> | [<- | [<- | [<- | [<- | []]]]]]
    end;
      [ exists UploadFileTool.verilog | exists UploadFileTool.verilog
      | exists UploadFileTool.systemverilog | exists UploadFileTool.vhdl
      | exists UploadFileTool.constraints ]; (split; [reflexivity | discriminate]).
  - unfold NaturalLanguageTool.suggestNavigation, slot. cbn [data succeed].
    match goal with
    | |- context [NaturalLanguageTool.detect ?t ?q ?d] =>
        pose proof (detect_range t q d) as H;
          set (v := NaturalLanguageTool.detect t q d) in *; clearbody v;
          cbn in H; destruct H as [-> | [<- | [<- | [<- | [<- | [<- | []]]]]]]
    end;
      [ exists NavigateTool.home | exists NavigateTool.home
      | exists NavigateTool.projects | exists NavigateTool.new_project
      | exists NavigateTool.documentation | exists NavigateTool.settings ];
      reflexivity.
Qed.

(** ** The calls of navigation and of the project operations *)

Ltac script_leaf :=
  match goal with
  | |- exists pre, ?tr = (pre ++ ?suf)%list /\ _ =>
      exists (firstn (length tr - length suf) tr);
      split; [reflexivity | unfold login_calls; repeat constructor]
  end.

Ltac navigate_path :=
  unfold navigate_trace; cbn; intros;
  match goal with
  | Hr : Rejected _ = Resolved _ |- _ => discriminate Hr
  | Hr : Resolved _ = Resolved _, Hs : success _ = true |- _ =>
      injection Hr as <-;
      first [ discriminate Hs
            | split; [unfold completed; script_leaf | eexists; reflexivity] ]
  end.

Lemma navigate_calls (params : NavigateTool.NavigateParams) :
  along (navigate_trace params) [] (NavigateTool.execute params).
Proof.
  unfold NavigateTool.execute.
  walk; navigate_path.
Qed.

Lemma navigate_url_injective (a b : NavigateTool.Action) :
  navigate_url a = navigate_url b -> a = b.
Proof. destruct a, b; intros H; first [reflexivity | discriminate H]. Qed.

(** X23.  A navigation that reports success has made, after the calls of
    [login] if any, exactly [page.goto] of the address of its action
    and [page.waitForTimeout(1000)], both resolved, and returns the
    action with the address reached.  Different actions go to different
    addresses. *)
Theorem navigate_success_trace :
  forall (params : NavigateTool.NavigateParams) W (env : Environment W)
         (s : State W) (r : ToolResult) (s' : State W),
    run env (NavigateTool.execute params) s = (Resolved r, s') ->
    success r = true ->
    (exists pre currentUrl,
       issued s'
       = (issued s ++ pre
            ++ [ (Goto (navigate_url (NavigateTool.action params)) None, true);
                 (WaitForTimeout 1000, true) ])%list
       /\ login_calls pre
       /\ r = succeed (JObj [("action",
                              JStr (NavigateTool.action_name
                                      (NavigateTool.action params)));
                             ("currentUrl", JStr currentUrl)]))
    /\ (forall a b, navigate_url a = navigate_url b -> a = b).
Proof.
  intros params W env s r s' Hrun Hs.
  destruct (along_from _ _ (navigate_calls params) W env s _ _ Hrun)
    as (tr & Htr & Hq).
  destruct (Hq r eq_refl Hs) as [(pre & -> & Hpre) (u & ->)].
  split.
  - exists pre, u. split; [exact Htr |]. split; [exact Hpre | reflexivity].
  - exact navigate_url_injective.
Qed.

Lemma navigate_success_trace_witness :
  exists pre currentUrl,
    issued (snd (run Script.env
                   (NavigateTool.execute {| NavigateTool.action := NavigateTool.projects;
                                            NavigateTool.projectId := None |})
                   (Script.authenticated [Script.ok; Script.ok])))
    = (pre ++ [ (Goto "https://onlineeda.arcas-da.com/projects" None, true);
                (WaitForTimeout 1000, true) ])%list
    /\ login_calls pre
    /\ fst (run Script.env
              (NavigateTool.execute {| NavigateTool.action := NavigateTool.projects;
                                       NavigateTool.projectId := None |})
              (Script.authenticated [Script.ok; Script.ok]))
       = Resolved (succeed (JObj [("action", JStr "projects");
                                  ("currentUrl", JStr currentUrl)])).
Proof.
  pose (p := {| NavigateTool.action := NavigateTool.projects;
                NavigateTool.projectId := None |}).
  pose (s := Script.authenticated [Script.ok; Script.ok]).
  destruct (navigate_success_trace p _ Script.env s
              (succeed (JObj [("action", JStr "projects");
                              ("currentUrl", JStr "about:blank")]))
              (snd (run Script.env (NavigateTool.execute p) s))
              eq_refl eq_refl) as [(pre & u & H1 & H2 & H3) _].
  exists pre, "about:blank". split; [exact H1 |]. split; [exact H2 | reflexivity].
Defined.

Ltac project_path :=
  unfold project_trace; cbn;
  lazymatch goal with
  | |- _ /\ _ =>
      split;
      [ unfold login_calls; repeat constructor
      | intros;
        match goal with
        | Hr : Rejected _ = Resolved _ |- _ => discriminate Hr
        | Hr : Resolved _ = Resolved _ |- _ =>
            injection Hr as <-; first [left; reflexivity | right; reflexivity]
        end ]
  | |- _ =>
      intros;
      match goal with
      | Hr : Rejected _ = Resolved _ |- _ => discriminate Hr
      | Hr : Resolved _ = Resolved _, Hs : success _ = true |- _ =>
          injection Hr as <-;
          first [ discriminate Hs | unfold completed; script_leaf ]
      end
  end.

Lemma project_calls (params : ProjectTool.ProjectParams) :
  along (project_trace params) [] (ProjectTool.execute params).
Proof.
  destruct params as [a n t i].
  destruct a;
    [ destruct n as [[| c n] |]; destruct t as [t |]
    | destruct i as [[| c i] |]
    |
    | destruct i as [[| c i] |] ];
    unfold ProjectTool.execute; walk; project_path.
Qed.

(** X24.  A project operation whose parameters are there reports success only
    after its page calls were made in order and each of them resolved,
    preceded by nothing but calls of [login]: six calls to create a
    project, one to open one, two to list the projects, four to delete
    one.  When a name, a type or an identifier that the action needs is
    missing or empty, the operation fails without any call of its own;
    on a session that is logged in the message names what is required
    and nothing changes. *)
Theorem project_operations_follow_script :
  forall (params : ProjectTool.ProjectParams) W (env : Environment W)
         (s : State W) (r : ToolResult) (s' : State W),
    run env (ProjectTool.execute params) s = (Resolved r, s') ->
    match project_script params with
    | Some script =>
        success r = true ->
        exists pre,
          issued s' = (issued s ++ pre ++ map (fun c => (c, true)) script)%list
          /\ login_calls pre
    | None =>
        success r = false
        /\ (exists pre, issued s' = (issued s ++ pre)%list /\ login_calls pre)
        /\ (isLoggedIn (session s) = true -> page (session s) = Some ThePage ->
            r = fail (project_requirement (ProjectTool.action params)) /\ s' = s)
    end.
Proof.
  intros params W env s r s' Hrun.
  destruct (along_from _ _ (project_calls params) W env s _ _ Hrun)
    as (tr & Htr & Hq).
  unfold project_trace in Hq.
  destruct (project_script params) as [script |] eqn:Hscript.
  - intros Hs. destruct (Hq r eq_refl Hs) as (pre & -> & Hpre).
    exists pre. split; [exact Htr | exact Hpre].
  - destruct Hq as [Hlogin Hr]. split; [| split].
    + destruct (Hr r eq_refl) as [-> | ->]; reflexivity.
    + exists tr. split; [exact Htr | exact Hlogin].
    + intros Hli Hpg.
      destruct s as [[br pg li cp] en lg w tr0]. cbn in Hli, Hpg. subst li pg.
      destruct params as [a n t i]. unfold project_script in Hscript.
      cbn in Hscript, Hrun |- *.
      destruct a; cbn in Hscript, Hrun.
      * destruct (BrowserManager.truthy_value n) as [name |];
          [destruct t as [t |]; [discriminate Hscript |] |];
          cbn in Hrun; injection Hrun as <- <-; split; reflexivity.
      * destruct (BrowserManager.truthy_value i) as [id |];
          [discriminate Hscript |].
        cbn in Hrun; injection Hrun as <- <-; split; reflexivity.
      * discriminate Hscript.
      * destruct (BrowserManager.truthy_value i) as [id |];
          [discriminate Hscript |].
        cbn in Hrun; injection Hrun as <- <-; split; reflexivity.
Qed.

Lemma project_operations_follow_script_witness :
  let p := {| ProjectTool.action := ProjectTool.delete;
              ProjectTool.projectName := None;
              ProjectTool.projectType := None;
              ProjectTool.projectId := Some "p7" |} in
  let s := Script.authenticated [Script.ok; Script.ok; Script.ok; Script.ok] in
  exists pre,
    issued (snd (run Script.env (ProjectTool.execute p) s))
    = (issued s ++ pre
         ++ map (fun c => (c, true))
              [ Goto "https://onlineeda.arcas-da.com/projects/p7/settings" None;
                Click (".delete-project-btn, "
                       ++ attr_sel "button" "data-action" "delete");
                WaitForSelector ".confirm-delete, .modal-confirm" None;
                Click (".confirm-delete, "
                       ++ attr_sel "button" "data-confirm" "delete") ])%list
    /\ login_calls pre.
Proof.
  intros p s.
  refine (project_operations_follow_script
            p _ Script.env s
            (succeed (JObj [("projectId", JStr "p7");
                            ("message", JStr "Project deleted successfully")]))
            (snd (run Script.env (ProjectTool.execute p) s)) _ eq_refl).
  vm_compute. reflexivity.
Defined.

(** X25.  Parameters that the schemas accept and the operations never read:
    [projectId] of a navigation, [fileType] of an upload and
    [options.properties] of a verification run make no difference to
    what is done. *)
Theorem unused_parameters :
  (forall action id1 id2,
     NavigateTool.execute {| NavigateTool.action := action;
                             NavigateTool.projectId := id1 |}
     = NavigateTool.execute {| NavigateTool.action := action;
                               NavigateTool.projectId := id2 |})
  /\ (forall resolve projectId filePath type1 type2,
        UploadFileTool.execute resolve
          {| UploadFileTool.projectId := projectId;
             UploadFileTool.filePath := filePath;
             UploadFileTool.fileType := type1 |}
        = UploadFileTool.execute resolve
            {| UploadFileTool.projectId := projectId;
               UploadFileTool.filePath := filePath;
               UploadFileTool.fileType := type2 |})
  /\ (forall projectId type timeout depth properties1 properties2,
        RunVerificationTool.execute
          {| RunVerificationTool.projectId := projectId;
             RunVerificationTool.verificationType := type;
             RunVerificationTool.options :=
               Some {| RunVerificationTool.timeout := timeout;
                       RunVerificationTool.depth := depth;
                       RunVerificationTool.properties := properties1 |} |}
        = RunVerificationTool.execute
            {| RunVerificationTool.projectId := projectId;
               RunVerificationTool.verificationType := type;
               RunVerificationTool.options :=
                 Some {| RunVerificationTool.timeout := timeout;
                         RunVerificationTool.depth := depth;
                         RunVerificationTool.properties := properties2 |} |}).
Proof.
  split; [| split]; intros; reflexivity.
Qed.

(** X9.  The browser part of [start] never fails and never writes the
    logged-in flag; it makes at most the two calls of
    [navigateToOnlineEDA].  When the browser cannot be launched, or
    after a [close], the server still answers: every domain operation
    is refused with "Browser not initialized", without any call. *)
Theorem operations_refused_without_browser :
  forall (x : Externals) (t : Tool),
    In t (domainOperations x) ->
    forall (raw : json) (v : Params t) W (env : Environment W),
      schema_parse t raw = inl v ->
      (forall e newPage setViewport environ w,
         let s := Lifecycle.start_browser env (Rejected e) newPage setViewport
                    (Lifecycle.constructed environ w) in
         exists s',
           run env (validateAndExecute t raw) s
           = (Resolved (fail "Browser not initialized"), s')
           /\ issued s' = [])
      /\ (forall s : State W,
            browser (session s) <> None ->
            let s1 := snd (Lifecycle.close (Resolved tt) s) in
            exists s',
              run env (validateAndExecute t raw) s1
              = (Resolved (fail "Browser not initialized"), s')
              /\ issued s' = issued s)
      /\ (forall launch newPage setViewport (s : State W),
            let s1 := Lifecycle.start_browser env launch newPage setViewport s in
            isLoggedIn (session s1) = isLoggedIn (session s)
            /\ (length (issued s1) <= length (issued s) + 2)%nat).
Proof.
  intros x t Hin raw v W env Hparse.
  split; [| split].
  - intros e newPage setViewport environ w s. subst s.
    rewrite run_validateAndExecute, Hparse. cbn in Hin.
    destruct Hin as [<- | [<- | [<- | [<- | []]]]]; cbn;
      eexists; split; reflexivity.
  - intros s Hb s1. subst s1.
    rewrite run_validateAndExecute, Hparse.
    destruct s as [[br pg li cp] en lg w tr]. cbn in Hb.
    destruct br as [b |]; [| now elim Hb].
    cbn in Hin.
    destruct Hin as [<- | [<- | [<- | [<- | []]]]]; cbn;
      eexists; split; reflexivity.
  - intros launch newPage setViewport s s1. subst s1.
    unfold Lifecycle.start_browser, Lifecycle.initialize.
    destruct s as [[br pg li cp] en lg w tr].
    destruct launch as [b | e1]; [| cbn; split; [reflexivity | lia]].
    destruct newPage as [[] | e2]; [| cbn; split; [reflexivity | lia]].
    destruct setViewport as [[] | e3]; [| cbn; split; [reflexivity | lia]].
    cbn. unfold call_step; cbn.
    destruct (respond env (Goto _ _) w) as [[[] | e] w1]; cbn.
    + unfold call_step; cbn.
      destruct (respond env (WaitForTimeout _) w1) as [[[] | e] w2]; cbn;
        (split; [reflexivity |]); rewrite !length_app; cbn; lia.
    + split; [reflexivity |]. rewrite !length_app; cbn; lia.
Qed.

Lemma operations_refused_without_browser_witness :
  exists s',
    run Script.env
        (validateAndExecute (ProjectTool.instance Script.parse_project)
                            (JObj [("action", JStr "list")]))
        (Lifecycle.start_browser Script.env
           (Rejected (JsError "Failed to launch the browser process"))
           (Resolved ThePage) (Resolved tt)
           (Lifecycle.constructed Script.no_env (@nil Script.answer)))
    = (Resolved (fail "Browser not initialized"), s')
    /\ issued s' = [].
Proof.
  refine (proj1 (operations_refused_without_browser
                   Script.externals (ProjectTool.instance Script.parse_project)
                   (or_intror (or_introl eq_refl))
                   (JObj [("action", JStr "list")]) _ _ Script.env _)
                (JsError "Failed to launch the browser process")
                (Resolved ThePage) (Resolved tt) Script.no_env []).
  vm_compute. reflexivity.
Defined.
